(** * vc-scraper: resilient acquisition and change-tracked persistence

    A shallow embedding of the fault-tolerance layer
    ([lib/utils/retry_logic.py], [lib/scrapers/base_scraper.py]), of the
    record fingerprinting of [lib/cleaning/data_cleaner.py] and of the
    upsert protocol of [lib/database/supabase_client.py], with the
    properties the specification states about them.

    Conventions.
    - Python dictionaries are [gmap string value].
    - Effectful code is a function [W -> result A * W] over an explicit
      world; exceptions are the [Raise] outcome.  An exception is its
      class, its text and its explicit cause ([raise ... from ...]); the
      implicit context the interpreter attaches to an exception raised
      inside a handler is not represented.
    - Wall-clock readings, durations and the samples of [random.random()]
      are rationals ([Q]); floating-point rounding is not modelled.
    - Ghost logs (the list of invocations and sleeps of a wrapper) are
      returned next to the result; they are not state of the program. *)

From Stdlib Require Import ZArith QArith Qminmax Lqa Lia String Ascii List Bool.
From stdpp Require Import gmap strings list fin_maps pretty.

Set Warnings "-register-all".
Local Open Scope Z_scope.

(** ** Exceptions *)

(** The exception classes that occur in the modelled code.  The scraping
    classes are declared at the end of [retry_logic.py]; the others come
    from the interpreter and from the HTTP and browser libraries. *)
Inductive exn_class : Set :=
  | Exception
  | ClientError
  | ClientResponseError
  | TimeoutError
  | ScrapingError
  | RateLimitError
  | ParseError
  | ValidationError
  | RetryError
  | ValueError
  | TypeError
  | KeyError
  | AttributeError
  | OverflowError
  | PlaywrightError.

#[global] Instance exn_class_eq_dec : EqDecision exn_class.
Proof. solve_decision. Defined.

(** Direct superclass. *)
Definition base_class (c : exn_class) : option exn_class :=
  match c with
  | Exception => None
  | ClientResponseError => Some ClientError
  | RateLimitError | ParseError | ValidationError => Some ScrapingError
  | _ => Some Exception
  end.

(** [issubclass c d]: the hierarchy has depth two. *)
Definition issubclass (c d : exn_class) : bool :=
  bool_decide (c = d)
  || match base_class c with
     | None => false
     | Some b =>
         bool_decide (b = d)
         || match base_class b with
            | None => false
            | Some b' => bool_decide (b' = d)
            end
     end.

(** An exception instance as the code constructs it: its class, the text
    [str(e)] and the explicit cause of a [raise ... from ...]
    ([__cause__]).  The implicit context ([__context__]) that the
    interpreter attaches to an exception raised while another one is
    being handled is not represented: equality of two values of this type
    says nothing about it, and no statement below is about it. *)
Inductive exn : Type :=
  | Exn (cls : exn_class) (msg : string) (cause : option exn).

Definition exn_cls (e : exn) : exn_class := let 'Exn c _ _ := e in c.
Definition exn_str (e : exn) : string := let 'Exn _ m _ := e in m.

(** [isinstance(e, classes)] for a tuple of classes. *)
Definition isinstance (e : exn) (classes : list exn_class) : bool :=
  existsb (issubclass (exn_cls e)) classes.

(** [str(x)] for an optional exception ([None] prints as its name). *)
Definition str_opt_exn (o : option exn) : string :=
  match o with
  | None => "None"
  | Some e => exn_str e
  end.

(** ** Outcomes and effectful computations *)

Inductive result (A : Type) : Type :=
  | Ok (a : A)
  | Raise (e : exn).
Arguments Ok {A} a.
Arguments Raise {A} e.

Definition is_ok {A} (r : result A) : bool :=
  match r with Ok _ => true | Raise _ => false end.

(** A computation over a world [W] that returns or raises. *)
Definition Eff (W A : Type) : Type := W -> result A * W.

Definition eret {W A} (a : A) : Eff W A := fun w => (Ok a, w).
Definition eraise {W A} (e : exn) : Eff W A := fun w => (Raise e, w).
Definition ebind {W A B} (m : Eff W A) (k : A -> Eff W B) : Eff W B :=
  fun w =>
    match m w with
    | (Ok a, w') => k a w'
    | (Raise e, w') => (Raise e, w')
    end.
(** [try: m except Exception as e: h e]. *)
Definition ecatch {W A} (m : Eff W A) (h : exn -> Eff W A) : Eff W A :=
  fun w =>
    match m w with
    | (Ok a, w') => (Ok a, w')
    | (Raise e, w') => h e w'
    end.
Definition emodify {W} (f : W -> W) : Eff W unit := fun w => (Ok tt, f w).
Definition eget {W A} (f : W -> A) : Eff W A := fun w => (Ok (f w), w).

Declare Scope eff_scope.
Delimit Scope eff_scope with eff.
Notation "'let*' x ':=' m 'in' k" := (ebind m (fun x => k))
  (at level 10, x pattern, m at level 100, k at level 200) : eff_scope.
Notation "m ';;;' k" := (ebind m (fun _ => k))
  (at level 100, k at level 200, right associativity) : eff_scope.

(** Levels of the [logging] module. *)
Inductive level : Set := DEBUG | INFO | WARNING | ERROR.

(** ** Retry executor and circuit breaker ([lib/utils/retry_logic.py]) *)

Module Retry.

(** The arguments of the [with_retry] decorator. *)
Record RetryPolicy : Type := {
  max_attempts : Z;
  backoff_factor : Q;
  jitter : bool;
  initial_delay : Q;
  max_delay : Q;
  exceptions : list exn_class;
  reraise_exceptions : option (list exn_class)
}.

(** The defaults of the signature of [with_retry]. *)
Definition default_policy : RetryPolicy := {|
  max_attempts := 3;
  backoff_factor := 2;
  jitter := true;
  initial_delay := 1;
  max_delay := 60;
  exceptions := [Exception];
  reraise_exceptions := None
|}.

(** Ghost events of one run of the wrapper. *)
Inductive retry_event : Type :=
  | Invoked
  | Slept (d : Q).

Fixpoint invocations (tr : list retry_event) : nat :=
  match tr with
  | [] => O
  | Invoked :: tr' => S (invocations tr')
  | Slept _ :: tr' => invocations tr'
  end.

Fixpoint sleeps (tr : list retry_event) : list Q :=
  match tr with
  | [] => []
  | Invoked :: tr' => sleeps tr'
  | Slept d :: tr' => d :: sleeps tr'
  end.

Section with_retry.
Context {W A : Type}.
(** [asyncio.sleep] / [time.sleep] and [random.random()], as the world
    provides them. *)
Variable sleep : Q -> W -> W.
Variable random : W -> Q * W.
Variable policy : RetryPolicy.
(** [func.__name__] and the decorated function. *)
Variable func_name : string.
Variable func : Eff W A.

(** The exception raised once the loop is over. *)
Definition retry_error (last_exception : option exn) : exn :=
  Exn RetryError
      ("Function " +:+ func_name +:+ " failed after "
       +:+ pretty (max_attempts policy) +:+ " attempts. Last error: "
       +:+ str_opt_exn last_exception)
      last_exception.

(** [reraise_exceptions and isinstance(e, reraise_exceptions)]: [None]
    and the empty tuple are both falsy. *)
Definition must_reraise (e : exn) : bool :=
  match reraise_exceptions policy with
  | None => false
  | Some [] => false
  | Some cs => isinstance e cs
  end.

(** The body of the [for attempt in range(max_attempts)] loop, [n]
    iterations left, with the ghost log of what it did. *)
Fixpoint retry_loop (n : nat) (attempt : Z) (delay : Q)
    (last_exception : option exn) (w : W)
    : result A * W * list retry_event :=
  match n with
  | O => (Raise (retry_error last_exception), w, [])
  | S n' =>
      match func w with
      | (Ok a, w1) => (Ok a, w1, [Invoked])
      | (Raise e, w1) =>
          if must_reraise e then (Raise e, w1, [Invoked])
          else if negb (isinstance e (exceptions policy)) then
            (Raise e, w1, [Invoked])
          else if attempt =? max_attempts policy - 1 then
            (* break: no delay after the last attempt *)
            (Raise (retry_error (Some e)), w1, [Invoked])
          else
            let '(actual_delay, w2) :=
              if jitter policy then
                let '(r, w2) := random w1 in ((delay * (0.5 + r))%Q, w2)
              else (delay, w1) in
            let actual_delay := Qmin actual_delay (max_delay policy) in
            let w3 := sleep actual_delay w2 in
            let '(res, w4, tr) :=
              retry_loop n' (attempt + 1) (delay * backoff_factor policy)%Q
                         (Some e) w3 in
            (res, w4, Invoked :: Slept actual_delay :: tr)
      end
  end.

(** [async_wrapper] and [sync_wrapper] have the same body; they differ
    in the sleep primitive only. *)
Definition wrapper_traced (w : W) : result A * W * list retry_event :=
  retry_loop (Z.to_nat (max_attempts policy)) 0 (initial_delay policy) None w.

Definition async_wrapper : Eff W A := fun w => fst (wrapper_traced w).
End with_retry.

(** *** CircuitBreaker *)

Inductive cb_state : Set := CLOSED | OPEN | HALF_OPEN.

#[global] Instance cb_state_eq_dec : EqDecision cb_state.
Proof. solve_decision. Defined.

Record CircuitBreaker : Type := {
  failure_threshold : Z;
  timeout : Q;
  expected_exception : list exn_class;
  failure_count : Z;
  last_failure_time : option Q;
  state : cb_state
}.

(** [CircuitBreaker.__init__]. *)
Definition init (failure_threshold : Z) (timeout : Q)
    (expected_exception : list exn_class) : CircuitBreaker := {|
  failure_threshold := failure_threshold;
  timeout := timeout;
  expected_exception := expected_exception;
  failure_count := 0;
  last_failure_time := None;
  state := CLOSED
|}.

(** [_should_try_reset], at wall-clock time [now]. *)
Definition _should_try_reset (cb : CircuitBreaker) (now : Q) : bool :=
  match last_failure_time cb with
  | None => true
  | Some t => Qle_bool (timeout cb) (now - t)
  end.

(** [_on_success]. *)
Definition _on_success (cb : CircuitBreaker) : CircuitBreaker := {|
  failure_threshold := failure_threshold cb;
  timeout := timeout cb;
  expected_exception := expected_exception cb;
  failure_count := 0;
  last_failure_time := None;
  state := CLOSED
|}.

(** [_on_failure], at wall-clock time [now]. *)
Definition _on_failure (cb : CircuitBreaker) (now : Q) : CircuitBreaker :=
  let count := failure_count cb + 1 in
  {|
    failure_threshold := failure_threshold cb;
    timeout := timeout cb;
    expected_exception := expected_exception cb;
    failure_count := count;
    last_failure_time := Some now;
    state := if failure_threshold cb <=? count then OPEN else state cb
  |}.

(** The two assignments of the OPEN branch of the wrapper. *)
Definition half_open (cb : CircuitBreaker) : CircuitBreaker := {|
  failure_threshold := failure_threshold cb;
  timeout := timeout cb;
  expected_exception := expected_exception cb;
  failure_count := 0;
  last_failure_time := last_failure_time cb;
  state := HALF_OPEN
|}.

Section circuit_breaker.
Context {W A : Type}.
(** [time.time()] and the text of a float in an f-string. *)
Variable time : W -> Q.
Variable str_of_float : Q -> string.

Definition circuit_open_error (cb : CircuitBreaker) : exn :=
  Exn Exception
      ("Circuit breaker is OPEN. Last failure: "
       +:+ match last_failure_time cb with
           | None => "None"
           | Some t => str_of_float t
           end)
      None.

(** The wrapper returned by [CircuitBreaker.__call__] around [func].
    The breaker is an object of its own: it is passed and returned next
    to the world.  The last component is the ghost log of invocations of
    [func], each with the breaker as it was at that moment. *)
Definition call_traced (func : Eff W A) (cb : CircuitBreaker) (w : W)
    : result A * CircuitBreaker * W * list CircuitBreaker :=
  let admitted :=
    match state cb with
    | OPEN =>
        if _should_try_reset cb (time w) then Some (half_open cb) else None
    | _ => Some cb
    end in
  match admitted with
  | None => (Raise (circuit_open_error cb), cb, w, [])
  | Some cb1 =>
      match func w with
      | (Ok a, w1) => (Ok a, _on_success cb1, w1, [cb1])
      | (Raise e, w1) =>
          if isinstance e (expected_exception cb1) then
            (Raise e, _on_failure cb1 (time w1), w1, [cb1])
          else (Raise e, cb1, w1, [cb1])
      end
  end.

Definition call (func : Eff W A) (cb : CircuitBreaker) (w : W)
    : result A * CircuitBreaker * W :=
  fst (call_traced func cb w).

(** [n] successive calls of the wrapped [func]; outcomes are dropped. *)
Fixpoint call_n (n : nat) (func : Eff W A) (cb : CircuitBreaker) (w : W)
    : CircuitBreaker * W :=
  match n with
  | O => (cb, w)
  | S n' =>
      let '(_, cb1, w1) := call func cb w in
      call_n n' func cb1 w1
  end.
End circuit_breaker.

(** A function whose every invocation is a qualifying failure: it raises
    an exception that matches the filter of the breaker. *)
Definition always_fails {W A : Type} (func : Eff W A)
    (expected : list exn_class) : Prop :=
  forall w, exists e w', func w = (Raise e, w') /\ isinstance e expected = true.

End Retry.


(** ** Python values *)

Module Py.

(** The values that occur in scraped and cleaned records.  A float is
    carried by its [repr], which identifies it. *)
Inductive value : Type :=
  | VNone
  | VBool (b : bool)
  | VInt (n : Z)
  | VFloat (repr : string)
  | VStr (s : string)
  | VList (l : list string).

#[global] Instance value_eq_dec : EqDecision value.
Proof. solve_decision. Defined.

(** A dictionary with string keys. *)
Abbreviation dict := (gmap string value).

(** Truth value of an object. *)
Definition truthy (v : value) : bool :=
  match v with
  | VNone => false
  | VBool b => b
  | VInt n => negb (n =? 0)
  | VFloat r => negb (bool_decide (r = "0.0") || bool_decide (r = "-0.0"))
  | VStr s => negb (bool_decide (s = EmptyString))
  | VList l => negb (bool_decide (l = []))
  end.

(** [a or b]. *)
Definition or_ (a b : value) : value := if truthy a then a else b.

(** [d.get(k)] and [d.get(k, default)]. *)
Definition get (d : dict) (k : string) : value := default VNone (d !! k).
Definition get_or (d : dict) (k : string) (dflt : value) : value :=
  default dflt (d !! k).

(** *** [repr] and [str] *)

Definition squote : ascii := ascii_of_N 39.
Definition dquote : ascii := ascii_of_N 34.
Definition backslash : ascii := ascii_of_N 92.

Definition hex_digit (n : N) : ascii :=
  ascii_of_N (if (n <? 10)%N then 48 + n else 87 + n).

(** Two lower-case hexadecimal digits of a byte. *)
Definition hex_byte (n : N) : string :=
  String (hex_digit (n / 16)) (String (hex_digit (n mod 16)) EmptyString).

Fixpoint contains_char (c : ascii) (s : string) : bool :=
  match s with
  | EmptyString => false
  | String c' s' => bool_decide (c = c') || contains_char c s'
  end.

(** The escaping of one character inside [quote]; bytes above 127 are
    the UTF-8 encoding of printable characters and are kept. *)
Definition escape_char (quote c : ascii) : string :=
  let n := N_of_ascii c in
  if bool_decide (c = quote) || bool_decide (c = backslash) then
    String backslash (String c EmptyString)
  else if (n =? 9)%N then "\t"
  else if (n =? 10)%N then "\n"
  else if (n =? 13)%N then "\r"
  else if (n <? 32)%N || (n =? 127)%N then "\x" +:+ hex_byte n
  else String c EmptyString.

Fixpoint escape (quote : ascii) (s : string) : string :=
  match s with
  | EmptyString => EmptyString
  | String c s' => escape_char quote c +:+ escape quote s'
  end.

(** [repr] of a [str]: single quotes, unless the text has a single quote
    and no double quote. *)
Definition repr_str (s : string) : string :=
  let quote : ascii :=
    if contains_char squote s && negb (contains_char dquote s)
    then dquote else squote in
  String quote (escape quote s +:+ String quote EmptyString).

Fixpoint join (sep : string) (l : list string) : string :=
  match l with
  | [] => EmptyString
  | [x] => x
  | x :: l' => x +:+ sep +:+ join sep l'
  end.

Definition repr (v : value) : string :=
  match v with
  | VNone => "None"
  | VBool true => "True"
  | VBool false => "False"
  | VInt n => pretty n
  | VFloat r => r
  | VStr s => repr_str s
  | VList l => "[" +:+ join ", " (map repr_str l) +:+ "]"
  end.

(** [str(v)], as an f-string prints a value. *)
Definition str (v : value) : string :=
  match v with
  | VStr s => s
  | _ => repr v
  end.

(** [repr] of the tuple [(k, v)]. *)
Definition repr_item (kv : string * value) : string :=
  "(" +:+ repr_str kv.1 +:+ ", " +:+ repr kv.2 +:+ ")".

(** [sorted(...)] of the items of a dictionary: the keys are distinct, so
    tuples are ordered by key, and strings compare by code point. *)
Fixpoint insert_item (kv : string * value) (l : list (string * value))
    : list (string * value) :=
  match l with
  | [] => [kv]
  | kv' :: l' =>
      if String.leb kv.1 kv'.1 then kv :: l else kv' :: insert_item kv l'
  end.

Definition sorted_items (d : dict) : list (string * value) :=
  foldr insert_item [] (map_to_list d).

(** [str(sorted(d.items()))]. *)
Definition str_sorted_items (d : dict) : string :=
  "[" +:+ join ", " (map repr_item (sorted_items d)) +:+ "]".

(** [int(s)] for a text: optional blanks around an optional sign and
    decimal digits, single underscores allowed between digits. *)
Definition is_blank (c : ascii) : bool :=
  let n := N_of_ascii c in
  (n =? 32)%N || ((9 <=? n)%N && (n <=? 13)%N).

Fixpoint lstrip (s : string) : string :=
  match s with
  | String c s' => if is_blank c then lstrip s' else s
  | EmptyString => EmptyString
  end.

Fixpoint all_blank (s : string) : bool :=
  match s with
  | EmptyString => true
  | String c s' => is_blank c && all_blank s'
  end.

Definition digit_of (c : ascii) : option Z :=
  let n := N_of_ascii c in
  if (48 <=? n)%N && (n <=? 57)%N then Some (Z.of_N n - 48) else None.

(** [after_digit]: the previous character was a digit (an underscore or
    the end may follow). *)
Fixpoint digits (acc : Z) (after_digit : bool) (s : string) : option Z :=
  match s with
  | EmptyString => if after_digit then Some acc else None
  | String c s' =>
      match digit_of c with
      | Some d => digits (10 * acc + d) true s'
      | None =>
          if bool_decide (c = "_"%char) && after_digit then
            match s' with
            | String c' _ =>
                if digit_of c' is Some _ then digits acc false s' else None
            | EmptyString => None
            end
          else if after_digit && all_blank s then Some acc
          else None
      end
  end.

Definition unsigned (s : string) : string :=
  match lstrip s with
  | String "-"%char s' => s'
  | String "+"%char s' => s'
  | s' => s'
  end.

(** The digits of the run of digits and underscores that [int] scans
    after the sign; [None] when an underscore is misplaced. *)
Fixpoint digit_run (count : nat) (after_digit : bool) (s : string)
    : option nat :=
  match s with
  | EmptyString => if after_digit then Some count else None
  | String c s' =>
      match digit_of c with
      | Some _ => digit_run (S count) true s'
      | None =>
          if bool_decide (c = "_"%char) then
            if after_digit then digit_run count false s' else None
          else if after_digit then Some count else None
      end
  end.

(** [sys.get_int_max_str_digits()], by default. *)
Definition int_max_str_digits : nat := 4300.

(** [int(s)] for a text of ASCII characters: the number, or [None] when
    [ValueError] is raised.  (Outside ASCII, [int] also accepts the
    decimal digits and blanks of other scripts; those are not
    modelled.) *)
Definition int_of_str (s : string) : option Z :=
  match digit_run 0 false (unsigned s) with
  | Some count =>
      if (int_max_str_digits <? count)%nat then None
      else
        match lstrip s with
        | String "-"%char s' => Z.opp <$> digits 0 false s'
        | String "+"%char s' => digits 0 false s'
        | s' => digits 0 false s'
        end
  | None => None
  end.

Definition is_ascii (s : string) : bool :=
  forallb (fun c => (N_of_ascii c <? 128)%N) (list_ascii_of_string s).

(** The [ValueError] of [int(s)]: too many digits, or an invalid
    literal, with the [repr] of the text cut at 200 characters. *)
Definition int_value_error (s : string) : exn :=
  match digit_run 0 false (unsigned s) with
  | Some count =>
      if (int_max_str_digits <? count)%nat then
        Exn ValueError
            ("Exceeds the limit (4300 digits) for integer string conversion: value has "
             +:+ pretty count
             +:+ " digits; use sys.set_int_max_str_digits() to increase the limit")
            None
      else
        Exn ValueError
            ("invalid literal for int() with base 10: "
             +:+ String.substring 0 200 (repr_str s)) None
  | None =>
      Exn ValueError
          ("invalid literal for int() with base 10: "
           +:+ String.substring 0 200 (repr_str s)) None
  end.

End Py.

(** ** MD5 ([hashlib.md5], RFC 1321) *)

Module MD5.

Definition mask32 : Z := 0xffffffff.
Definition add32 (a b : Z) : Z := Z.land (a + b) mask32.
Definition not32 (a : Z) : Z := Z.lxor a mask32.
Definition rotl32 (x c : Z) : Z :=
  Z.lor (Z.land (Z.shiftl x c) mask32) (Z.shiftr x (32 - c)).

Definition K : list Z := [
    0xd76aa478; 0xe8c7b756; 0x242070db; 0xc1bdceee;
    0xf57c0faf; 0x4787c62a; 0xa8304613; 0xfd469501;
    0x698098d8; 0x8b44f7af; 0xffff5bb1; 0x895cd7be;
    0x6b901122; 0xfd987193; 0xa679438e; 0x49b40821;
    0xf61e2562; 0xc040b340; 0x265e5a51; 0xe9b6c7aa;
    0xd62f105d; 0x02441453; 0xd8a1e681; 0xe7d3fbc8;
    0x21e1cde6; 0xc33707d6; 0xf4d50d87; 0x455a14ed;
    0xa9e3e905; 0xfcefa3f8; 0x676f02d9; 0x8d2a4c8a;
    0xfffa3942; 0x8771f681; 0x6d9d6122; 0xfde5380c;
    0xa4beea44; 0x4bdecfa9; 0xf6bb4b60; 0xbebfbc70;
    0x289b7ec6; 0xeaa127fa; 0xd4ef3085; 0x04881d05;
    0xd9d4d039; 0xe6db99e5; 0x1fa27cf8; 0xc4ac5665;
    0xf4292244; 0x432aff97; 0xab9423a7; 0xfc93a039;
    0x655b59c3; 0x8f0ccc92; 0xffeff47d; 0x85845dd1;
    0x6fa87e4f; 0xfe2ce6e0; 0xa3014314; 0x4e0811a1;
    0xf7537e82; 0xbd3af235; 0x2ad7d2bb; 0xeb86d391 ].

Definition shifts : list Z := [
    7; 12; 17; 22; 7; 12; 17; 22; 7; 12; 17; 22; 7; 12; 17; 22;
    5; 9; 14; 20; 5; 9; 14; 20; 5; 9; 14; 20; 5; 9; 14; 20;
    4; 11; 16; 23; 4; 11; 16; 23; 4; 11; 16; 23; 4; 11; 16; 23;
    6; 10; 15; 21; 6; 10; 15; 21; 6; 10; 15; 21; 6; 10; 15; 21 ].

Definition at_ (l : list Z) (i : nat) : Z := nth i l 0.

Definition state : Type := Z * Z * Z * Z.

(** Operation [i] of the round function on the sixteen words [M]. *)
Definition step (M : list Z) (s : state) (i : nat) : state :=
  let '(a, b, c, d) := s in
  let '(f, g) :=
    if (i <? 16)%nat then
      (Z.lor (Z.land b c) (Z.land (not32 b) d), i)
    else if (i <? 32)%nat then
      (Z.lor (Z.land d b) (Z.land (not32 d) c), ((5 * i + 1) mod 16)%nat)
    else if (i <? 48)%nat then
      (Z.lxor (Z.lxor b c) d, ((3 * i + 5) mod 16)%nat)
    else
      (Z.lxor c (Z.lor b (not32 d)), ((7 * i) mod 16)%nat) in
  let f' := add32 (add32 (add32 f a) (at_ K i)) (at_ M g) in
  (d, add32 b (rotl32 f' (at_ shifts i)), b, c).

Definition block (s : state) (M : list Z) : state :=
  let '(a0, b0, c0, d0) := s in
  let '(a, b, c, d) := fold_left (step M) (seq 0 64) s in
  (add32 a0 a, add32 b0 b, add32 c0 c, add32 d0 d).

(** Little-endian bytes of a number, [n] of them. *)
Fixpoint le_bytes (n : nat) (x : Z) : list Z :=
  match n with
  | O => []
  | S n' => Z.land x 0xff :: le_bytes n' (Z.shiftr x 8)
  end.

Definition pad (msg : list Z) : list Z :=
  let len := Z.of_nat (length msg) in
  msg ++ [0x80] ++ repeat 0 (Z.to_nat ((55 - len) mod 64))
      ++ le_bytes 8 (8 * len).

(** Little-endian 32-bit words of a list of bytes. *)
Fixpoint words (fuel : nat) (bs : list Z) : list Z :=
  match fuel, bs with
  | S fuel', b0 :: b1 :: b2 :: b3 :: bs' =>
      (b0 + Z.shiftl b1 8 + Z.shiftl b2 16 + Z.shiftl b3 24)
        :: words fuel' bs'
  | _, _ => []
  end.

Fixpoint blocks (fuel : nat) (ws : list Z) : list (list Z) :=
  match fuel, ws with
  | _, [] => []
  | O, _ => []
  | S fuel', _ => take 16 ws :: blocks fuel' (drop 16 ws)
  end.

Definition bytes_of_string (s : string) : list Z :=
  map (fun c => Z.of_N (N_of_ascii c)) (list_ascii_of_string s).

Definition digest (msg : list Z) : list Z :=
  let padded := pad msg in
  let ws := words (length padded) padded in
  let '(a, b, c, d) :=
    fold_left block (blocks (length ws) ws)
              (0x67452301, 0xefcdab89, 0x98badcfe, 0x10325476) in
  le_bytes 4 a ++ le_bytes 4 b ++ le_bytes 4 c ++ le_bytes 4 d.

(** [hashlib.md5(s.encode()).hexdigest()]. *)
Definition hexdigest (s : string) : string :=
  Py.join EmptyString (map (fun b => Py.hex_byte (Z.to_N b)) (digest (bytes_of_string s))).

End MD5.

(** ** [datetime] values in UTC *)

Module Datetime.

Record datetime : Type := {
  year : Z;
  month : Z;
  day : Z;
  hour : Z;
  minute : Z;
  second : Z;
  microsecond : Z
}.

Definition is_leap (y : Z) : bool :=
  (y mod 4 =? 0) && (negb (y mod 100 =? 0) || (y mod 400 =? 0)).

Definition days_in_month (y m : Z) : Z :=
  if m =? 2 then (if is_leap y then 29 else 28)
  else if (m =? 4) || (m =? 6) || (m =? 9) || (m =? 11) then 30
  else 31.

Definition between (lo x hi : Z) : bool := (lo <=? x) && (x <=? hi).

Definition value_error (msg : string) : exn := Exn ValueError msg None.

(** The constructor: it checks the date fields, then the time fields. *)
Definition make (y m d h mi s us : Z) : result datetime :=
  if negb (between 1 y 9999) then
    Raise (value_error ("year " +:+ pretty y +:+ " is out of range"))
  else if negb (between 1 m 12) then
    Raise (value_error "month must be in 1..12")
  else if negb (between 1 d (days_in_month y m)) then
    Raise (value_error "day is out of range for month")
  else if negb (between 0 h 23) then
    Raise (value_error "hour must be in 0..23")
  else if negb (between 0 mi 59) then
    Raise (value_error "minute must be in 0..59")
  else if negb (between 0 s 59) then
    Raise (value_error "second must be in 0..59")
  else if negb (between 0 us 999999) then
    Raise (value_error "microsecond must be in 0..999999")
  else
    Ok {| year := y; month := m; day := d; hour := h; minute := mi;
          second := s; microsecond := us |}.

(** A value the constructor accepts; [datetime.now] returns no other. *)
Definition valid (dt : datetime) : Prop :=
  make (year dt) (month dt) (day dt) (hour dt) (minute dt) (second dt)
       (microsecond dt) = Ok dt.

(** The arguments of [replace] are converted to a C [int] before the
    constructor sees them; a number that does not fit raises
    [OverflowError].  (The text is that of CPython up to 3.12 where a C
    [long] has 64 bits; nothing below depends on it.) *)
Definition int_min : Z := - 2 ^ 31.
Definition int_max : Z := 2 ^ 31 - 1.
Definition c_int (z : Z) : bool := (int_min <=? z) && (z <=? int_max).

Definition overflow_error (z : Z) : exn :=
  Exn OverflowError
      (if (z <? - 2 ^ 63) || (2 ^ 63 - 1 <? z)
       then "Python int too large to convert to C long"
       else if z <? int_min then "signed integer is less than minimum"
       else "signed integer is greater than maximum")
      None.

(** The first of the given arguments that does not fit a C [int]. *)
Definition first_overflow (args : list (option Z)) : option Z :=
  head (omap (fun a : option Z =>
                match a with
                | Some z => if c_int z then None else Some z
                | None => None
                end) args).

(** [dt.replace(hour=..., minute=..., second=..., microsecond=...)]: the
    arguments are converted, then a new value is constructed from the
    old fields and the given ones. *)
Definition replace (dt : datetime) (h mi s us : option Z) : result datetime :=
  match first_overflow [h; mi; s; us] with
  | Some z => Raise (overflow_error z)
  | None =>
      make (year dt) (month dt) (day dt)
           (default (hour dt) h) (default (minute dt) mi)
           (default (second dt) s) (default (microsecond dt) us)
  end.

(** Decimal text of a non-negative number, zero-padded to [width]. *)
Definition zero_pad (width : nat) (n : Z) : string :=
  let s := pretty n in
  String.concat EmptyString (repeat "0" (width - String.length s)) +:+ s.

(** [dt.isoformat()] for an aware UTC value. *)
Definition isoformat (dt : datetime) : string :=
  zero_pad 4 (year dt) +:+ "-" +:+ zero_pad 2 (month dt) +:+ "-"
  +:+ zero_pad 2 (day dt) +:+ "T" +:+ zero_pad 2 (hour dt) +:+ ":"
  +:+ zero_pad 2 (minute dt) +:+ ":" +:+ zero_pad 2 (second dt)
  +:+ (if microsecond dt =? 0 then EmptyString
       else "." +:+ zero_pad 6 (microsecond dt))
  +:+ "+00:00".

End Datetime.

(** ** Record cleaning and fingerprinting ([lib/cleaning/data_cleaner.py]) *)

Module Cleaner.
Import Py.

(** The text-processing bodies of the helper methods: what each helper
    computes once its guard on a missing or empty argument has let the
    argument through.  They are regular expressions and lookup tables and
    are parameters here; the guards are modelled below.  A body is a
    total function: a run in which a helper body raises in the code
    ([standardize_sector], [standardize_title] and
    [standardize_funding_stage] call [.lower()] on the [None] that
    [clean_text] returns for text that cleans to nothing, an
    [AttributeError]) is not a run of this model, and the statements
    about the cleaner are about the runs in which the bodies return. *)
Record Kernels : Type := {
  clean_text_body : value -> option Z -> value;
  company_name_body : value -> value;
  sector_body : value -> value;
  title_body : value -> value;
  parse_name_body : value -> value * value;
  name_and_title_body : value -> value * value;
  normalize_url_body : value -> value -> value;
  linkedin_url_body : value -> value;
  funding_amount_body : value -> value * value;
  funding_stage_body : value -> value;
  location_body : value -> value * value;
  str_lower : string -> string;
  str_strip : string -> string
}.

Section data_cleaner.
Variable K : Kernels.
(** [self.base_url]. *)
Variable base_url : value.

Definition clean_text (text : value) (max_length : option Z) : value :=
  if negb (truthy text) then VNone else clean_text_body K text max_length.

Definition standardize_company_name (name : value) : value :=
  if negb (truthy name) then VStr EmptyString
  else
    let name := clean_text name None in
    if negb (truthy name) then VStr EmptyString
    else company_name_body K name.

Definition standardize_sector (sector : value) : value :=
  if negb (truthy sector) then VStr "Uncategorized" else sector_body K sector.

Definition standardize_title (title : value) : value :=
  if negb (truthy title) then VStr EmptyString else title_body K title.

Definition parse_name (full_name : value) : value * value :=
  if negb (truthy full_name) then (VStr EmptyString, VStr EmptyString)
  else
    let full_name := clean_text full_name None in
    if negb (truthy full_name) then (VStr EmptyString, VStr EmptyString)
    else parse_name_body K full_name.

(** Returns the pair of the ['name'] and ['title'] entries. *)
Definition extract_name_and_title (full_name : value) : value * value :=
  if negb (truthy full_name) then (VNone, VNone)
  else name_and_title_body K full_name.

Definition normalize_url (url : value) : value :=
  if negb (truthy url) then VNone else normalize_url_body K base_url url.

Definition validate_linkedin_url (url : value) : value :=
  if negb (truthy url) then VNone else linkedin_url_body K url.

Definition parse_funding_amount (amount_str : value) : value * value :=
  if negb (truthy amount_str) then (VNone, VNone)
  else funding_amount_body K amount_str.

Definition standardize_funding_stage (stage : value) : value :=
  if negb (truthy stage) then VNone else funding_stage_body K stage.

Definition extract_location_from_summary (summary : value) : value * value :=
  if negb (truthy summary) then (VNone, summary) else location_body K summary.

(** [calculate_content_hash]: MD5 of the text of the sorted items. *)
Definition calculate_content_hash (data : dict) : string :=
  MD5.hexdigest (str_sorted_items data).

(** [clean_portfolio_company], with the reading [now] of the clock. *)
Definition clean_portfolio_company (now : Datetime.datetime) (raw_data : dict)
    : dict :=
  let cleaned : dict := ∅ in
  let cleaned :=
    <["name" := standardize_company_name (get_or raw_data "name" (VStr EmptyString))]>
      cleaned in
  let cleaned :=
    <["original_name" := get_or raw_data "name" (VStr EmptyString)]> cleaned in
  let cleaned :=
    <["sector" := standardize_sector
                    (or_ (get raw_data "sector") (get raw_data "industry"))]>
      cleaned in
  let funding_text :=
    or_ (get raw_data "funding") (get raw_data "funding_description") in
  let cleaned :=
    if truthy funding_text then
      let '(amount, currency) := parse_funding_amount funding_text in
      <["funding_description" := funding_text]>
        (<["funding_currency" := currency]>
           (<["funding_amount" := amount]> cleaned))
    else cleaned in
  let cleaned :=
    <["funding_stage" := standardize_funding_stage
                           (or_ (get raw_data "round_type") (get raw_data "stage"))]>
      cleaned in
  let cleaned :=
    <["description" := clean_text (get raw_data "description") (Some 500)]>
      cleaned in
  let cleaned :=
    <["website" := normalize_url
                     (or_ (get raw_data "website") (get raw_data "url"))]>
      cleaned in
  let cleaned :=
    <["logo_url" := normalize_url
                      (or_ (get raw_data "logo") (get raw_data "logo_url"))]>
      cleaned in
  let location := get raw_data "location" in
  let location :=
    if negb (truthy location) && truthy (get cleaned "description") then
      (extract_location_from_summary (get cleaned "description")).1
    else location in
  let cleaned := <["location" := clean_text location None]> cleaned in
  (* metadata *)
  let cleaned := <["scraped_at" := VStr (Datetime.isoformat now)]> cleaned in
  let cleaned := <["source_url" := get_or raw_data "source_url" base_url]> cleaned in
  <["content_hash" := VStr (calculate_content_hash cleaned)]> cleaned.

(** [clean_team_member]. *)
Definition clean_team_member (now : Datetime.datetime) (raw_data : dict)
    : dict :=
  let cleaned : dict := ∅ in
  let full_name := get_or raw_data "name" (VStr EmptyString) in
  let cleaned :=
    if truthy full_name then
      let '(name, extracted_title) := extract_name_and_title full_name in
      let cleaned := <["name" := name]> cleaned in
      let title :=
        or_ extracted_title (get_or raw_data "title" (VStr EmptyString)) in
      let cleaned := <["title" := standardize_title title]> cleaned in
      if truthy name then
        let '(first_name, last_name) := parse_name name in
        <["last_name" := last_name]> (<["first_name" := first_name]> cleaned)
      else cleaned
    else cleaned in
  let cleaned :=
    <["photo_url" := normalize_url
                       (or_ (get raw_data "photo_url") (get raw_data "image_url"))]>
      cleaned in
  let bio := or_ (get raw_data "bio") (get raw_data "description") in
  let cleaned := <["bio" := clean_text bio (Some 1000)]> cleaned in
  let cleaned :=
    <["linkedin_url" := validate_linkedin_url
                          (or_ (get raw_data "linkedin") (get raw_data "linkedin_url"))]>
      cleaned in
  let cleaned := <["email" := clean_text (get raw_data "email") None]> cleaned in
  (* metadata *)
  let cleaned := <["scraped_at" := VStr (Datetime.isoformat now)]> cleaned in
  <["content_hash" := VStr (calculate_content_hash cleaned)]> cleaned.

Definition generic_filters : list string :=
  ["others"; "angel investors"; "existing investors"; "undisclosed"].

(** The comprehension over [other_investors]: an entry is kept when it
    is non-empty and its cleaned, lower-cased text is not generic.  The
    [.lower()] of a text that cleans to [None] raises. *)
Fixpoint clean_investors (l : list string) : result (list string) :=
  match l with
  | [] => Ok []
  | inv :: l' =>
      if negb (truthy (VStr inv)) then clean_investors l'
      else
        match clean_text (VStr inv) None with
        | VStr s =>
            if bool_decide (str_lower K s ∈ generic_filters) then
              clean_investors l'
            else
              match clean_investors l' with
              | Ok rest => Ok (s :: rest)
              | Raise e => Raise e
              end
        | _ =>
            Raise (Exn AttributeError
                       "'NoneType' object has no attribute 'lower'" None)
        end
  end.

(** [clean_deal_data]; the argument is a dictionary, so the first guard
    never fires.  [None] is returned for a deal without a name. *)
Definition clean_deal_data (now : Datetime.datetime) (raw_data : dict)
    (article_pub_date : option string) : result (option dict) :=
  let cleaned : dict := ∅ in
  let startup_name :=
    clean_text (get_or raw_data "startup_name" (VStr EmptyString)) None in
  if negb (truthy startup_name) then Ok None
  else
    let cleaned := <["startup_name" := startup_name]> cleaned in
    let cleaned :=
      <["company_website" := normalize_url (get raw_data "company_website")]>
        cleaned in
    let funding_amount :=
      get_or raw_data "funding_amount_description" (VStr EmptyString) in
    let cleaned :=
      if truthy funding_amount then
        let '(amount, currency) := parse_funding_amount funding_amount in
        <["funding_amount_description" := funding_amount]>
          (<["funding_currency" := currency]>
             (<["funding_amount" := amount]> cleaned))
      else cleaned in
    let cleaned :=
      <["round_type" := standardize_funding_stage (get raw_data "round_type")]>
        cleaned in
    let cleaned :=
      <["lead_investor" := clean_text (get raw_data "lead_investor") None]>
        cleaned in
    match
      match get_or raw_data "other_investors" (VList []) with
      | VList l => clean_investors l
      | _ => Ok []
      end
    with
    | Raise e => Raise e
    | Ok investors =>
        let cleaned := <["other_investors" := VList investors]> cleaned in
        let summary := get_or raw_data "summary" (VStr EmptyString) in
        let location := get raw_data "location" in
        let '(location, summary) :=
          if truthy summary && negb (truthy location) then
            extract_location_from_summary summary
          else (location, summary) in
        let cleaned := <["location" := clean_text location None]> cleaned in
        let cleaned := <["summary" := clean_text summary (Some 250)]> cleaned in
        let cleaned :=
          <["source_article_url" := get raw_data "source_article_url"]> cleaned in
        let cleaned :=
          <["source_article_title" :=
              clean_text (get raw_data "source_article_title") None]> cleaned in
        let cleaned :=
          match article_pub_date with
          | Some d =>
              if truthy (VStr d) then
                <["article_publication_date" := VStr (str_strip K d)]> cleaned
              else cleaned
          | None => cleaned
          end in
        (* metadata *)
        let cleaned :=
          <["extracted_at" := VStr (Datetime.isoformat now)]> cleaned in
        Ok (Some (<["content_hash" := VStr (calculate_content_hash cleaned)]>
                    cleaned))
    end.
End data_cleaner.

(** Kernels for runs in which no helper body is reached or whose text
    needs no cleaning: every body returns its argument. *)
Definition plain_kernels : Kernels := {|
  clean_text_body := fun text _ => text;
  company_name_body := fun name => name;
  sector_body := fun sector => sector;
  title_body := fun title => title;
  parse_name_body := fun name => (name, VStr EmptyString);
  name_and_title_body := fun name => (name, VNone);
  normalize_url_body := fun _ url => url;
  linkedin_url_body := fun url => url;
  funding_amount_body := fun _ => (VNone, VNone);
  funding_stage_body := fun stage => stage;
  location_body := fun summary => (VNone, summary);
  str_lower := fun s => s;
  str_strip := fun s => s
|}.

End Cleaner.

(** ** Dual-transport fetching ([lib/scrapers/base_scraper.py]) *)

Module Scraper.
Import Retry Py.

Inductive transport : Set := Requests | Playwright.

#[global] Instance transport_eq_dec : EqDecision transport.
Proof. solve_decision. Defined.

(** What a GET of the HTTP session produces: a response (status, the
    [Retry-After] header if present, the body) or a raised error. *)
Inductive http_outcome : Type :=
  | HttpResponse (status : Z) (retry_after : option string) (text : string)
  | HttpRaises (e : exn).

(** What loading a page in the browser produces: the rendered content, or
    an error raised while obtaining the page or navigating.  A failed wait
    for a selector is logged and swallowed by the code, so it does not
    show here. *)
Inductive browser_outcome : Type :=
  | PageContent (content : string)
  | BrowserRaises (e : exn).

(** The surroundings of a scraper: remote hosts, the random generator,
    library functions and the abstract method of the subclass. *)
Record Env : Type := {
  (** outcome of the [n]-th GET issued by the session, and of the [n]-th
      navigation of the browser *)
  http_get : string -> nat -> http_outcome;
  browse : string -> nat -> browser_outcome;
  (** the [n]-th sample of [random.random()] *)
  random_sample : nat -> Q;
  (** [urlparse(url).netloc]; [urlparse] raises [ValueError] on a URL
      it cannot split *)
  netloc : string -> result string;
  (** [_parse_page(soup, url, **kwargs)], the abstract method *)
  _parse_page : string -> string -> list string -> result (list dict);
  (** [str] of the error of [raise_for_status] for a status and a URL *)
  status_error_text : Z -> string -> string;
  str_of_float : Q -> string;
  (** [self.config.request_delay] *)
  request_delay : Q
}.

(** The mutable surroundings.  [slept], [logged] and [fetches] are ghost
    logs: every sleep, every message of the methods modelled here, and
    every entry into a guarded transport. *)
Record World : Type := {
  clock : Q;
  _start_time : Q;
  _request_count : Z;
  gets : nat;
  navigations : nat;
  samples : nat;
  slept : list Q;
  logged : list (level * string);
  fetches : list transport
}.

Definition set_clock_slept (c : Q) (sl : list Q) (w : World) : World := {|
  clock := c; _start_time := _start_time w; _request_count := _request_count w;
  gets := gets w; navigations := navigations w; samples := samples w;
  slept := sl; logged := logged w; fetches := fetches w |}.

Definition set_request_count (n : Z) (w : World) : World := {|
  clock := clock w; _start_time := _start_time w; _request_count := n;
  gets := gets w; navigations := navigations w; samples := samples w;
  slept := slept w; logged := logged w; fetches := fetches w |}.

Definition set_gets (n : nat) (w : World) : World := {|
  clock := clock w; _start_time := _start_time w; _request_count := _request_count w;
  gets := n; navigations := navigations w; samples := samples w;
  slept := slept w; logged := logged w; fetches := fetches w |}.

Definition set_navigations (n : nat) (w : World) : World := {|
  clock := clock w; _start_time := _start_time w; _request_count := _request_count w;
  gets := gets w; navigations := n; samples := samples w;
  slept := slept w; logged := logged w; fetches := fetches w |}.

Definition set_samples (n : nat) (w : World) : World := {|
  clock := clock w; _start_time := _start_time w; _request_count := _request_count w;
  gets := gets w; navigations := navigations w; samples := n;
  slept := slept w; logged := logged w; fetches := fetches w |}.

Definition set_logged (l : list (level * string)) (w : World) : World := {|
  clock := clock w; _start_time := _start_time w; _request_count := _request_count w;
  gets := gets w; navigations := navigations w; samples := samples w;
  slept := slept w; logged := l; fetches := fetches w |}.

Definition set_fetches (l : list transport) (w : World) : World := {|
  clock := clock w; _start_time := _start_time w; _request_count := _request_count w;
  gets := gets w; navigations := navigations w; samples := samples w;
  slept := slept w; logged := logged w; fetches := l |}.

(** [asyncio.sleep(d)]: the clock moves by [d] when it is positive. *)
Definition sleep (d : Q) (w : World) : World :=
  set_clock_slept (clock w + Qmax 0 d)%Q (slept w ++ [d]) w.

Definition log (lv : level) (msg : string) (w : World) : World :=
  set_logged (logged w ++ [(lv, msg)]) w.

Definition Qlt_bool (a b : Q) : bool := negb (Qle_bool b a).

(** The scraper object: its world and its two breakers. *)
Record BaseScraper : Type := {
  world : World;
  _http_circuit_breaker : CircuitBreaker;
  _playwright_circuit_breaker : CircuitBreaker
}.

Definition on_world (f : World -> World) (s : BaseScraper) : BaseScraper := {|
  world := f (world s);
  _http_circuit_breaker := _http_circuit_breaker s;
  _playwright_circuit_breaker := _playwright_circuit_breaker s
|}.

(** The breakers of [BaseScraper.__init__]. *)
Definition http_breaker : CircuitBreaker :=
  init 5 300 [ClientError; TimeoutError; RateLimitError].
Definition playwright_breaker : CircuitBreaker :=
  init 3 600 [Exception].

Definition new_scraper (w : World) : BaseScraper := {|
  world := w;
  _http_circuit_breaker := http_breaker;
  _playwright_circuit_breaker := playwright_breaker
|}.

(** The policies of the two [with_retry] decorations. *)
Definition requests_policy : RetryPolicy := {|
  max_attempts := 3;
  backoff_factor := backoff_factor default_policy;
  jitter := jitter default_policy;
  initial_delay := initial_delay default_policy;
  max_delay := max_delay default_policy;
  exceptions := [ClientError; TimeoutError];
  reraise_exceptions := reraise_exceptions default_policy
|}.

Definition playwright_policy : RetryPolicy := {|
  max_attempts := 3;
  backoff_factor := backoff_factor default_policy;
  jitter := jitter default_policy;
  initial_delay := initial_delay default_policy;
  max_delay := max_delay default_policy;
  exceptions := [Exception];
  reraise_exceptions := reraise_exceptions default_policy
|}.

Definition js_heavy_domains : list string :=
  ["google."; "facebook."; "linkedin."; "github."].

(** [needle in hay] for texts. *)
Fixpoint is_infix (needle hay : string) : bool :=
  String.prefix needle hay
  || match hay with
     | EmptyString => false
     | String _ hay' => is_infix needle hay'
     end.

Section base_scraper.
Variable env : Env.

Definition random (w : World) : Q * World :=
  (random_sample env (samples w), set_samples (S (samples w)) w).

(** [_rate_limit_delay]. *)
Definition _rate_limit_delay : Eff World unit := fun w =>
  let w := set_request_count (_request_count w + 1) w in
  let w :=
    if Qlt_bool 0 (request_delay env) then
      (* random.uniform(0.5, 1.5) *)
      let '(r, w) := random w in
      let jitter := (0.5 + (1.5 - 0.5) * r)%Q in
      sleep (request_delay env * jitter)%Q w
    else w in
  let elapsed := (clock w - _start_time w)%Q in
  let w :=
    if Qlt_bool 0 elapsed then
      let rate := (inject_Z (_request_count w) / elapsed)%Q in
      if Qlt_bool 10 rate then sleep 0.5 w else w
    else w in
  (Ok tt, w).

(** The inner [_fetch] of [fetch_with_requests]. *)
Definition _fetch_requests (url : string) : Eff World string :=
  (_rate_limit_delay ;;;
   fun w =>
     let outcome := http_get env url (gets w) in
     let w := set_gets (S (gets w)) w in
     match outcome with
     | HttpRaises e => (Raise e, w)
     | HttpResponse status retry_after text =>
         if status =? 429 then
           match
             match retry_after with
             | None => Some 60
             | Some h => int_of_str h
             end
           with
           | None =>
               (Raise (int_value_error (default EmptyString retry_after)), w)
           | Some seconds =>
               let w :=
                 log WARNING ("Rate limited. Waiting " +:+ pretty seconds
                              +:+ " seconds...") w in
               let w := sleep (inject_Z seconds) w in
               (Raise (Exn RateLimitError ("Rate limited on " +:+ url) None), w)
           end
         else if 400 <=? status then
           (* response.raise_for_status() *)
           (Raise (Exn ClientResponseError (status_error_text env status url)
                       None), w)
         else (Ok text, w)
     end)%eff.

(** The inner [_fetch] of [fetch_with_playwright]. *)
Definition _fetch_playwright (url : string) : Eff World string :=
  (_rate_limit_delay ;;;
   fun w =>
     let outcome := browse env url (navigations w) in
     let w := set_navigations (S (navigations w)) w in
     match outcome with
     | BrowserRaises e => (Raise e, w)
     | PageContent content => (Ok content, w)
     end)%eff.

(** A keyword the signature of a method does not have. *)
Definition unexpected_keyword (accepted kwargs : list string) : option string :=
  head (filter (fun k => k ∉ accepted) kwargs).

Definition type_error (method k : string) : exn :=
  Exn TypeError
      ("BaseScraper." +:+ method
       +:+ "() got an unexpected keyword argument " +:+ repr_str k)
      None.

(** The function that [with_retry] decorates: binding the arguments,
    then one call of the breaker-wrapped [_fetch]. *)
Definition requests_body (url : string) (kwargs : list string)
    : Eff BaseScraper string := fun s =>
  match unexpected_keyword ["headers"] kwargs with
  | Some k => (Raise (type_error "fetch_with_requests" k), s)
  | None =>
      let '(r, cb, w) :=
        call clock (str_of_float env) (_fetch_requests url)
             (_http_circuit_breaker s) (world s) in
      (r, {| world := w;
             _http_circuit_breaker := cb;
             _playwright_circuit_breaker := _playwright_circuit_breaker s |})
  end.

Definition playwright_body (url : string) (kwargs : list string)
    : Eff BaseScraper string := fun s =>
  match unexpected_keyword ["wait_for"; "timeout"] kwargs with
  | Some k => (Raise (type_error "fetch_with_playwright" k), s)
  | None =>
      let '(r, cb, w) :=
        call clock (str_of_float env) (_fetch_playwright url)
             (_playwright_circuit_breaker s) (world s) in
      (r, {| world := w;
             _http_circuit_breaker := _http_circuit_breaker s;
             _playwright_circuit_breaker := cb |})
  end.

Definition sleep_s (d : Q) : BaseScraper -> BaseScraper := on_world (sleep d).
Definition random_s (s : BaseScraper) : Q * BaseScraper :=
  let '(r, w) := random (world s) in
  (r, on_world (fun _ => w) s).

(** [fetch_with_requests] and [fetch_with_playwright]: the decorated
    methods.  Entering one is noted in the ghost log [fetches]. *)
Definition fetch_with_requests (url : string) (kwargs : list string)
    : Eff BaseScraper string := fun s =>
  async_wrapper sleep_s random_s requests_policy "fetch_with_requests"
    (requests_body url kwargs)
    (on_world (fun w => set_fetches (fetches w ++ [Requests]) w) s).

Definition fetch_with_playwright (url : string) (kwargs : list string)
    : Eff BaseScraper string := fun s =>
  async_wrapper sleep_s random_s playwright_policy "fetch_with_playwright"
    (playwright_body url kwargs)
    (on_world (fun w => set_fetches (fetches w ++ [Playwright]) w) s).

Definition fetch (t : transport) : string -> list string -> Eff BaseScraper string :=
  match t with
  | Requests => fetch_with_requests
  | Playwright => fetch_with_playwright
  end.

Definition other (t : transport) : transport :=
  match t with Requests => Playwright | Playwright => Requests end.

Definition log_s (lv : level) (msg : string) : Eff BaseScraper unit :=
  emodify (on_world (log lv msg)).

Definition parse (soup url : string) (kwargs : list string)
    : Eff BaseScraper (list dict) :=
  fun s => (_parse_page env soup url kwargs, s).

(** The transport tried first: the caller's choice, or the guess from
    the host of the URL, which needs [urlparse] to return. *)
Definition primary (url : string) (use_playwright : option bool)
    : result transport :=
  match
    match use_playwright with
    | Some b => Ok b
    | None =>
        match netloc env url with
        | Ok host =>
            Ok (existsb (fun domain => is_infix domain host) js_heavy_domains)
        | Raise e => Raise e
        end
    end
  with
  | Ok use_playwright => Ok (if use_playwright then Playwright else Requests)
  | Raise e => Raise e
  end.

Definition scraping_error (url : string) (fallback_error : exn) : exn :=
  Exn ScrapingError
      ("Failed to scrape " +:+ url +:+ ": " +:+ exn_str fallback_error) None.

(** The messages of [scrape_with_fallback]. *)
Definition using_msg (first : transport) (url : string) : string :=
  match first with
  | Playwright => "Using Playwright for " +:+ url
  | Requests => "Using requests for " +:+ url
  end.
Definition primary_failed_msg (url : string) (e : exn) : string :=
  "Primary scraping method failed for " +:+ url +:+ ": " +:+ exn_str e.
Definition falling_back_msg (first : transport) (url : string) : string :=
  match first with
  | Playwright => "Falling back to requests for " +:+ url
  | Requests => "Falling back to Playwright for " +:+ url
  end.
Definition both_failed_msg (url : string) (fallback_error : exn) : string :=
  "Both scraping methods failed for " +:+ url +:+ ": "
  +:+ exn_str fallback_error.

(** [scrape_with_fallback].  The auto-detection runs before the [try]:
    an exception of [urlparse] leaves the method as it is. *)
Definition scrape_with_fallback (url : string) (use_playwright : option bool)
    (kwargs : list string) : Eff BaseScraper (list dict) :=
  match primary url use_playwright with
  | Raise e => eraise e
  | Ok first =>
      ecatch
        (log_s DEBUG (using_msg first url) ;;;
         let* soup := fetch first url kwargs in
         parse soup url kwargs)%eff
        (fun e =>
           log_s WARNING (primary_failed_msg url e) ;;;
           ecatch
             (log_s INFO (falling_back_msg first url) ;;;
              let* soup := fetch (other first) url kwargs in
              parse soup url kwargs)
             (fun fallback_error =>
                log_s ERROR (both_failed_msg url fallback_error) ;;;
                eraise (scraping_error url fallback_error)))%eff
  end.
End base_scraper.

(** The state in which the fallback transport is entered: the outcome of
    the primary attempt plus the two messages about it. *)
Definition before_fallback (url : string) (first : transport) (e : exn)
    (s1 : BaseScraper) : BaseScraper :=
  on_world (log INFO (falling_back_msg first url))
    (on_world (log WARNING (primary_failed_msg url e)) s1).

(** [later w w']: going from [w] to [w'] enters no transport and loses
    no logged message. *)
Definition later (w w' : World) : Prop :=
  fetches w' = fetches w /\ forall m, m ∈ logged w -> m ∈ logged w'.

Definition later_s (s s' : BaseScraper) : Prop := later (world s) (world s').

End Scraper.

(** ** Change-tracked persistence ([lib/database/supabase_client.py]) *)

Module Store.
Import Py.

(** The requests the code builds with the query builder of the client
    and sends with [execute()]. *)
Inductive filter : Type :=
  | Eq_ (column : string) (v : value)
  | Gte (column : string) (v : value).

Inductive request : Type :=
  | Select (table : string) (filters : list filter)
           (order_desc : option string) (limit : option Z)
  | Update (table : string) (values : dict) (filters : list filter)
  | Insert (table : string) (values : dict).

(** The surroundings of the client: the wall clock ([n]-th reading of
    [datetime.now]), the failures of the store (for the [n]-th request
    sent) and [json.dumps] on a map of changes. *)
Record Env : Type := {
  wall : nat -> Datetime.datetime;
  fault : nat -> request -> option exn;
  json_dumps : list (string * (value * value)) -> string
}.

(** The store: its tables, the next generated key, and two counters, the
    readings of the clock and the requests sent (a ghost log). *)
Record Db : Type := {
  tables : gmap string (list dict);
  next_id : Z;
  now_calls : nat;
  executed : list request
}.

Definition rows (table : string) (db : Db) : list dict :=
  default [] (tables db !! table).

(** A store operation: it returns or raises, changes the store, and
    emits log messages. *)
Definition Op (A : Type) : Type := Db -> result A * Db * list (level * string).

Definition oret {A} (a : A) : Op A := fun db => (Ok a, db, []).
Definition oraise {A} (e : exn) : Op A := fun db => (Raise e, db, []).
Definition obind {A B} (m : Op A) (k : A -> Op B) : Op B := fun db =>
  match m db with
  | (Ok a, db1, l1) => let '(r, db2, l2) := k a db1 in (r, db2, l1 ++ l2)
  | (Raise e, db1, l1) => (Raise e, db1, l1)
  end.
Definition ocatch {A} (m : Op A) (h : exn -> Op A) : Op A := fun db =>
  match m db with
  | (Ok a, db1, l1) => (Ok a, db1, l1)
  | (Raise e, db1, l1) => let '(r, db2, l2) := h e db1 in (r, db2, l1 ++ l2)
  end.
Definition olog (lv : level) (msg : string) : Op unit :=
  fun db => (Ok tt, db, [(lv, msg)]).

Declare Scope op_scope.
Delimit Scope op_scope with op.
Notation "'let*' x ':=' m 'in' k" := (obind m (fun x => k))
  (at level 10, x pattern, m at level 100, k at level 200) : op_scope.
Notation "m ';;;' k" := (obind m (fun _ => k))
  (at level 100, k at level 200, right associativity) : op_scope.

Definition matches (f : filter) (row : dict) : bool :=
  match f with
  | Eq_ column v => bool_decide (row !! column = Some v)
  | Gte column v =>
      match get row column, v with
      | VStr a, VStr b => String.leb b a
      | _, _ => false
      end
  end.

Definition matches_all (fs : list filter) (row : dict) : bool :=
  forallb (fun f => matches f row) fs.

(** Rows in descending order of a text column. *)
Fixpoint insert_desc (column : string) (row : dict) (l : list dict) : list dict :=
  match l with
  | [] => [row]
  | row' :: l' =>
      if String.leb (str (get row' column)) (str (get row column))
      then row :: l
      else row' :: insert_desc column row l'
  end.

Definition ordered (order_desc : option string) (l : list dict) : list dict :=
  match order_desc with
  | None => l
  | Some column => foldr (insert_desc column) [] l
  end.

Definition limited (limit : option Z) (l : list dict) : list dict :=
  match limit with
  | None => l
  | Some n => take (Z.to_nat n) l
  end.

Definition set_rows (table : string) (rs : list dict) (db : Db) : Db := {|
  tables := <[table := rs]> (tables db);
  next_id := next_id db;
  now_calls := now_calls db;
  executed := executed db
|}.

(** [execute()]: the request is sent; the store fails, or answers with
    the rows selected, updated or inserted.  An update overwrites the
    given columns of every matching row; an insert generates the key of a
    row that has none. *)
Definition execute (env : Env) (req : request) : Op (list dict) := fun db =>
  let sent := {| tables := tables db; next_id := next_id db;
                 now_calls := now_calls db;
                 executed := executed db ++ [req] |} in
  match fault env (length (executed db)) req with
  | Some e => (Raise e, sent, [])
  | None =>
      match req with
      | Select table filters order_desc limit =>
          (Ok (limited limit
                 (ordered order_desc
                    (List.filter (matches_all filters) (rows table db)))),
           sent, [])
      | Update table values filters =>
          let updated := fun row : dict =>
            if matches_all filters row then values ∪ row else row in
          (Ok (map (fun row => values ∪ row)
                   (List.filter (matches_all filters) (rows table db))),
           set_rows table (map updated (rows table db)) sent, [])
      | Insert table values =>
          let row :=
            match values !! "id" with
            | Some _ => values
            | None => <["id" := VInt (next_id db)]> values
            end in
          (Ok [row],
           {| tables := <[table := rows table db ++ [row]]> (tables db);
              next_id := next_id db + 1;
              now_calls := now_calls db;
              executed := executed db ++ [req] |}, [])
      end
  end.

(** [datetime.now(timezone.utc)]. *)
Definition now (env : Env) : Op Datetime.datetime := fun db =>
  (Ok (wall env (now_calls db)),
   {| tables := tables db; next_id := next_id db;
      now_calls := S (now_calls db); executed := executed db |}, []).

Definition now_iso (env : Env) : Op value :=
  (let* t := now env in oret (VStr (Datetime.isoformat t)))%op.

(** [d[k]]. *)
Definition item (d : dict) (k : string) : Op value :=
  match d !! k with
  | Some v => oret v
  | None => oraise (Exn KeyError (repr_str k) None)
  end.

(** What differs between the company and the team-member copies of the
    upsert code: table names and the wording of messages. *)
Record Kind : Type := {
  table : string;
  change_table : string;
  change_key : string;
  upsert_label : string;
  record_label : string;
  change_label : string;
  item_label : string;
  total_label : string
}.

Definition company : Kind := {|
  table := "portfolio_companies";
  change_table := "company_changes";
  change_key := "company_id";
  upsert_label := "portfolio company";
  record_label := "company";
  change_label := "company";
  item_label := "company";
  total_label := "companies"
|}.

Definition member : Kind := {|
  table := "team_members";
  change_table := "member_changes";
  change_key := "member_id";
  upsert_label := "team member";
  record_label := "team member";
  change_label := "member";
  item_label := "member";
  total_label := "team members"
|}.

Section client.
Variable env : Env.
Variable kind : Kind.

(** The comprehension of [record_company_change]: the keys of the new
    row whose value differs from the old row. *)
Definition changed_fields (old_data new_data : dict)
    : list (string * (value * value)) :=
  omap (fun kv : string * value =>
          let old_value := get old_data kv.1 in
          if bool_decide (old_value = kv.2) then None
          else Some (kv.1, (old_value, kv.2)))
       (map_to_list new_data).

(** [record_company_change] / [record_member_change]: failures are
    logged and reported as [False]. *)
Definition record_change (entity_id : value) (old_data new_data : dict)
    : Op bool :=
  ocatch
    (let changes := changed_fields old_data new_data in
     match changes with
     | [] => oret true
     | _ =>
         let dumped := json_dumps env changes in
         let* changed_at := now_iso env in
         let* _ := execute env
           (Insert (change_table kind)
              (<["changed_at" := changed_at]>
                 (<["new_hash" := get new_data "content_hash"]>
                    (<["previous_hash" := get old_data "content_hash"]>
                       (<["changes" := VStr dumped]>
                          (<[change_key kind := entity_id]> ∅)))))) in
         olog INFO ("Recorded changes for " +:+ change_label kind +:+ " ID "
                    +:+ str entity_id +:+ ": "
                    +:+ repr (VList (map fst changes))) ;;;
         oret true
     end)%op
    (fun e =>
       olog ERROR ("Error recording " +:+ change_label kind +:+ " change: "
                   +:+ exn_str e) ;;;
       oret false)%op.

(** [upsert_portfolio_company] / [upsert_team_member]. *)
Definition upsert (site_id : Z) (data : dict) : Op (option dict) :=
  ocatch
    (let data := <["site_id" := VInt site_id]> data in
     let* name := item data "name" in
     let* existing := execute env
       (Select (table kind) [Eq_ "site_id" (VInt site_id); Eq_ "name" name]
               None None) in
     match existing with
     | existing_record :: _ =>
         let old_hash := get existing_record "content_hash" in
         let new_hash := get data "content_hash" in
         let* updated_at := now_iso env in
         let data := <["updated_at" := updated_at]> data in
         let* last_seen_at := now_iso env in
         let data := <["last_seen_at" := last_seen_at]> data in
         let* id := item existing_record "id" in
         let* response := execute env
           (Update (table kind) data [Eq_ "id" id]) in
         match response with
         | updated_record :: _ =>
             (if truthy old_hash && truthy new_hash
                 && negb (bool_decide (old_hash = new_hash))
              then
                let* updated_id := item updated_record "id" in
                let* _ := record_change updated_id existing_record
                            updated_record in
                oret tt
              else oret tt) ;;;
             olog DEBUG ("Updated " +:+ record_label kind +:+ ": " +:+ str name) ;;;
             oret (Some updated_record)
         | [] => oret None
         end
     | [] =>
         let* created_at := now_iso env in
         let data := <["created_at" := created_at]> data in
         let* first_seen_at := now_iso env in
         let data := <["first_seen_at" := first_seen_at]> data in
         let* last_seen_at := now_iso env in
         let data := <["last_seen_at" := last_seen_at]> data in
         let* response := execute env (Insert (table kind) data) in
         match response with
         | new_record :: _ =>
             olog INFO ("Created new " +:+ record_label kind +:+ ": "
                        +:+ str name) ;;;
             oret (Some new_record)
         | [] => oret None
         end
     end)%op
    (fun e =>
       olog ERROR ("Error upserting " +:+ upsert_label kind +:+ ": "
                   +:+ exn_str e) ;;;
       oraise e)%op.

(** [asyncio.gather] with [return_exceptions=True]: the coroutines
    have no suspension point (the client is synchronous), so they run
    to completion one after the other, in order; an exception is an
    entry of the result list. *)
Fixpoint gather {A} (tasks : list (Op A)) (db : Db)
    : list (result A) * Db * list (level * string) :=
  match tasks with
  | [] => ([], db, [])
  | task :: tasks' =>
      let '(r, db1, l1) := task db in
      let '(rs, db2, l2) := gather tasks' db1 in
      (r :: rs, db2, l1 ++ l2)
  end.

(** Truth value of what an upsert returns: [None] and an empty row are
    false. *)
Definition truthy_record (r : option dict) : bool :=
  match r with
  | None => false
  | Some d => negb (bool_decide (d = ∅))
  end.

Definition item_error_msg (index : nat) (e : exn) : string :=
  "Error processing " +:+ item_label kind +:+ " " +:+ pretty index
  +:+ ": " +:+ exn_str e.

(** The loop over [enumerate(results)] of one batch that starts at
    index [i]; [j] is the position in the batch. *)
Fixpoint tally (i : nat) (j : nat) (results : list (result (option dict)))
    (success_count : Z) : Z * list (level * string) :=
  match results with
  | [] => (success_count, [])
  | Raise e :: results' =>
      let '(n, l) := tally i (S j) results' success_count in
      (n, (ERROR, item_error_msg (i + j) e) :: l)
  | Ok r :: results' =>
      tally i (S j) results'
            (if truthy_record r then success_count + 1 else success_count)
  end.

Definition batch_size : nat := 50.

(** [range(0, n, batch_size)]. *)
Definition starts (n : nat) : list nat :=
  map (fun k => (k * batch_size)%nat) (seq 0 ((n + (batch_size - 1)) / batch_size)).

(** The slices [records[i:i + batch_size]] the loop takes. *)
Definition batches {A} (records : list A) : list (list A) :=
  map (fun i => take batch_size (drop i records)) (starts (length records)).

(** One iteration of the loop over the batches. *)
Definition batch_step (site_id : Z) (records : list dict)
    (acc : Z * Db * list (level * string)) (i : nat)
    : Z * Db * list (level * string) :=
  let '(success_count, db, logs) := acc in
  let batch := take batch_size (drop i records) in
  let tasks := map (upsert site_id) batch in
  let '(results, db1, l1) := gather tasks db in
  let '(success_count, l2) := tally i 0 results success_count in
  (success_count, db1, logs ++ l1 ++ l2).

(** [upsert_companies_with_change_tracking] /
    [upsert_team_members_with_change_tracking]. *)
Definition upsert_with_change_tracking (site_id : Z) (records : list dict)
    (db : Db) : Z * Db * list (level * string) :=
  let '(success_count, db1, logs) :=
    fold_left (batch_step site_id records) (starts (length records))
              (0, db, []) in
  (success_count, db1,
   logs ++ [(INFO, "Successfully processed " +:+ pretty success_count +:+ "/"
                   +:+ pretty (length records) +:+ " " +:+ total_label kind)]).

(** [get_recent_changes].  The two [replace] calls are outside the
    [try]; an exception of the query is logged and gives no rows. *)
Definition get_recent_changes (table_name : string) (hours : Z) (limit : Z)
    : Op (list dict) :=
  (let* t := now env in
   match Datetime.replace t (Some 0) (Some 0) (Some 0) (Some 0) with
   | Raise e => oraise e
   | Ok cutoff_time =>
       match Datetime.replace cutoff_time
               (Some (Datetime.hour cutoff_time - hours)) None None None with
       | Raise e => oraise e
       | Ok cutoff_time =>
           ocatch
             (execute env
                (Select (table_name +:+ "_changes")
                   [Gte "changed_at" (VStr (Datetime.isoformat cutoff_time))]
                   (Some "changed_at") (Some limit)))
             (fun e =>
                olog ERROR ("Error getting recent changes for " +:+ table_name
                            +:+ ": " +:+ exn_str e) ;;;
                oret [])
       end
   end)%op.
End client.

(** The columns an upsert of an already stored record writes: those of
    the supplied record, the site key and the two time stamps. *)
Definition written (env : Env) (site_id : Z) (data : dict) (db : Db) : dict :=
  <["last_seen_at" := VStr (Datetime.isoformat (wall env (S (now_calls db))))]>
    (<["updated_at" := VStr (Datetime.isoformat (wall env (now_calls db)))]>
       (<["site_id" := VInt site_id]> data)).

(** An upsert counts when it returned a row. *)
Definition successful (r : result (option dict)) : bool :=
  match r with
  | Ok o => truthy_record o
  | Raise _ => false
  end.

Fixpoint successes (results : list (result (option dict))) : Z :=
  match results with
  | [] => 0
  | r :: results' => (if successful r then 1 else 0) + successes results'
  end.

Definition upsert_portfolio_company (env : Env) := upsert env company.
Definition upsert_team_member (env : Env) := upsert env member.
Definition upsert_companies_with_change_tracking (env : Env) :=
  upsert_with_change_tracking env company.
Definition upsert_team_members_with_change_tracking (env : Env) :=
  upsert_with_change_tracking env member.

End Store.

(** ** Sample inputs *)

Module Samples.

(** Midnight UTC on the first and on the second of January 2024. *)
Definition day1 : Datetime.datetime := {|
  Datetime.year := 2024; Datetime.month := 1; Datetime.day := 1;
  Datetime.hour := 0; Datetime.minute := 0; Datetime.second := 0;
  Datetime.microsecond := 0
|}.

Definition day2 : Datetime.datetime := {|
  Datetime.year := 2024; Datetime.month := 1; Datetime.day := 2;
  Datetime.hour := 0; Datetime.minute := 0; Datetime.second := 0;
  Datetime.microsecond := 0
|}.


(** A world at time zero in which nothing has happened yet. *)
Definition fresh_world : Scraper.World := {|
  Scraper.clock := 0;
  Scraper._start_time := 0;
  Scraper._request_count := 0;
  Scraper.gets := O;
  Scraper.navigations := O;
  Scraper.samples := O;
  Scraper.slept := [];
  Scraper.logged := [];
  Scraper.fetches := []
|}.

Definition site : string := "https://example.com/portfolio".

(** Surroundings shared by the scenarios: the generator always returns
    one half (the jitter factor is then one), the base delay is the
    default of [ScrapingConfig], pages parse to no records. *)
Definition scenario (http : string -> nat -> Scraper.http_outcome)
    (browser : string -> nat -> Scraper.browser_outcome) : Scraper.Env := {|
  Scraper.http_get := http;
  Scraper.browse := browser;
  Scraper.random_sample := fun _ => 0.5%Q;
  Scraper.netloc := fun _ => Ok "example.com";
  Scraper._parse_page := fun _ _ _ => Ok [];
  Scraper.status_error_text := fun status _ => pretty status;
  Scraper.str_of_float := fun _ => "0.0";
  Scraper.request_delay := 1
|}.

(** The rate-limit scenario of the specification: the host answers 429
    with [Retry-After: 5] to the first GET and 200 to every later one. *)
Definition rate_limited_once : Scraper.Env :=
  scenario
    (fun _ n =>
       match n with
       | O => Scraper.HttpResponse 429 (Some "5") EmptyString
       | _ => Scraper.HttpResponse 200 None "<html></html>"
       end)
    (fun _ _ => Scraper.PageContent "<html></html>").

(** Two hosts that are unreachable in different ways for the HTTP
    transport and in the same way for the browser. *)
Definition browser_down : string -> nat -> Scraper.browser_outcome :=
  fun _ _ => Scraper.BrowserRaises (Exn PlaywrightError "net::ERR_CONNECTION_REFUSED" None).

Definition refusing : Scraper.Env :=
  scenario
    (fun _ _ => Scraper.HttpRaises (Exn ClientError "Cannot connect to host" None))
    browser_down.


(** A failing call for a breaker over a world that is only a clock. *)
Definition refused : Eff Q unit :=
  eraise (Exn ClientError "Cannot connect to host" None).

Definition clock_reading (w : Q) : Q := w.
Definition float_text (_ : Q) : string := "0.0".

(** The HTTP breaker after five failures at time zero. *)
Definition tripped : Retry.CircuitBreaker := {|
  Retry.failure_threshold := 5;
  Retry.timeout := 300;
  Retry.expected_exception := [ClientError; TimeoutError; RateLimitError];
  Retry.failure_count := 5;
  Retry.last_failure_time := Some 0%Q;
  Retry.state := Retry.OPEN
|}.


(** A store that never fails, read on the second of January. *)
Definition calm : Store.Env := {|
  Store.wall := fun _ => day2;
  Store.fault := fun _ _ => None;
  Store.json_dumps := fun _ => "{}"
|}.

(** A company row stored on the first of January, and the store that
    holds it. *)
Definition acme_row : Py.dict :=
  list_to_map [
    ("id", Py.VInt 1); ("site_id", Py.VInt 7); ("name", Py.VStr "Acme");
    ("sector", Py.VStr "Software");
    ("content_hash", Py.VStr "0cc175b9c0f1b6a831c399e269772661");
    ("created_at", Py.VStr "2024-01-01T00:00:00+00:00");
    ("first_seen_at", Py.VStr "2024-01-01T00:00:00+00:00");
    ("last_seen_at", Py.VStr "2024-01-01T00:00:00+00:00");
    ("updated_at", Py.VStr "2024-01-01T00:00:00+00:00") ].

Definition acme_store : Store.Db := {|
  Store.tables := {[ "portfolio_companies" := [acme_row] ]};
  Store.next_id := 2;
  Store.now_calls := O;
  Store.executed := []
|}.

(** The same company scraped again, unchanged: same hash. *)
Definition acme_again : Py.dict :=
  list_to_map [
    ("name", Py.VStr "Acme"); ("sector", Py.VStr "Software");
    ("content_hash", Py.VStr "0cc175b9c0f1b6a831c399e269772661") ].

(** An empty store that rejects the insertion of any row named B. *)
Definition rejects_b : Store.Env := {|
  Store.wall := fun _ => day2;
  Store.fault := fun _ req =>
    match req with
    | Store.Insert _ values =>
        if bool_decide (values !! "name" = Some (Py.VStr "B"))
        then Some (Exn Exception "violates check constraint" None)
        else None
    | _ => None
    end;
  Store.json_dumps := fun _ => "{}"
|}.

Definition empty_store : Store.Db := {|
  Store.tables := ∅;
  Store.next_id := 1;
  Store.now_calls := O;
  Store.executed := []
|}.

Definition named (name : string) : Py.dict :=
  list_to_map [ ("name", Py.VStr name); ("content_hash", Py.VStr name) ].

End Samples.
(** ** Further definitions for the retry executor and the breaker *)

Module RetryMore.
Import Retry.

(** What holds of a breaker at any time: the count is not negative, and
    an OPEN breaker has reached its threshold and knows when it last
    failed. *)
Definition breaker_inv (cb : CircuitBreaker) : Prop :=
  0 <= failure_count cb
  /\ (state cb = OPEN ->
      failure_threshold cb <= failure_count cb
      /\ is_Some (last_failure_time cb)).

(** A policy without jitter and a function that fails twice with a
    retryable error and then returns, over a world that counts calls. *)
Definition steady : RetryPolicy := {|
  max_attempts := 4;
  backoff_factor := 2;
  jitter := false;
  initial_delay := 1;
  max_delay := 3;
  exceptions := [ClientError; TimeoutError];
  reraise_exceptions := Some [ClientResponseError]
|}.

Definition never : RetryPolicy := {|
  max_attempts := 0;
  backoff_factor := 2;
  jitter := true;
  initial_delay := 1;
  max_delay := 60;
  exceptions := [Exception];
  reraise_exceptions := None
|}.

Definition no_sleep (_ : Q) (w : nat) : nat := w.
Definition half (w : nat) : Q * nat := (0.5%Q, w).
(** A generator that is seen in the world when it is used. *)
Definition counted (w : nat) : Q * nat := (0.25%Q, (w + 100)%nat).

Definition timing_out : Eff nat string := fun w =>
  (Raise (Exn TimeoutError "timed out" None), S w).

Definition not_found : Eff nat string := fun w =>
  (Raise (Exn ClientResponseError "404" None), S w).

Definition bad_value : Eff Q unit :=
  eraise (Exn ValueError "bad value" None).

Definition succeeds : Eff Q unit := eret tt.

End RetryMore.

(** ** Further scenarios for the scraper *)

Module ScraperSamples.
Import Retry Scraper Samples.

(** A host that answers every GET with a page. *)
Definition serving : Env :=
  scenario (fun _ _ => HttpResponse 200 None "<html>ok</html>")
           (fun _ _ => PageContent "<html>rendered</html>").

(** The same host, for a subclass whose parser rejects the page the HTTP
    transport fetched and accepts the rendered one. *)
Definition needs_rendering : Env := {|
  http_get := http_get serving;
  browse := browse serving;
  random_sample := random_sample serving;
  netloc := netloc serving;
  _parse_page := fun soup _ _ =>
    if bool_decide (soup = "<html>rendered</html>") then Ok []
    else Raise (Exn ParseError "no portfolio section" None);
  status_error_text := status_error_text serving;
  str_of_float := str_of_float serving;
  request_delay := request_delay serving
|}.

(** A host that answers 429 with an HTTP date in [Retry-After]. *)
Definition dated_retry_after : Env :=
  scenario (fun _ _ => HttpResponse 429 (Some "Wed, 21 Oct 2015 07:28:00 GMT")
                                    EmptyString)
           (fun _ _ => PageContent "<html>rendered</html>").

(** A host that answers every GET with status 500. *)
Definition erroring : Env :=
  scenario (fun _ _ => HttpResponse 500 None "Internal Server Error")
           (fun _ _ => PageContent "<html>rendered</html>").

(** The same host reached by a URL that [urlparse] cannot split. *)
Definition bad_url : string := "http://[::1".

Definition unsplittable : Env := {|
  http_get := http_get serving;
  browse := browse serving;
  random_sample := random_sample serving;
  netloc := fun url =>
    if bool_decide (url = bad_url)
    then Raise (Exn ValueError "Invalid IPv6 URL" None)
    else netloc serving url;
  _parse_page := _parse_page serving;
  status_error_text := status_error_text serving;
  str_of_float := str_of_float serving;
  request_delay := request_delay serving
|}.

(** A scraper whose HTTP breaker, or browser breaker, opened at time
    zero, one hundred seconds ago. *)
Definition at_100 : World := {|
  clock := 100; _start_time := 0; _request_count := 5; gets := 5%nat;
  navigations := 3%nat; samples := 9%nat; slept := []; logged := [];
  fetches := []
|}.

Definition http_tripped : BaseScraper := {|
  world := at_100;
  _http_circuit_breaker := tripped;
  _playwright_circuit_breaker := playwright_breaker
|}.


(** A scraper whose HTTP breaker has counted three failures. *)
Definition http_strained : BaseScraper := {|
  world := at_100;
  _http_circuit_breaker := {|
    failure_threshold := 5;
    timeout := 300;
    expected_exception := [ClientError; TimeoutError; RateLimitError];
    failure_count := 3;
    last_failure_time := Some 90%Q;
    state := CLOSED
  |};
  _playwright_circuit_breaker := playwright_breaker
|}.

End ScraperSamples.


(** ** The rest of the client ([lib/database/supabase_client.py]) and its
    maintenance caller ([scripts/run_all_scrapers.py]) *)

Module StoreMore.
Import Py Store.

(** [dt.replace(day=d)]: the argument is converted to a C [int], then
    the constructor checks it. *)
Definition replace_day (dt : Datetime.datetime) (d : Z)
    : result Datetime.datetime :=
  if Datetime.c_int d then
    Datetime.make (Datetime.year dt) (Datetime.month dt) d
                  (Datetime.hour dt) (Datetime.minute dt) (Datetime.second dt)
                  (Datetime.microsecond dt)
  else Raise (Datetime.overflow_error d).

(** What [run_database_maintenance] returns: the dictionary with status
    [success], or the one with status [error]. *)
Inductive report : Type :=
  | Success (cleanup_completed : bool) (statistics : dict)
            (companies members : nat)
  | Failure (error : string).

(** The world of the methods decorated with [with_retry]: the store, the
    messages logged, the delays slept and the number of samples drawn
    from the random generator. *)
Record Session : Type := {
  store : Db;
  journal : list (level * string);
  naps : list Q;
  draws : nat
}.

Definition lift {A} (m : Op A) : Eff Session A := fun s =>
  let '(r, db, l) := m (store s) in
  (r, {| store := db; journal := journal s ++ l; naps := naps s;
         draws := draws s |}).

Definition nap (d : Q) (s : Session) : Session := {|
  store := store s; journal := journal s; naps := naps s ++ [d];
  draws := draws s
|}.

Section client_more.
Variable env : Env.
(** [table(t).delete().lt(column, v).execute()]: what the store does
    with it is left open. *)
Variable delete_lt : string -> string -> value -> Op (list dict).
(** [random.random()], by the number of samples drawn so far. *)
Variable random_sample : nat -> Q.
(** [SupabaseClient(config.database)]: it returns or raises. *)
Variable create_client : option exn.

Definition draw (s : Session) : Q * Session :=
  (random_sample (draws s),
   {| store := store s; journal := journal s; naps := naps s;
      draws := S (draws s) |}).

(** [update_site_last_scraped]: the body, and the method as decorated
    with [with_retry(max_attempts=3)]. *)
Definition update_site_body (site_id : Z) : Op bool :=
  ocatch
    (let* t := now_iso env in
     let* _ := execute env
       (Update "sites" (<["last_scraped_at" := t]> ∅)
               [Eq_ "id" (VInt site_id)]) in
     oret true)%op
    (fun e =>
       olog ERROR ("Error updating site last_scraped_at: " +:+ exn_str e) ;;;
       oret false)%op.

Definition update_site_policy : Retry.RetryPolicy := {|
  Retry.max_attempts := 3;
  Retry.backoff_factor := Retry.backoff_factor Retry.default_policy;
  Retry.jitter := Retry.jitter Retry.default_policy;
  Retry.initial_delay := Retry.initial_delay Retry.default_policy;
  Retry.max_delay := Retry.max_delay Retry.default_policy;
  Retry.exceptions := Retry.exceptions Retry.default_policy;
  Retry.reraise_exceptions := Retry.reraise_exceptions Retry.default_policy
|}.

Definition update_site_last_scraped (site_id : Z) : Eff Session bool :=
  Retry.async_wrapper nap draw update_site_policy "update_site_last_scraped"
    (lift (update_site_body site_id)).

(** [get_statistics]. *)
Definition get_statistics : Op dict :=
  ocatch
    (let stats : dict := ∅ in
     let* sites_response := execute env (Select "sites" [] None None) in
     let stats :=
       <["total_sites" := VInt (Z.of_nat (length sites_response))]> stats in
     let* companies_response :=
       execute env (Select "portfolio_companies" [] None None) in
     let stats :=
       <["total_companies" := VInt (Z.of_nat (length companies_response))]>
         stats in
     let* members_response :=
       execute env (Select "team_members" [] None None) in
     let stats :=
       <["total_team_members" := VInt (Z.of_nat (length members_response))]>
         stats in
     let* deals_response :=
       execute env (Select "fortune_deals" [] None None) in
     let stats :=
       <["total_fortune_deals" := VInt (Z.of_nat (length deals_response))]>
         stats in
     let* t := now env in
     match Datetime.replace t (Some 0) (Some 0) (Some 0) (Some 0) with
     | Raise e => oraise e
     | Ok recent_cutoff =>
         match Datetime.replace recent_cutoff
                 (Some (Datetime.hour recent_cutoff - 24)) None None None with
         | Raise e => oraise e
         | Ok recent_cutoff =>
             let* recent_companies := execute env
               (Select "portfolio_companies"
                  [Gte "updated_at" (VStr (Datetime.isoformat recent_cutoff))]
                  None None) in
             let stats :=
               <["companies_updated_24h" :=
                   VInt (Z.of_nat (length recent_companies))]> stats in
             let* recent_members := execute env
               (Select "team_members"
                  [Gte "updated_at" (VStr (Datetime.isoformat recent_cutoff))]
                  None None) in
             let stats :=
               <["members_updated_24h" :=
                   VInt (Z.of_nat (length recent_members))]> stats in
             oret stats
         end
     end)%op
    (fun e =>
       olog ERROR ("Error getting statistics: " +:+ exn_str e) ;;;
       oret ∅)%op.

(** The body of the loop of [cleanup_old_changes] over the change
    tables. *)
Definition cleanup_table (cutoff : string) (table : string) : Op unit :=
  ocatch
    (let* _ := delete_lt table "changed_at" (VStr cutoff) in
     olog INFO ("Cleaned up old changes from " +:+ table))%op
    (fun e =>
       olog ERROR ("Error cleaning up " +:+ table +:+ ": " +:+ exn_str e)).

Fixpoint cleanup_tables (cutoff : string) (tables : list string) : Op unit :=
  match tables with
  | [] => oret tt
  | table :: tables' =>
      (cleanup_table cutoff table ;;; cleanup_tables cutoff tables')%op
  end.

(** [cleanup_old_changes]: the [replace] is outside the [try]. *)
Definition cleanup_old_changes (days : Z) : Op bool :=
  (let* t := now env in
   match replace_day t (Datetime.day t - days) with
   | Raise e => oraise e
   | Ok cutoff_time =>
       ocatch
         (cleanup_tables (Datetime.isoformat cutoff_time)
            ["company_changes"; "member_changes"; "page_changes"] ;;;
          oret true)
         (fun e =>
            olog ERROR ("Error during change cleanup: " +:+ exn_str e) ;;;
            oret false)
   end)%op.

Definition rule : string := String.concat EmptyString (repeat "=" 50).

(** [run_database_maintenance] of [scripts/run_all_scrapers.py].  The
    [finally] clause closes a connection pool that is never opened. *)
Definition run_database_maintenance : Op report :=
  ocatch
    (olog INFO rule ;;;
     olog INFO "DATABASE MAINTENANCE" ;;;
     olog INFO rule ;;;
     match create_client with
     | Some e => oraise e
     | None =>
         olog INFO "Cleaning up old change records..." ;;;
         let* cleanup_result := cleanup_old_changes 30 in
         olog INFO "Gathering database statistics..." ;;;
         let* stats := get_statistics in
         olog INFO "Getting recent changes..." ;;;
         let* recent_company_changes :=
           get_recent_changes env "portfolio_companies" 24 100 in
         let* recent_member_changes :=
           get_recent_changes env "team_members" 24 100 in
         oret (Success cleanup_result stats
                       (length recent_company_changes)
                       (length recent_member_changes))
     end)%op
    (fun e =>
       olog ERROR ("Error in database maintenance: " +:+ exn_str e) ;;;
       oret (Failure (exn_str e)))%op.

End client_more.

(** The row that [record_company_change] or [record_member_change]
    sends to the store, before the store gives it a key. *)
Definition change_values (env : Env) (kind : Kind) (entity_id : value)
    (old_data new_data : dict) (db : Db) : dict :=
  <["changed_at" := VStr (Datetime.isoformat (wall env (now_calls db)))]>
    (<["new_hash" := get new_data "content_hash"]>
       (<["previous_hash" := get old_data "content_hash"]>
          (<["changes" := VStr (json_dumps env
                                  (changed_fields old_data new_data))]>
             (<[change_key kind := entity_id]> ∅)))).

(** The columns an upsert of a record that is not stored yet sends: those
    of the supplied record, the site key and the three time stamps; and
    the row the store makes of them, with a generated key when the record
    brings none. *)
Definition created (env : Env) (site_id : Z) (data : dict) (db : Db) : dict :=
  <["last_seen_at" :=
      VStr (Datetime.isoformat (wall env (S (S (now_calls db)))))]>
    (<["first_seen_at" :=
         VStr (Datetime.isoformat (wall env (S (now_calls db))))]>
       (<["created_at" := VStr (Datetime.isoformat (wall env (now_calls db)))]>
          (<["site_id" := VInt site_id]> data))).

Definition keyed (values : dict) (db : Db) : dict :=
  match values !! "id" with
  | Some _ => values
  | None => <["id" := VInt (next_id db)]> values
  end.

(** A store whose every request fails. *)
Definition unreachable : Env := {|
  wall := fun _ => Samples.day2;
  fault := fun _ _ => Some (Exn Exception "connection refused" None);
  json_dumps := fun _ => "{}"
|}.

(** The thirty-first of January 2024, and a store read on that day. *)
Definition day31 : Datetime.datetime := {|
  Datetime.year := 2024; Datetime.month := 1; Datetime.day := 31;
  Datetime.hour := 12; Datetime.minute := 30; Datetime.second := 0;
  Datetime.microsecond := 0
|}.

Definition on_day31 : Env := {|
  wall := fun _ => day31;
  fault := fun _ _ => None;
  json_dumps := fun _ => "{}"
|}.

(** A delete that the store refuses. *)
Definition refused_delete (_ _ : string) (_ : value) : Op (list dict) :=
  oraise (Exn Exception "permission denied" None).

Definition fresh_session : Session := {|
  store := Samples.empty_store; journal := []; naps := []; draws := O
|}.

(** The stored company scraped again with another sector, and so with
    another hash. *)
Definition acme_changed : dict :=
  list_to_map [
    ("name", VStr "Acme"); ("sector", VStr "Fintech");
    ("content_hash", VStr "92eb5ffee6ae2fec3ad71c777531578f") ].

(** A store that fails on its third request. *)
Definition fails_third : Env := {|
  wall := fun _ => Samples.day2;
  fault := fun n _ =>
    if (n =? 2)%nat then Some (Exn Exception "relation does not exist" None)
    else None;
  json_dumps := fun _ => "{}"
|}.

End StoreMore.

(** ** Validation of cleaned deals ([lib/cleaning/data_cleaner.py]) *)

Module CleanerMore.
Import Py.

(** [validate_deal_data]. *)
Definition validate_deal_data (data : dict) : bool :=
  if negb (truthy (get data "startup_name")) then false
  else if negb (truthy (get data "funding_amount_description"))
          && negb (truthy (get data "funding_amount")) then false
  else if negb (truthy (get data "round_type")) then false
  else true.

(** A scraped deal with its terms. *)
Definition seed_deal : dict :=
  list_to_map [
    ("startup_name", VStr "Acme"); ("funding_amount_description", VStr "$5M");
    ("round_type", VStr "Seed") ].

(** What the cleaner makes of it, with helpers that leave text as it
    is. *)
Definition seed_cleaned : dict :=
  match Cleaner.clean_deal_data Cleaner.plain_kernels VNone Samples.day2
                                seed_deal None with
  | Ok (Some cleaned) => cleaned
  | _ => ∅
  end.

End CleanerMore.
(** * Properties *)

(** ** Retry executor *)

Module RetryFacts.
Import Retry.

Section retry_bound.
Context {W A : Type}.
Variable sleep : Q -> W -> W.
Variable random : W -> Q * W.
Variable policy : RetryPolicy.
Variable func_name : string.
Variable func : Eff W A.

(** With [n] iterations left and [attempt] in step with them, the loop
    invokes at most [n] times, sleeps at most [n - 1] times, and every
    sleep is capped. *)
Lemma retry_loop_bound (n : nat) :
  forall attempt delay last w,
    ((0 < n)%nat -> attempt = max_attempts policy - Z.of_nat n) ->
    let tr := (retry_loop sleep random policy func_name func
                 n attempt delay last w).2 in
    (invocations tr <= n)%nat
    /\ (length (sleeps tr) <= n - 1)%nat
    /\ Forall (fun d => (d <= max_delay policy)%Q) (sleeps tr).
Proof.
  induction n as [|n IH]; intros attempt delay last w Hat; simpl.
  - repeat split; [lia | lia | constructor].
  - destruct (func w) as [[a|e] w1]; simpl.
    + repeat split; [lia | lia | constructor].
    + destruct (must_reraise policy e); simpl;
        [repeat split; [lia | lia | constructor]|].
      destruct (isinstance e (exceptions policy)); simpl;
        [|repeat split; [lia | lia | constructor]].
      destruct (Z.eqb_spec attempt (max_attempts policy - 1)) as [Hlast|Hmore];
        simpl; [repeat split; [lia | lia | constructor]|].
      set (jd := if jitter policy
                 then let '(r, w2) := random w1 in ((delay * (0.5 + r))%Q, w2)
                 else (delay, w1)).
      destruct jd as [actual w2].
      set (d := Qmin actual (max_delay policy)).
      specialize (IH (attempt + 1) (delay * backoff_factor policy)%Q
                     (Some e) (sleep d w2)).
      destruct (retry_loop sleep random policy func_name func n
                  (attempt + 1) (delay * backoff_factor policy)%Q
                  (Some e) (sleep d w2)) as [[res w4] tr].
      simpl in *.
      destruct IH as (Hi & Hs & Hd); [lia|].
      repeat split.
      * lia.
      * assert (n <> O) by lia. lia.
      * constructor; [apply Q.le_min_r | exact Hd].
Qed.

(** C8.  Whatever the policy, the decorated function and the world, one
    run of the retry wrapper invokes the function at most [max_attempts]
    times and sleeps at most [max_attempts - 1] times (there is no sleep
    after the final failed attempt), and every delay it sleeps is at
    most [max_delay], jitter included. *)
Theorem retry_bound (w : W) :
  let tr := (wrapper_traced sleep random policy func_name func w).2 in
  (invocations tr <= Z.to_nat (max_attempts policy))%nat
  /\ (length (sleeps tr) <= Z.to_nat (max_attempts policy) - 1)%nat
  /\ Forall (fun d => (d <= max_delay policy)%Q) (sleeps tr).
Proof.
  unfold wrapper_traced.
  apply (retry_loop_bound (Z.to_nat (max_attempts policy))).
  lia.
Qed.

(** The bound is reached: when every attempt fails with a retryable
    error, the function is invoked [max_attempts] times, with a sleep
    between consecutive attempts, and the retry error is raised. *)
Lemma retry_loop_exhausts (n : nat) :
  (forall w, exists e w',
      func w = (Raise e, w')
      /\ must_reraise policy e = false
      /\ isinstance e (exceptions policy) = true) ->
  forall attempt delay last w,
    (0 < n)%nat ->
    attempt = max_attempts policy - Z.of_nat n ->
    let out := retry_loop sleep random policy func_name func
                 n attempt delay last w in
    invocations out.2 = n
    /\ length (sleeps out.2) = (n - 1)%nat
    /\ exists e, out.1.1 = Raise (retry_error policy func_name (Some e)).
Proof.
  intros Hfail.
  induction n as [|n IH]; intros attempt delay last w Hn Hat; [lia|].
  simpl. destruct (Hfail w) as (e & w1 & -> & -> & ->). simpl.
  destruct (Z.eqb_spec attempt (max_attempts policy - 1)) as [Hlast|Hmore].
  - assert (n = O) as -> by lia. simpl. eauto.
  - assert (Hn' : (0 < n)%nat) by lia.
    set (jd := if jitter policy
               then let '(r, w2) := random w1 in ((delay * (0.5 + r))%Q, w2)
               else (delay, w1)).
    destruct jd as [actual w2].
    set (d := Qmin actual (max_delay policy)).
    specialize (IH (attempt + 1) (delay * backoff_factor policy)%Q
                   (Some e) (sleep d w2) Hn').
    destruct (retry_loop sleep random policy func_name func n
                (attempt + 1) (delay * backoff_factor policy)%Q
                (Some e) (sleep d w2)) as [[res w4] tr].
    simpl in *.
    destruct IH as (Hi & Hs & He); [lia|].
    repeat split; [lia | lia | exact He].
Qed.
End retry_bound.

Section retry_preserves.
Context {W A : Type}.
Variable sleep : Q -> W -> W.
Variable random : W -> Q * W.
Variable policy : RetryPolicy.
Variable func_name : string.
Variable func : Eff W A.
(** A reflexive and transitive relation between an earlier and a later
    world that sleeping, sampling and the decorated function respect. *)
Variable R : W -> W -> Prop.
Hypothesis R_refl : forall w, R w w.
Hypothesis R_trans : forall w1 w2 w3, R w1 w2 -> R w2 w3 -> R w1 w3.
Hypothesis sleep_R : forall d w, R w (sleep d w).
Hypothesis random_R : forall w, R w (random w).2.
Hypothesis func_R : forall w, R w (func w).2.

Lemma retry_loop_respects (n : nat) :
  forall attempt delay last w,
    R w (retry_loop sleep random policy func_name func n attempt delay last w).1.2.
Proof.
  induction n as [|n IH]; intros attempt delay last w; simpl; [done|].
  pose proof (func_R w) as Hf.
  destruct (func w) as [[a|e] w1]; simpl in *; [done|].
  destruct (must_reraise policy e); simpl; [done|].
  destruct (negb (isinstance e (exceptions policy))); simpl; [done|].
  destruct (attempt =? max_attempts policy - 1); simpl; [done|].
  destruct (jitter policy).
  - pose proof (random_R w1) as Hr.
    destruct (random w1) as [r w2]. simpl in Hr.
    match goal with
    | |- context [retry_loop _ _ _ _ _ _ ?a ?d ?l ?w'] =>
        pose proof (IH a d l w') as IH';
        pose proof (sleep_R (Qmin (delay * (0.5 + r)) (max_delay policy)) w2);
        destruct (retry_loop sleep random policy func_name func n a d l w')
          as [[res w4] tr]
    end.
    simpl in *. eauto.
  - match goal with
    | |- context [retry_loop _ _ _ _ _ _ ?a ?d ?l ?w'] =>
        pose proof (IH a d l w') as IH';
        pose proof (sleep_R (Qmin delay (max_delay policy)) w1);
        destruct (retry_loop sleep random policy func_name func n a d l w')
          as [[res w4] tr]
    end.
    simpl in *. eauto.
Qed.

Lemma async_wrapper_respects (w : W) :
  R w (async_wrapper sleep random policy func_name func w).2.
Proof. unfold async_wrapper, wrapper_traced. apply retry_loop_respects. Qed.
End retry_preserves.
End RetryFacts.

(** ** Circuit breaker *)

Module BreakerFacts.
Import Retry.

Section breaker.
Context {W A : Type}.
Variable time : W -> Q.
Variable str_of_float : Q -> string.

Lemma call_n_snoc (n : nat) (func : Eff W A) :
  forall cb w,
    call_n time str_of_float (S n) func cb w
    = (let '(cb1, w1) := call_n time str_of_float n func cb w in
       let '(_, cb2, w2) := call time str_of_float func cb1 w1 in
       (cb2, w2)).
Proof.
  induction n as [|n IH]; intros cb w.
  - simpl. destruct (call time str_of_float func cb w) as [[r cb1] w1].
    reflexivity.
  - change (call_n time str_of_float (S (S n)) func cb w)
      with (let '(_, cb1, w1) := call time str_of_float func cb w in
            call_n time str_of_float (S n) func cb1 w1).
    destruct (call time str_of_float func cb w) as [[r cb1] w1] eqn:Hc.
    rewrite IH. simpl. rewrite Hc. reflexivity.
Qed.

(** One qualifying failure seen by a breaker that admits the call. *)
Lemma call_failure (func : Eff W A) (cb : CircuitBreaker) (w : W) :
  state cb <> OPEN ->
  always_fails func (expected_exception cb) ->
  exists w', (call time str_of_float func cb w).1.2 = _on_failure cb (time w').
Proof.
  intros Hst Hfail. destruct (Hfail w) as (e & w' & Hf & He).
  exists w'. unfold call, call_traced.
  destruct (state cb); try congruence; rewrite Hf, He; reflexivity.
Qed.

(** Below the threshold the breaker stays CLOSED and counts. *)
Lemma failures_below_threshold (func : Eff W A) (n : nat) :
  forall cb w,
    state cb = CLOSED ->
    always_fails func (expected_exception cb) ->
    failure_count cb + Z.of_nat n < failure_threshold cb ->
    let cb' := (call_n time str_of_float n func cb w).1 in
    state cb' = CLOSED
    /\ failure_count cb' = failure_count cb + Z.of_nat n
    /\ failure_threshold cb' = failure_threshold cb
    /\ expected_exception cb' = expected_exception cb.
Proof.
  induction n as [|n IH]; intros cb w Hst Hfail Hlt.
  - simpl. repeat split; try done. lia.
  - simpl.
    destruct (call_failure func cb w) as (w' & Hcb); [congruence | done |].
    destruct (call time str_of_float func cb w) as [[r cb1] w1].
    simpl in Hcb. subst cb1.
    assert (Hno : (failure_threshold cb <=? failure_count cb + 1) = false)
      by (apply Z.leb_gt; lia).
    destruct (IH (_on_failure cb (time w')) w1) as (H1 & H2 & H3 & H4).
    + simpl. rewrite Hno. exact Hst.
    + exact Hfail.
    + simpl. lia.
    + simpl in *. repeat split; try done. lia.
Qed.

(** C6.  For every threshold [k] (at least one, so that [k - 1] failures
    make sense), a breaker that starts CLOSED with a zero count is OPEN
    after exactly [k] consecutive qualifying failures and still CLOSED
    after only [k - 1] of them. *)
Theorem threshold_opens (k : Z) (cooldown : Q) (expected : list exn_class)
    (func : Eff W A) (w : W) :
  1 <= k ->
  always_fails func expected ->
  state (call_n time str_of_float (Z.to_nat k) func
           (init k cooldown expected) w).1 = OPEN
  /\ state (call_n time str_of_float (Z.to_nat (k - 1)) func
              (init k cooldown expected) w).1 = CLOSED.
Proof.
  intros Hk Hfail.
  pose proof (failures_below_threshold func (Z.to_nat (k - 1))
                (init k cooldown expected) w eq_refl Hfail) as Hbelow.
  simpl in Hbelow.
  destruct Hbelow as (Hst & Hcnt & Hth & Hex); [lia|].
  split; [|exact Hst].
  replace (Z.to_nat k) with (S (Z.to_nat (k - 1))) by lia.
  rewrite call_n_snoc.
  destruct (call_n time str_of_float (Z.to_nat (k - 1)) func
              (init k cooldown expected) w) as [cb1 w1].
  simpl in *.
  destruct (call_failure func cb1 w1) as (w' & Hcb);
    [congruence | rewrite Hex; exact Hfail |].
  destruct (call time str_of_float func cb1 w1) as [[r cb2] w2].
  simpl in *. subst cb2. simpl.
  rewrite Hth, Hcnt.
  replace (k <=? 0 + Z.of_nat (Z.to_nat (k - 1)) + 1) with true; [done|].
  symmetry. apply Z.leb_le. lia.
Qed.

(** C7.  While the breaker is OPEN with a recorded failure time, a call
    made before the cooldown has elapsed raises the circuit-open error,
    leaves breaker and world untouched and never invokes the function;
    a call made once the cooldown has elapsed invokes the function
    exactly once, with the breaker moved to HALF_OPEN and its failure
    count reset to zero, and the breaker the call returns is that
    HALF_OPEN breaker after the outcome of the function: reset by a
    normal return, one failure counted for an exception of the filter,
    unchanged for any other exception. *)
Theorem open_cooldown (func : Eff W A) (cb : CircuitBreaker) (w : W) (t : Q) :
  state cb = OPEN ->
  last_failure_time cb = Some t ->
  ((time w - t < timeout cb)%Q ->
     call_traced time str_of_float func cb w
     = (Raise (circuit_open_error str_of_float cb), cb, w, []))
  /\ ((timeout cb <= time w - t)%Q ->
        exists cb1,
          (call_traced time str_of_float func cb w).2 = [cb1]
          /\ state cb1 = HALF_OPEN
          /\ failure_count cb1 = 0
          /\ (call time str_of_float func cb w).1.1 = (func w).1
          /\ (call time str_of_float func cb w).2 = (func w).2
          /\ failure_threshold cb1 = failure_threshold cb
          /\ timeout cb1 = timeout cb
          /\ expected_exception cb1 = expected_exception cb
          /\ last_failure_time cb1 = last_failure_time cb
          /\ (call time str_of_float func cb w).1.2
             = match (func w).1 with
               | Ok _ => _on_success cb1
               | Raise e =>
                   if isinstance e (expected_exception cb)
                   then _on_failure cb1 (time (func w).2)
                   else cb1
               end).
Proof.
  intros Hst Hlast. unfold call, call_traced, _should_try_reset.
  rewrite Hst, Hlast. split; intros Hc.
  - destruct (Qle_bool (timeout cb) (time w - t)) eqn:Hb; [|reflexivity].
    apply Qle_bool_iff in Hb. apply Qlt_not_le in Hc. contradiction.
  - apply Qle_bool_iff in Hc. rewrite Hc.
    exists (half_open cb).
    destruct (func w) as [[a|e] w1]; simpl.
    + repeat split; auto.
    + destruct (isinstance e (expected_exception cb)); repeat split; auto.
Qed.

(** The wrapper changes the world only through the wrapped function. *)
Lemma call_world (func : Eff W A) (cb : CircuitBreaker) (w : W) :
  (call time str_of_float func cb w).2 = w
  \/ (call time str_of_float func cb w).2 = (func w).2.
Proof.
  unfold call, call_traced.
  repeat (case_match; simpl; try (by left)); by right.
Qed.

(** C4, as the code has it.  The next qualifying failure of a
    HALF_OPEN breaker increments the failure count and records the
    failure time; the breaker goes to OPEN, the cooldown restarting at
    that time, only when the incremented count reaches the threshold,
    and stays HALF_OPEN otherwise. *)
Theorem half_open_failure (func : Eff W A) (cb : CircuitBreaker) (w w' : W)
    (e : exn) :
  state cb = HALF_OPEN ->
  func w = (Raise e, w') ->
  isinstance e (expected_exception cb) = true ->
  let cb' := (call time str_of_float func cb w).1.2 in
  state cb'
  = (if failure_threshold cb <=? failure_count cb + 1 then OPEN else HALF_OPEN)
  /\ failure_count cb' = failure_count cb + 1
  /\ last_failure_time cb' = Some (time w').
Proof.
  intros Hst Hf He. unfold call, call_traced.
  rewrite Hst, Hf, He. simpl. rewrite Hst. repeat split.
Qed.

(** A breaker is never OPEN without a recorded failure time: only
    [_on_failure] opens it. *)
Lemma on_failure_records_time (cb : CircuitBreaker) (now : Q) :
  last_failure_time (_on_failure cb now) = Some now.
Proof. reflexivity. Qed.
End breaker.

End BreakerFacts.

Module BreakerScenarios.
Import Retry Samples BreakerFacts.

Lemma refused_always_fails :
  always_fails refused [ClientError; TimeoutError; RateLimitError].
Proof. intros w. eexists _, _. split; reflexivity. Qed.

(** [threshold_opens] on the HTTP breaker of the scraper. *)
Lemma threshold_opens_witness :
  state (call_n clock_reading float_text (Z.to_nat 5) refused
           (init 5 300 [ClientError; TimeoutError; RateLimitError]) 0%Q).1 = OPEN
  /\ state (call_n clock_reading float_text (Z.to_nat (5 - 1)) refused
              (init 5 300 [ClientError; TimeoutError; RateLimitError]) 0%Q).1
     = CLOSED.
Proof.
  apply (threshold_opens clock_reading float_text 5 300
           [ClientError; TimeoutError; RateLimitError] refused 0%Q).
  - lia.
  - exact refused_always_fails.
Defined.

(** [open_cooldown] on the tripped breaker, one hundred seconds after the
    last failure and four hundred seconds after it. *)
Lemma open_cooldown_witness :
  call_traced clock_reading float_text refused tripped 100%Q
  = (Raise (circuit_open_error float_text tripped), tripped, 100%Q, [])
  /\ exists cb1,
       (call_traced clock_reading float_text refused tripped 400%Q).2 = [cb1]
       /\ state cb1 = HALF_OPEN
       /\ failure_count cb1 = 0
       /\ (call clock_reading float_text refused tripped 400%Q).1.1
          = (refused 400%Q).1
       /\ (call clock_reading float_text refused tripped 400%Q).2
          = (refused 400%Q).2
       /\ failure_threshold cb1 = failure_threshold tripped
       /\ timeout cb1 = timeout tripped
       /\ expected_exception cb1 = expected_exception tripped
       /\ last_failure_time cb1 = last_failure_time tripped
       /\ (call clock_reading float_text refused tripped 400%Q).1.2
          = match (refused 400%Q).1 with
            | Ok _ => _on_success cb1
            | Raise e =>
                if isinstance e (expected_exception tripped)
                then _on_failure cb1 (clock_reading (refused 400%Q).2)
                else cb1
            end.
Proof.
  split.
  - apply (proj1 (open_cooldown clock_reading float_text refused tripped
                    100%Q 0%Q eq_refl eq_refl)).
    unfold Qlt. simpl. lia.
  - apply (proj2 (open_cooldown clock_reading float_text refused tripped
                    400%Q 0%Q eq_refl eq_refl)).
    unfold Qle. simpl. lia.
Defined.

(** [half_open_failure] on the probe of the HTTP breaker: the breaker as
    the cooldown leaves it, and a refused connection at time 300. *)
Lemma half_open_failure_witness :
  let cb' := (call clock_reading float_text refused (half_open tripped) 300%Q).1.2 in
  state cb'
  = (if failure_threshold (half_open tripped)
        <=? failure_count (half_open tripped) + 1
     then OPEN else HALF_OPEN)
  /\ failure_count cb' = failure_count (half_open tripped) + 1
  /\ last_failure_time cb' = Some (clock_reading 300%Q).
Proof.
  apply (half_open_failure clock_reading float_text refused (half_open tripped)
           300%Q 300%Q (Exn ClientError "Cannot connect to host" None)).
  - reflexivity.
  - reflexivity.
  - reflexivity.
Defined.

(** C4, as stated, fails for a threshold above one.  The HTTP breaker
    (threshold five) is opened by five failures at time zero; the probe
    admitted after the cooldown fails; the breaker is then HALF_OPEN, not
    OPEN, with a count of one, and it admits the next call. *)
Lemma half_open_failure_does_not_reopen :
  let opened :=
    (call_n clock_reading float_text 5 refused Scraper.http_breaker 0%Q).1 in
  let probed := (call clock_reading float_text refused opened 300%Q).1.2 in
  state opened = OPEN
  /\ failure_count opened = 5
  /\ state probed = HALF_OPEN
  /\ state probed <> OPEN
  /\ failure_count probed = 1
  /\ (call_traced clock_reading float_text refused probed 301%Q).2 = [probed].
Proof.
  vm_compute.
  repeat (split; [reflexivity|]).
  split; [discriminate|].
  split; reflexivity.
Qed.

End BreakerScenarios.

(** ** Sanity of the Python and MD5 models *)

Module ModelChecks.

Example md5_empty : MD5.hexdigest EmptyString = "d41d8cd98f00b204e9800998ecf8427e".
Proof. vm_compute. reflexivity. Qed.

Example md5_abc : MD5.hexdigest "abc" = "900150983cd24fb0d6963f7d28e17f72".
Proof. vm_compute. reflexivity. Qed.

Example md5_fox :
  MD5.hexdigest "The quick brown fox jumps over the lazy dog"
  = "9e107d9d372bb6826bd81d3542a419d6".
Proof. vm_compute. reflexivity. Qed.

(** Fifty-six bytes: the padding spills into a second block. *)
Example md5_two_blocks :
  MD5.hexdigest "aaaaaaaaaaaaaaaaaaaaaaaaaaaaaaaaaaaaaaaaaaaaaaaaaaaaaaaa"
  = "3b0c8ac703f828b04c6c197006d17218".
Proof. vm_compute. reflexivity. Qed.

Example repr_quotes :
  Py.repr_str "it's" = String Py.dquote ("it's" +:+ String Py.dquote EmptyString)
  /\ Py.repr_str "plain" = "'plain'".
Proof. vm_compute. split; reflexivity. Qed.

Example int_of_str_examples :
  Py.int_of_str "5" = Some 5
  /\ Py.int_of_str " 120 " = Some 120
  /\ Py.int_of_str "-7" = Some (-7)
  /\ Py.int_of_str "1_000" = Some 1000
  /\ Py.int_of_str "Wed, 21 Oct 2015 07:28:00 GMT" = None
  /\ Py.int_of_str EmptyString = None.
Proof. vm_compute. repeat split; reflexivity. Qed.

End ModelChecks.

(** ** Content hash *)

Module CleanerFacts.
Import Py Cleaner Samples.

Example isoformat_day1 : Datetime.isoformat day1 = "2024-01-01T00:00:00+00:00".
Proof. vm_compute. reflexivity. Qed.

Section hash_scope.
Variable K : Kernels.
Variable base_url : value.

(** The last step of every cleaner stores the hash of the record built
    so far: removing the hash from the result gives back what was
    hashed. *)
Lemma hashed_record (hashed : dict) :
  hashed !! "content_hash" = None ->
  let final := <["content_hash" := VStr (calculate_content_hash hashed)]> hashed in
  delete "content_hash" final = hashed.
Proof.
  intros Hnone final. unfold final.
  rewrite delete_insert_eq. apply delete_id. exact Hnone.
Qed.

Ltac no_hash_yet :=
  repeat (rewrite lookup_insert_ne by done);
  repeat case_match;
  repeat (rewrite lookup_insert_ne by done);
  done.

(** For each cleaner: the stored hash is the hash of all the other
    entries of the record, and the time stamp is one of them. *)
Lemma team_member_hash_covers_timestamp now raw :
  let cleaned := clean_team_member K base_url now raw in
  cleaned !! "content_hash"
  = Some (VStr (calculate_content_hash (delete "content_hash" cleaned)))
  /\ delete "content_hash" cleaned !! "scraped_at"
     = Some (VStr (Datetime.isoformat now)).
Proof.
  unfold clean_team_member.
  rewrite hashed_record by no_hash_yet.
  split; [apply lookup_insert_eq | apply lookup_insert_eq].
Qed.

Lemma portfolio_company_hash_covers_timestamp now raw :
  let cleaned := clean_portfolio_company K base_url now raw in
  cleaned !! "content_hash"
  = Some (VStr (calculate_content_hash (delete "content_hash" cleaned)))
  /\ delete "content_hash" cleaned !! "scraped_at"
     = Some (VStr (Datetime.isoformat now)).
Proof.
  unfold clean_portfolio_company.
  rewrite hashed_record by no_hash_yet.
  split; [apply lookup_insert_eq |].
  rewrite lookup_insert_ne by done. apply lookup_insert_eq.
Qed.

Lemma deal_hash_covers_timestamp now raw pub_date cleaned :
  clean_deal_data K base_url now raw pub_date = Ok (Some cleaned) ->
  cleaned !! "content_hash"
  = Some (VStr (calculate_content_hash (delete "content_hash" cleaned)))
  /\ delete "content_hash" cleaned !! "extracted_at"
     = Some (VStr (Datetime.isoformat now)).
Proof.
  unfold clean_deal_data. intros Hclean.
  destruct (negb (truthy (clean_text K _ None))); [discriminate|].
  destruct (match get_or raw "other_investors" (VList []) with
            | VList l => clean_investors K l
            | _ => Ok []
            end) as [investors|e]; [|discriminate].
  destruct (if truthy (get_or raw "summary" (VStr EmptyString))
               && negb (truthy (get raw "location"))
            then extract_location_from_summary K
                   (get_or raw "summary" (VStr EmptyString))
            else (get raw "location", get_or raw "summary" (VStr EmptyString)))
    as [location summary].
  injection Hclean as <-.
  rewrite hashed_record by no_hash_yet.
  split; apply lookup_insert_eq.
Qed.
End hash_scope.

(** C1.  The content hash is not computed over the significant fields
    only: it covers the scrape time stamp.  Cleaning the same input at two
    different times gives records that agree on every field but the time
    stamp and the hash (their other items, in key order, are the same),
    and the two hashes differ.  Shown on an empty team
    member, an empty company and a deal that has only a name. *)
Theorem content_hash_depends_on_scrape_time :
  let m1 := clean_team_member plain_kernels VNone day1 ∅ in
  let m2 := clean_team_member plain_kernels VNone day2 ∅ in
  let c1 := clean_portfolio_company plain_kernels VNone day1 ∅ in
  let c2 := clean_portfolio_company plain_kernels VNone day2 ∅ in
  let raw_deal : dict := {["startup_name" := VStr "Acme"]} in
  let d1 := clean_deal_data plain_kernels VNone day1 raw_deal None in
  let d2 := clean_deal_data plain_kernels VNone day2 raw_deal None in
  let significant (r : dict) : list (string * value) :=
    sorted_items
      (delete "extracted_at" (delete "scraped_at" (delete "content_hash" r))) in
  let deal_fields (r : result (option dict)) : option (list (string * value)) :=
    match r with Ok (Some d) => Some (significant d) | _ => None end in
  let deal_hash (r : result (option dict)) : option value :=
    match r with Ok (Some d) => d !! "content_hash" | _ => None end in
  significant m1 = significant m2
  /\ m1 !! "content_hash" = Some (VStr "8b573a9924dab177b5dbf72d02570cc2")
  /\ m2 !! "content_hash" = Some (VStr "5169719ab3cdd1b2ff7d3d11882a22cd")
  /\ significant c1 = significant c2
  /\ c1 !! "content_hash" = Some (VStr "e9d2f27531a9b1f6f26d4fd054d0328b")
  /\ c2 !! "content_hash" = Some (VStr "50438527afd6e4a318e3726d42946596")
  /\ deal_fields d1 = deal_fields d2
  /\ deal_hash d1 = Some (VStr "7fe90eb3e2a6cf6511baacc4aad4617a")
  /\ deal_hash d2 = Some (VStr "aa0bb58d2e742fb1817cb6760bc8f130").
Proof. vm_compute. repeat (split; [reflexivity|]). reflexivity. Qed.

(** The team-member and company runs above reach no helper body, so they
    are the same for every choice of kernels. *)
Lemma empty_record_hash_any_kernels (K : Kernels) (base_url : value) :
  clean_team_member K base_url day1 ∅ !! "content_hash"
  = Some (VStr "8b573a9924dab177b5dbf72d02570cc2")
  /\ clean_team_member K base_url day2 ∅ !! "content_hash"
     = Some (VStr "5169719ab3cdd1b2ff7d3d11882a22cd")
  /\ clean_portfolio_company K VNone day1 ∅ !! "content_hash"
     = Some (VStr "e9d2f27531a9b1f6f26d4fd054d0328b")
  /\ clean_portfolio_company K VNone day2 ∅ !! "content_hash"
     = Some (VStr "50438527afd6e4a318e3726d42946596").
Proof. vm_compute. repeat split; reflexivity. Qed.

End CleanerFacts.

(** ** Dual-transport fetching *)


(** ** Dual-transport fetching *)

Module ScraperFacts.
Import Retry Py Scraper Samples.

Lemma later_refl w : later w w.
Proof. split; auto. Qed.

Lemma later_trans w1 w2 w3 : later w1 w2 -> later w2 w3 -> later w1 w3.
Proof. intros [F1 L1] [F2 L2]. split; [congruence | auto]. Qed.

Lemma later_sleep d w : later w (sleep d w).
Proof. split; auto. Qed.

Lemma later_log lv msg w : later w (log lv msg w).
Proof.
  split; [done|]. intros m Hm. simpl. apply elem_of_app. left. exact Hm.
Qed.

Section fetching.
Variable env : Env.

Lemma later_random w : later w (random env w).2.
Proof. split; auto. Qed.

Lemma later_rate_limit_delay w : later w (_rate_limit_delay env w).2.
Proof.
  unfold _rate_limit_delay, random.
  repeat case_match; simplify_eq; simpl; split; auto.
Qed.

Lemma later_fetch_requests url w : later w (_fetch_requests env url w).2.
Proof.
  unfold _fetch_requests, ebind.
  pose proof (later_rate_limit_delay w) as Hd.
  destruct (_rate_limit_delay env w) as [[[]|e] w1]; simpl in *; [|done].
  eapply later_trans; [exact Hd|].
  repeat case_match;
    (split; simpl;
     [reflexivity
     | intros m Hm; try exact Hm; apply elem_of_app; left; exact Hm]).
Qed.

Lemma later_fetch_playwright url w : later w (_fetch_playwright env url w).2.
Proof.
  unfold _fetch_playwright, ebind.
  pose proof (later_rate_limit_delay w) as Hd.
  destruct (_rate_limit_delay env w) as [[[]|e] w1]; simpl in *; [|done].
  eapply later_trans; [exact Hd|].
  repeat case_match; simpl; split; auto.
Qed.

Lemma later_requests_body url kwargs s :
  later_s s (requests_body env url kwargs s).2.
Proof.
  unfold later_s, requests_body. case_match; [apply later_refl|].
  pose proof (BreakerFacts.call_world clock (str_of_float env)
                (_fetch_requests env url) (_http_circuit_breaker s) (world s))
    as Hw.
  destruct (call clock (str_of_float env) (_fetch_requests env url)
              (_http_circuit_breaker s) (world s)) as [[r cb] w].
  simpl in *. destruct Hw as [-> | ->]; [apply later_refl|].
  apply later_fetch_requests.
Qed.

Lemma later_playwright_body url kwargs s :
  later_s s (playwright_body env url kwargs s).2.
Proof.
  unfold later_s, playwright_body. case_match; [apply later_refl|].
  pose proof (BreakerFacts.call_world clock (str_of_float env)
                (_fetch_playwright env url) (_playwright_circuit_breaker s)
                (world s)) as Hw.
  destruct (call clock (str_of_float env) (_fetch_playwright env url)
              (_playwright_circuit_breaker s) (world s)) as [[r cb] w].
  simpl in *. destruct Hw as [-> | ->]; [apply later_refl|].
  apply later_fetch_playwright.
Qed.

(** One guarded fetch is one entry in the log of transports, whatever
    happens inside its retry loop, and it loses no message. *)
Lemma fetch_enters_once t url kwargs s :
  fetches (world (fetch env t url kwargs s).2) = fetches (world s) ++ [t]
  /\ forall m, m ∈ logged (world s) ->
               m ∈ logged (world (fetch env t url kwargs s).2).
Proof.
  destruct t; unfold fetch, fetch_with_requests, fetch_with_playwright.
  - destruct (RetryFacts.async_wrapper_respects sleep_s (random_s env)
                requests_policy "fetch_with_requests"
                (requests_body env url kwargs) later_s) with
      (w := on_world (fun w => set_fetches (fetches w ++ [Requests]) w) s)
      as [F L];
      try (intros; apply later_refl);
      try (intros; eapply later_trans; eassumption);
      try (intros; apply later_sleep);
      try (intros; apply later_random);
      try (intros; apply later_requests_body).
    split; [exact F | intros m Hm; apply L; exact Hm].
  - destruct (RetryFacts.async_wrapper_respects sleep_s (random_s env)
                playwright_policy "fetch_with_playwright"
                (playwright_body env url kwargs) later_s) with
      (w := on_world (fun w => set_fetches (fetches w ++ [Playwright]) w) s)
      as [F L];
      try (intros; apply later_refl);
      try (intros; eapply later_trans; eassumption);
      try (intros; apply later_sleep);
      try (intros; apply later_random);
      try (intros; apply later_playwright_body).
    split; [exact F | intros m Hm; apply L; exact Hm].
Qed.

End fetching.



(** The rate-limit delay issues no request. *)
Lemma rate_limit_delay_gets (env : Env) (w : World) :
  gets (_rate_limit_delay env w).2 = gets w.
Proof.
  unfold _rate_limit_delay, random.
  repeat case_match; simplify_eq; reflexivity.
Qed.

(** One HTTP fetch that is answered 429, seen from inside the breaker:
    it sleeps the announced seconds (sixty without the header) last, and
    raises the rate-limit error. *)
Lemma fetch_requests_rate_limited (env : Env) (url : string) (w : World)
    (header : option string) (text : string) (seconds : Z) :
  http_get env url (gets w) = HttpResponse 429 header text ->
  match header with None => Some 60 | Some h => int_of_str h end = Some seconds ->
  (_fetch_requests env url w).1
  = Raise (Exn RateLimitError ("Rate limited on " +:+ url) None)
  /\ gets (_fetch_requests env url w).2 = S (gets w)
  /\ last (slept (_fetch_requests env url w).2) = Some (inject_Z seconds).
Proof.
  intros Hget Hsec. unfold _fetch_requests, ebind.
  pose proof (rate_limit_delay_gets env w) as Hg.
  destruct (_rate_limit_delay env w) as [[[]|e] w1] eqn:Hd;
    [|discriminate (f_equal fst Hd)].
  simpl in Hg. rewrite Hg, Hget. simpl.
  destruct header as [h|]; simpl in *.
  - rewrite Hsec. simpl. rewrite last_snoc. done.
  - injection Hsec as <-. simpl. rewrite last_snoc. done.
Qed.

(** Whatever the host, the URL and the state of the scraper: when the
    breaker admits the call and the next GET is answered 429, the
    decorated fetch makes that one GET and raises the rate-limit error;
    the retry loop does not run a second attempt. *)
Lemma rate_limit_never_retried (env : Env) (url : string) (s : BaseScraper)
    (header : option string) (text : string) (seconds : Z) :
  state (_http_circuit_breaker s) <> OPEN ->
  http_get env url (gets (world s)) = HttpResponse 429 header text ->
  match header with None => Some 60 | Some h => int_of_str h end = Some seconds ->
  let out := fetch_with_requests env url [] s in
  out.1 = Raise (Exn RateLimitError ("Rate limited on " +:+ url) None)
  /\ gets (world out.2) = S (gets (world s))
  /\ last (slept (world out.2)) = Some (inject_Z seconds).
Proof.
  intros Hst Hget Hsec out.
  set (w0 := set_fetches (fetches (world s) ++ [Requests]) (world s)).
  destruct (fetch_requests_rate_limited env url w0 header text seconds Hget Hsec)
    as (Hr & Hg & Hs).
  assert (Hout : exists cb,
    out = (Raise (Exn RateLimitError ("Rate limited on " +:+ url) None),
           {| world := (_fetch_requests env url w0).2;
              _http_circuit_breaker := cb;
              _playwright_circuit_breaker := _playwright_circuit_breaker s |})).
  { unfold out, fetch_with_requests, async_wrapper, wrapper_traced.
    change (Z.to_nat (max_attempts requests_policy)) with 3%nat.
    cbn [retry_loop].
    unfold requests_body at 1. cbn [unexpected_keyword filter head].
    unfold call, call_traced. cbn [on_world world _http_circuit_breaker].
    fold w0.
    destruct (state (_http_circuit_breaker s)) eqn:Est; [|congruence|];
      destruct (_fetch_requests env url w0) as [r w1];
      simpl in Hr; subst r; simpl;
      destruct (isinstance _ (expected_exception _)); simpl; eauto. }
  destruct Hout as [cb ->]. simpl. auto.
Qed.

(** The retry policy of the HTTP transport does not list the rate-limit
    error. *)
Lemma rate_limit_error_not_retryable (msg : string) (cause : option exn) :
  isinstance (Exn RateLimitError msg cause) (exceptions requests_policy) = false
  /\ isinstance (Exn RateLimitError msg cause)
                (expected_exception http_breaker) = true.
Proof. split; reflexivity. Qed.

(** C3.  A 429 is not retried by the HTTP transport.  In the scenario of
    the specification (429 with [Retry-After: 5] on the first GET, 200
    afterwards) the fetch sleeps the base delay and then the five seconds,
    raises the rate-limit error after that single GET and never issues
    the second one; the breaker has counted one failure. *)
Theorem rate_limit_is_not_retried :
  let out := fetch_with_requests rate_limited_once site []
               (new_scraper fresh_world) in
  out.1 = Raise (Exn RateLimitError
                     "Rate limited on https://example.com/portfolio" None)
  /\ gets (world out.2) = 1%nat
  /\ Forall2 Qeq (slept (world out.2)) [1%Q; 5%Q]
  /\ failure_count (_http_circuit_breaker out.2) = 1
  /\ state (_http_circuit_breaker out.2) = CLOSED.
Proof.
  vm_compute.
  repeat (split; [reflexivity|]).
  split; [|split; reflexivity].
  repeat constructor.
Qed.

End ScraperFacts.

(** ** Change-tracked persistence *)

Module StoreFacts.
Import Py Store Samples.

Lemma make_value_error y m d h mi s us e :
  Datetime.make y m d h mi s us = Raise e ->
  exists msg, e = Datetime.value_error msg.
Proof.
  unfold Datetime.make. intros H.
  repeat (case_match; [injection H as <-; eauto|]). discriminate.
Qed.

(** Zeroing the time fields: the four zeros fit a C [int]. *)
Lemma replace_zero (t : Datetime.datetime) :
  Datetime.replace t (Some 0) (Some 0) (Some 0) (Some 0)
  = Datetime.make (Datetime.year t) (Datetime.month t) (Datetime.day t)
                  0 0 0 0.
Proof. reflexivity. Qed.

(** Replacing the hour alone. *)
Lemma replace_hour (t : Datetime.datetime) (h : Z) :
  Datetime.replace t (Some h) None None None
  = if Datetime.c_int h
    then Datetime.make (Datetime.year t) (Datetime.month t) (Datetime.day t)
                       h (Datetime.minute t) (Datetime.second t)
                       (Datetime.microsecond t)
    else Raise (Datetime.overflow_error h).
Proof.
  unfold Datetime.replace, Datetime.first_overflow. simpl.
  destruct (Datetime.c_int h); reflexivity.
Qed.

Lemma replace_midnight (t : Datetime.datetime) :
  Datetime.valid t ->
  exists t', Datetime.replace t (Some 0) (Some 0) (Some 0) (Some 0) = Ok t'
             /\ Datetime.hour t' = 0.
Proof.
  rewrite replace_zero.
  unfold Datetime.valid, Datetime.make. simpl. intros H.
  repeat (case_match; [discriminate|]).
  eexists. split; reflexivity.
Qed.

Lemma make_hour_ok y m d h mi s us t :
  Datetime.make y m d h mi s us = Ok t -> Datetime.hour t = h.
Proof.
  unfold Datetime.make. intros H.
  repeat (case_match; [discriminate|]). injection H as <-. reflexivity.
Qed.

Lemma replace_negative_hour (t : Datetime.datetime) (h : Z) :
  Datetime.valid t -> - 2 ^ 31 <= h < 0 ->
  Datetime.replace t (Some h) None None None
  = Raise (Datetime.value_error "hour must be in 0..23").
Proof.
  intros H Hh. rewrite replace_hour.
  assert (Datetime.c_int h = true) as ->.
  { unfold Datetime.c_int, Datetime.int_min, Datetime.int_max.
    apply andb_true_iff. split; apply Z.leb_le; lia. }
  revert H. unfold Datetime.valid, Datetime.make. simpl. intros H.
  repeat (case_match; [discriminate|]).
  assert (Datetime.between 0 h 23 = false) as ->; [|reflexivity].
  unfold Datetime.between. apply andb_false_iff. left. apply Z.leb_gt. lia.
Qed.

(** An hour below the range of a C [int] is refused at the conversion. *)
Lemma replace_hour_overflow (t : Datetime.datetime) (h : Z) :
  h < - 2 ^ 31 ->
  Datetime.replace t (Some h) None None None
  = Raise (Datetime.overflow_error h).
Proof.
  intros Hh. rewrite replace_hour.
  assert (Datetime.c_int h = false) as ->; [|reflexivity].
  unfold Datetime.c_int, Datetime.int_min.
  apply andb_false_iff. left. apply Z.leb_gt. lia.
Qed.

(** C10, as the code has it.  For every table name and every
    [hours >= 1], [get_recent_changes] raises before it sends any query:
    the timestamp of [now] has its time fields zeroed, and the cutoff
    [replace(hour = 0 - hours)], outside the [try], is refused.  Up to
    [hours = 2 ^ 31] the exception is the [ValueError] of the
    constructor; beyond, the negative hour does not fit a C [int] and
    the exception is [OverflowError]. *)
Theorem recent_changes_raises (env : Env) (table_name : string)
    (hours limit : Z) (db : Db) :
  1 <= hours ->
  let out := get_recent_changes env table_name hours limit db in
  (exists e, out.1.1 = Raise e)
  /\ executed out.1.2 = executed db
  /\ tables out.1.2 = tables db
  /\ out.2 = []
  /\ (hours <= 2 ^ 31 ->
      (exists msg, out.1.1 = Raise (Datetime.value_error msg))
      /\ (Datetime.valid (wall env (now_calls db)) ->
          out.1.1 = Raise (Datetime.value_error "hour must be in 0..23")))
  /\ (2 ^ 31 < hours ->
      Datetime.valid (wall env (now_calls db)) ->
      exists e, out.1.1 = Raise e /\ exn_cls e = OverflowError).
Proof.
  intros Hh out. unfold out, get_recent_changes, obind, now, oraise.
  destruct (Datetime.replace (wall env (now_calls db)) (Some 0) (Some 0)
              (Some 0) (Some 0)) as [t'|e] eqn:E1.
  - rewrite replace_zero in E1.
    pose proof (make_hour_ok _ _ _ _ _ _ _ _ E1) as Hhour.
    assert (Hv : Datetime.valid t').
    { unfold Datetime.make in E1. simpl in E1.
      repeat (case_match; [discriminate|]). injection E1 as <-.
      unfold Datetime.valid, Datetime.make. simpl.
      repeat match goal with H : _ = false |- _ => rewrite H; clear H end.
      reflexivity. }
    rewrite Hhour.
    destruct (Z_le_gt_dec hours (2 ^ 31)) as [Hle|Hgt].
    + rewrite (replace_negative_hour t' (0 - hours) Hv) by lia.
      simpl. repeat split; eauto. lia.
    + rewrite (replace_hour_overflow t' (0 - hours)) by lia.
      simpl. repeat split; eauto; try lia.
  - rewrite replace_zero in E1.
    destruct (make_value_error _ _ _ _ _ _ _ _ E1) as [msg ->].
    simpl. repeat split; eauto.
    + intros Hv. destruct (replace_midnight _ Hv) as (t' & E & _).
      rewrite replace_zero in E. congruence.
    + intros _ Hv. destruct (replace_midnight _ Hv) as (t' & E & _).
      rewrite replace_zero in E. congruence.
Qed.

(** With [hours = 0] the hour asked for is zero and the query is sent:
    the bound [1 <= hours] of [recent_changes_raises] is sharp. *)
Example recent_changes_zero_hours :
  let out := get_recent_changes calm "company" 0 100 acme_store in
  out.1.1 = Ok []
  /\ executed out.1.2
     = [Select "company_changes"
          [Gte "changed_at" (VStr "2024-01-02T00:00:00+00:00")]
          (Some "changed_at") (Some 100)].
Proof. vm_compute. split; reflexivity. Qed.

(** [recent_changes_raises] for the default of twenty-four hours. *)
Lemma recent_changes_raises_witness :
  let out := get_recent_changes calm "portfolio_companies" 24 100 acme_store in
  1 <= 24
  /\ executed out.1.2 = executed acme_store
  /\ out.1.1 = Raise (Datetime.value_error "hour must be in 0..23").
Proof.
  intros out.
  assert (Hh : 1 <= 24) by lia.
  destruct (recent_changes_raises calm "portfolio_companies" 24 100
              acme_store Hh) as (_ & Hx & _ & _ & Hv & _).
  split; [exact Hh|]. split; [exact Hx|].
  apply Hv; [vm_compute; discriminate | reflexivity].
Defined.

(** C10, as stated, fails beyond the range of a C [int]: with
    [hours = 2 ^ 31 + 1] the hour [0 - hours] is refused when it is
    converted, and what is raised is an [OverflowError], which is not a
    [ValueError]; still no query is sent. *)
Lemma recent_changes_overflow :
  let out := get_recent_changes calm "portfolio_companies" (2 ^ 31 + 1) 100
                                acme_store in
  (exists e, out.1.1 = Raise e
             /\ exn_cls e = OverflowError
             /\ isinstance e [ValueError] = false)
  /\ executed out.1.2 = executed acme_store.
Proof.
  vm_compute. split; [|reflexivity].
  eexists. repeat split.
Qed.

(** C2, as the code has it.  For both upsert functions, when the record
    is already stored (and the store answers), an upsert whose hash equals
    the stored hash rewrites the stored row with the columns of the
    supplied record, the site key, [updated_at] and [last_seen_at], both
    set to the current time; every column it does not write keeps its
    stored value, every other row is untouched, and no change record is
    created. *)
Theorem unchanged_upsert (env : Env) (kind : Kind) (site_id : Z)
    (data : dict) (db : Db) (name rid : value) (r : dict) (rest : list dict) :
  kind = company \/ kind = member ->
  (forall n req, fault env n req = None) ->
  data !! "name" = Some name ->
  List.filter (matches_all [Eq_ "site_id" (VInt site_id); Eq_ "name" name])
              (rows (table kind) db) = r :: rest ->
  r !! "id" = Some rid ->
  List.filter (matches_all [Eq_ "id" rid]) (rows (table kind) db) = [r] ->
  get r "content_hash" = get data "content_hash" ->
  let out := upsert env kind site_id data db in
  let w := written env site_id data db in
  out.1.1 = Ok (Some (w ∪ r))
  /\ rows (table kind) out.1.2
     = map (fun row => if matches_all [Eq_ "id" rid] row then w ∪ row else row)
           (rows (table kind) db)
  /\ rows (change_table kind) out.1.2 = rows (change_table kind) db
  /\ executed out.1.2
     = executed db
       ++ [Select (table kind) [Eq_ "site_id" (VInt site_id); Eq_ "name" name]
                  None None;
           Update (table kind) w [Eq_ "id" rid]]
  /\ (forall k, w !! k = None -> (w ∪ r) !! k = r !! k)
  /\ (w ∪ r) !! "updated_at"
     = Some (VStr (Datetime.isoformat (wall env (now_calls db))))
  /\ (w ∪ r) !! "last_seen_at"
     = Some (VStr (Datetime.isoformat (wall env (S (now_calls db))))).
Proof.
  intros Hkind Hcalm Hname Hsel Hid Hkey Hhash out w.
  assert (Hne : table kind <> change_table kind)
    by (destruct Hkind as [-> | ->]; discriminate).
  assert (Hout : out.1 = (Ok (Some (w ∪ r)),
            set_rows (table kind)
              (map (fun row => if matches_all [Eq_ "id" rid] row
                               then w ∪ row else row)
                   (rows (table kind) db))
              {| tables := tables db; next_id := next_id db;
                 now_calls := S (S (now_calls db));
                 executed := (executed db
                   ++ [Select (table kind)
                         [Eq_ "site_id" (VInt site_id); Eq_ "name" name]
                         None None])
                   ++ [Update (table kind) w [Eq_ "id" rid]] |})).
  { unfold out, upsert, ocatch, item, now_iso, now, oraise, oret, olog, obind.
    rewrite lookup_insert_ne by done. rewrite Hname.
    cbv beta iota zeta.
    unfold execute at 1. rewrite Hcalm.
    cbn [limited ordered]. rewrite Hsel.
    cbv beta iota zeta. cbn [now_calls].
    rewrite Hid. cbv beta iota zeta.
    unfold execute at 1. rewrite Hcalm.
    unfold rows at 1 2. cbn [tables]. fold (rows (table kind) db).
    rewrite Hkey. cbn [map].
    assert (Hnew : get (<["site_id":=VInt site_id]> data) "content_hash"
                   = get r "content_hash").
    { unfold get at 1. rewrite lookup_insert_ne by done. symmetry. exact Hhash. }
    rewrite Hnew. rewrite bool_decide_eq_true_2 by reflexivity.
    rewrite andb_false_r.
    cbv beta iota zeta. cbn [fst snd next_id now_calls tables executed app].
    unfold w, written. reflexivity. }
  destruct out as [[res db'] logs]. simpl in Hout. injection Hout as -> ->.
  simpl. repeat split.
  - unfold rows, set_rows. simpl. rewrite lookup_insert_eq. reflexivity.
  - unfold rows, set_rows. simpl. rewrite lookup_insert_ne by done. reflexivity.
  - rewrite <- app_assoc. reflexivity.
  - intros k Hk. rewrite lookup_union_r by exact Hk. reflexivity.
  - apply lookup_union_Some_l. unfold w, written.
    rewrite lookup_insert_ne by done. apply lookup_insert_eq.
  - apply lookup_union_Some_l. unfold w, written. apply lookup_insert_eq.
Qed.

(** [unchanged_upsert] on the stored company scraped again unchanged. *)
Lemma unchanged_upsert_witness :
  let out := upsert calm company 7 acme_again acme_store in
  let w := written calm 7 acme_again acme_store in
  out.1.1 = Ok (Some (w ∪ acme_row))
  /\ rows (change_table company) out.1.2 = rows (change_table company) acme_store
  /\ (w ∪ acme_row) !! "updated_at"
     = Some (VStr (Datetime.isoformat (wall calm (now_calls acme_store)))).
Proof.
  assert (H := unchanged_upsert calm company 7 acme_again acme_store
                 (VStr "Acme") (VInt 1) acme_row []).
  destruct H as (H1 & _ & H3 & _ & _ & H5 & _).
  - left. reflexivity.
  - intros n req. reflexivity.
  - reflexivity.
  - reflexivity.
  - reflexivity.
  - reflexivity.
  - reflexivity.
  - split; [exact H1 | split; [exact H3 | exact H5]].
Defined.

(** C2, as stated, fails: an upsert with an unchanged hash does not leave
    [updated_at] alone.  The company stored on the first of January is
    upserted again on the second with the same hash: the stored
    [updated_at] moves to the second, just as [last_seen_at] does.  No
    change record is written. *)
Lemma unchanged_upsert_refreshes_updated_at :
  let out := upsert_portfolio_company calm 7 acme_again acme_store in
  let column (c : string) (db : Db) :=
    map (fun row => get row c) (rows "portfolio_companies" db) in
  get acme_row "content_hash" = get acme_again "content_hash"
  /\ column "updated_at" acme_store = [VStr "2024-01-01T00:00:00+00:00"]
  /\ column "updated_at" out.1.2 = [VStr "2024-01-02T00:00:00+00:00"]
  /\ column "updated_at" out.1.2 <> column "updated_at" acme_store
  /\ column "last_seen_at" out.1.2 = [VStr "2024-01-02T00:00:00+00:00"]
  /\ column "sector" out.1.2 = column "sector" acme_store
  /\ rows "company_changes" out.1.2 = [].
Proof.
  vm_compute.
  repeat (split; [reflexivity|]).
  split; [discriminate|].
  repeat (split; [reflexivity|]). reflexivity.
Qed.

(** *** Batches *)

Lemma starts_0 : starts 0 = [].
Proof. reflexivity. Qed.

Lemma starts_pos (n : nat) :
  (0 < n)%nat ->
  starts n = O :: map (fun i => (i + batch_size)%nat) (starts (n - batch_size)).
Proof.
  intros Hn. unfold starts, batch_size.
  assert (Hdiv : ((n + (50 - 1)) / 50 = S ((n - 50 + (50 - 1)) / 50))%nat).
  { change (50 - 1)%nat with 49%nat.
    destruct (Nat.le_gt_cases n 50).
    - replace (n - 50)%nat with O by lia.
      change ((0 + 49) / 50)%nat with O.
      symmetry. apply Nat.div_unique with (n - 1)%nat; lia.
    - replace (n + 49)%nat with ((n - 50 + 49) + 1 * 50)%nat by lia.
      rewrite Nat.div_add by lia. lia. }
  rewrite Hdiv. cbn [seq map]. f_equal.
  rewrite <- seq_shift, !map_map. apply map_ext. intros k. lia.
Qed.

(** The slices cover the list, in order, and none is empty or longer
    than fifty. *)
Lemma batches_from (fuel : nat) :
  forall (A : Type) (l pre : list A),
    (length l <= fuel)%nat ->
    let bs := map (fun i => take batch_size (drop i (pre ++ l)))
                  (map (fun i => (length pre + i)%nat) (starts (length l))) in
    concat bs = l
    /\ Forall (fun b => (0 < length b <= batch_size)%nat) bs.
Proof.
  induction fuel as [|fuel IH]; intros A l pre Hlen.
  - destruct l; [|simpl in Hlen; lia]. simpl. split; [done | constructor].
  - destruct (decide (l = [])) as [-> | Hne].
    { simpl. split; [done | constructor]. }
    assert (Hpos : (0 < length l)%nat) by (destruct l; [done | simpl; lia]).
    rewrite (starts_pos _ Hpos). cbn [map].
    rewrite Nat.add_0_r, drop_app_length.
    assert (Hrest :
      map (fun i => take batch_size (drop i (pre ++ l)))
          (map (fun i => (length pre + i)%nat)
               (map (fun i => (i + batch_size)%nat)
                    (starts (length l - batch_size))))
      = map (fun i => take batch_size
                        (drop i ((pre ++ take batch_size l) ++ drop batch_size l)))
            (map (fun i => (length (pre ++ take batch_size l) + i)%nat)
                 (starts (length (drop batch_size l))))).
    { rewrite <- app_assoc, take_drop, length_drop.
      destruct (decide (batch_size <= length l)%nat) as [Hge | Hlt].
      - rewrite !map_map. apply map_ext. intros i.
        rewrite length_app, length_take. do 2 f_equal. lia.
      - replace (length l - batch_size)%nat with O by lia. reflexivity. }
    cbn zeta. rewrite Hrest.
    destruct (IH A (drop batch_size l) (pre ++ take batch_size l)) as [Hc Hf].
    { rewrite length_drop. unfold batch_size. lia. }
    cbn zeta in Hc, Hf. split.
    + cbn [concat]. rewrite Hc. apply take_drop.
    + constructor; [|exact Hf].
      rewrite length_take. unfold batch_size in *. lia.
Qed.

Lemma batches_partition {A} (records : list A) :
  concat (batches records) = records
  /\ Forall (fun b => (0 < length b <= batch_size)%nat) (batches records).
Proof.
  pose proof (batches_from (length records) A records [] (Nat.le_refl _)) as H.
  cbn zeta in H. rewrite map_id in H. exact H.
Qed.

Lemma successes_app rs1 rs2 :
  successes (rs1 ++ rs2) = successes rs1 + successes rs2.
Proof. induction rs1 as [|r rs1 IH]; simpl; [done | rewrite IH; lia]. Qed.

Section batch.
Variable env : Env.
Variable kind : Kind.
Variable site_id : Z.

Lemma gather_app {A} (t1 t2 : list (Op A)) (db : Db) :
  (gather (t1 ++ t2) db).1.1 = (gather t1 db).1.1 ++ (gather t2 (gather t1 db).1.2).1.1
  /\ (gather (t1 ++ t2) db).1.2 = (gather t2 (gather t1 db).1.2).1.2.
Proof.
  revert db.
  induction t1 as [|t t1 IH]; intros db; simpl; [done|].
  destruct (t db) as [[r db1] l1].
  specialize (IH db1).
  destruct (gather (t1 ++ t2) db1) as [[rs db2] l2].
  destruct (gather t1 db1) as [[rs1 db1'] l1'].
  simpl in *. destruct IH as [-> ->]. done.
Qed.

Lemma gather_length {A} (tasks : list (Op A)) (db : Db) :
  length (gather tasks db).1.1 = length tasks.
Proof.
  revert db. induction tasks as [|t tasks IH]; intros db; simpl; [done|].
  destruct (t db) as [[r db1] l1]. specialize (IH db1).
  destruct (gather tasks db1) as [[rs db2] l2]. simpl in *. lia.
Qed.

(** The loop over the results of one batch adds its successes and logs
    each failure under its index in the whole list. *)
Lemma tally_spec (results : list (result (option dict))) :
  forall i j c,
    (tally kind i j results c).1 = c + successes results
    /\ forall k e,
         results !! k = Some (Raise e) ->
         (ERROR, item_error_msg kind (i + j + k) e) ∈ (tally kind i j results c).2.
Proof.
  induction results as [|r results IH]; intros i j c; simpl.
  - split; [lia | intros k e Hk; discriminate].
  - destruct r as [o|e0]; simpl.
    + destruct (IH i (S j) (if truthy_record o then c + 1 else c)) as [Hc Hl].
      rewrite Hc. split; [destruct (truthy_record o); lia|].
      intros [|k] e Hk; [discriminate|]. simpl in Hk.
      replace (i + j + S k)%nat with (i + S j + k)%nat by lia. auto.
    + destruct (IH i (S j) c) as [Hc Hl].
      destruct (tally kind i (S j) results c) as [n l]. simpl in *.
      split; [lia|].
      intros [|k] e Hk.
      * injection Hk as ->. rewrite Nat.add_0_r. apply list_elem_of_here.
      * simpl in Hk.
        replace (i + j + S k)%nat with (i + S j + k)%nat by lia.
        apply list_elem_of_further. auto.
Qed.

(** The loop over the batches of [l], the part of the list that follows
    [pre], against one sequential pass over [l]. *)
Lemma batch_loop_spec (fuel : nat) :
  forall (l pre : list dict) (c : Z) (db : Db) (logs : list (level * string)),
    (length l <= fuel)%nat ->
    let out := fold_left (batch_step env kind site_id (pre ++ l))
                 (map (fun i => (length pre + i)%nat) (starts (length l)))
                 (c, db, logs) in
    let pass := gather (map (upsert env kind site_id) l) db in
    out.1.1 = c + successes pass.1.1
    /\ out.1.2 = pass.1.2
    /\ (forall m, m ∈ logs -> m ∈ out.2)
    /\ (forall k e,
          pass.1.1 !! k = Some (Raise e) ->
          (ERROR, item_error_msg kind (length pre + k) e) ∈ out.2).
Proof.
  induction fuel as [|fuel IH]; intros l pre c db logs Hlen out pass.
  - destruct l; [|simpl in Hlen; lia]. unfold out, pass. simpl.
    repeat split; [lia | done | intros k e Hk; discriminate].
  - destruct (decide (l = [])) as [-> | Hne].
    { unfold out, pass. simpl.
      repeat split; [lia | done | intros k e Hk; discriminate]. }
    assert (Hpos : (0 < length l)%nat) by (destruct l; [done | simpl; lia]).
    set (first := take batch_size l).
    set (rest := drop batch_size l).
    assert (Hl : l = first ++ rest) by (symmetry; apply take_drop).
    destruct (gather_app (map (upsert env kind site_id) first)
                (map (upsert env kind site_id) rest) db) as [Hr Hd].
    rewrite <- map_app, <- Hl in Hr, Hd. fold pass in Hr, Hd.
    pose proof (gather_length (map (upsert env kind site_id) first) db) as Hl1.
    rewrite length_map in Hl1.
    destruct (gather (map (upsert env kind site_id) first) db)
      as [[results1 db1] l1] eqn:G1.
    destruct (tally_spec results1 (length pre) 0 c) as [Hc1 Hlog1].
    destruct (tally kind (length pre) 0 results1 c) as [c1 l2] eqn:T1.
    simpl in Hr, Hd, Hc1, Hlog1, Hl1.
    assert (Hoffs :
      map (fun i => (length pre + i)%nat)
          (map (fun i => (i + batch_size)%nat) (starts (length l - batch_size)))
      = map (fun i => (length (pre ++ first) + i)%nat) (starts (length rest))).
    { unfold rest, first. rewrite length_drop.
      destruct (decide (batch_size <= length l)%nat) as [Hge | Hlt].
      - rewrite !map_map. apply map_ext. intros i.
        rewrite length_app, length_take. lia.
      - replace (length l - batch_size)%nat with O by lia. reflexivity. }
    assert (Hout : out =
      fold_left (batch_step env kind site_id ((pre ++ first) ++ rest))
        (map (fun i => (length (pre ++ first) + i)%nat) (starts (length rest)))
        (c1, db1, logs ++ l1 ++ l2)).
    { unfold out. rewrite (starts_pos _ Hpos). cbn [map fold_left].
      rewrite Hoffs. rewrite <- (app_assoc pre first rest), <- Hl.
      f_equal. unfold batch_step.
      rewrite Nat.add_0_r, drop_app_length. fold first.
      rewrite G1, T1. reflexivity. }
    destruct (IH rest (pre ++ first) c1 db1 (logs ++ l1 ++ l2))
      as (Hc & Hdb & Hkeep & Hlog).
    { unfold rest. rewrite length_drop. unfold batch_size. lia. }
    cbn zeta in Hc, Hdb, Hkeep, Hlog.
    rewrite <- Hout in Hc, Hdb, Hkeep, Hlog.
    rewrite Hc, Hdb, Hr, Hd, successes_app, Hc1.
    repeat split.
    + lia.
    + intros m Hm. apply Hkeep. apply elem_of_app. left. exact Hm.
    + intros k e Hk.
      destruct (decide (k < length results1)%nat) as [Hin | Hnotin].
      * rewrite lookup_app_l in Hk by exact Hin.
        apply Hkeep. specialize (Hlog1 k e Hk).
        rewrite Nat.add_0_r in Hlog1.
        apply elem_of_app. right. apply elem_of_app. right. exact Hlog1.
      * rewrite lookup_app_r in Hk by lia.
        specialize (Hlog _ _ Hk).
        rewrite length_app in Hlog.
        replace (length pre + k)%nat
          with (length pre + length first + (k - length results1))%nat
          by lia.
        exact Hlog.
Qed.

(** C9.  The batch upsert cuts the list into consecutive slices of at
    most fifty records that cover it, attempts every record in order
    (the store ends as after one sequential pass over the whole list,
    failures included), returns the number of upserts that returned a
    row, and logs each raised failure under the index of its record;
    a failure neither aborts its batch nor counts. *)
Theorem batch_counts_successes (records : list dict) (db : Db) :
  let out := upsert_with_change_tracking env kind site_id records db in
  let pass := gather (map (upsert env kind site_id) records) db in
  concat (batches records) = records
  /\ Forall (fun b => (0 < length b <= 50)%nat) (batches records)
  /\ length pass.1.1 = length records
  /\ out.1.1 = successes pass.1.1
  /\ out.1.2 = pass.1.2
  /\ (forall k e,
        pass.1.1 !! k = Some (Raise e) ->
        (ERROR, item_error_msg kind k e) ∈ out.2).
Proof.
  intros out pass.
  destruct (batches_partition records) as [Hcat Hsize].
  pose proof (batch_loop_spec (length records) records [] 0 db []
                (Nat.le_refl _)) as H.
  cbn zeta in H. rewrite map_id in H. simpl app in H.
  destruct H as (Hc & Hdb & _ & Hlog).
  unfold out, upsert_with_change_tracking.
  destruct (fold_left (batch_step env kind site_id records)
              (starts (length records)) (0, db, [])) as [[c db1] logs].
  simpl in *. repeat split; try done.
  - unfold pass. rewrite gather_length, length_map. reflexivity.
  - intros k e Hk. apply elem_of_app. left. auto.
Qed.
End batch.

(** The scenario of the specification: of three new companies the
    second is rejected by the store.  Two upserts are counted, the first
    and the third company are stored, and both the upsert and the batch
    log the failure of the second. *)
Lemma batch_partial_failure :
  let out := upsert_companies_with_change_tracking rejects_b 7
               [named "A"; named "B"; named "C"] empty_store in
  out.1.1 = 2
  /\ map (fun row => get row "name") (rows "portfolio_companies" out.1.2)
     = [VStr "A"; VStr "C"]
  /\ out.2 = [ (INFO, "Created new company: A");
               (ERROR, "Error upserting portfolio company: violates check constraint");
               (INFO, "Created new company: C");
               (ERROR, "Error processing company 1: violates check constraint");
               (INFO, "Successfully processed 2/3 companies") ].
Proof. vm_compute. repeat split. Qed.

End StoreFacts.

(** * Further properties *)

(** ** Retry executor *)

Module RetryMoreFacts.
Import Retry RetryMore.

Section retry_more.
Context {W A : Type}.
Variable sleep : Q -> W -> W.
Variable random : W -> Q * W.
Variable policy : RetryPolicy.
Variable func_name : string.
Variable func : Eff W A.

(** When every attempt fails with a retryable error, the loop ends on
    an attempt: the exception wrapped by the [RetryError] and the world
    returned are those of one and the same invocation. *)
Lemma retry_loop_last_attempt (n : nat) :
  (forall w, exists e w',
      func w = (Raise e, w')
      /\ must_reraise policy e = false
      /\ isinstance e (exceptions policy) = true) ->
  forall attempt delay last w,
    (0 < n)%nat ->
    attempt = max_attempts policy - Z.of_nat n ->
    let out := retry_loop sleep random policy func_name func
                 n attempt delay last w in
    exists e w1,
      func w1 = (Raise e, out.1.2)
      /\ out.1.1 = Raise (retry_error policy func_name (Some e)).
Proof.
  intros Hfail.
  induction n as [|n IH]; intros attempt delay last w Hn Hat; [lia|].
  simpl. destruct (Hfail w) as (e & w1 & Hf & Hr & Hi).
  rewrite Hf, Hr, Hi. simpl.
  destruct (Z.eqb_spec attempt (max_attempts policy - 1)) as [Hlast|Hmore].
  - simpl. exists e, w. split; [exact Hf | reflexivity].
  - assert (Hn' : (0 < n)%nat) by lia.
    set (jd := if jitter policy
               then let '(r, w2) := random w1 in ((delay * (0.5 + r))%Q, w2)
               else (delay, w1)).
    destruct jd as [actual w2].
    set (d := Qmin actual (max_delay policy)).
    specialize (IH (attempt + 1) (delay * backoff_factor policy)%Q
                   (Some e) (sleep d w2) Hn').
    destruct (retry_loop sleep random policy func_name func n
                (attempt + 1) (delay * backoff_factor policy)%Q
                (Some e) (sleep d w2)) as [[res w4] tr].
    simpl in *. apply IH. lia.
Qed.

(** X1.  When every attempt fails with a retryable error and at least one
    attempt is allowed, the wrapper invokes the function exactly
    [max_attempts] times, sleeps exactly once between consecutive
    attempts, and raises a [RetryError] made from the exception of the
    last attempt: the invocation that raised it is the one that left the
    world the wrapper returns. *)
Theorem retry_exhausted (w : W) :
  1 <= max_attempts policy ->
  (forall w, exists e w',
      func w = (Raise e, w')
      /\ must_reraise policy e = false
      /\ isinstance e (exceptions policy) = true) ->
  let out := wrapper_traced sleep random policy func_name func w in
  invocations out.2 = Z.to_nat (max_attempts policy)
  /\ length (sleeps out.2) = (Z.to_nat (max_attempts policy) - 1)%nat
  /\ exists e w1,
       func w1 = (Raise e, out.1.2)
       /\ out.1.1 = Raise (retry_error policy func_name (Some e)).
Proof.
  intros Hmax Hfail out.
  destruct (RetryFacts.retry_loop_exhausts sleep random policy func_name func
              (Z.to_nat (max_attempts policy)) Hfail 0 (initial_delay policy)
              None w) as (Hi & Hs & _); [lia | lia |].
  destruct (retry_loop_last_attempt (Z.to_nat (max_attempts policy)) Hfail 0
              (initial_delay policy) None w) as (e & w1 & Hf & He);
    [lia | lia |].
  repeat split; [exact Hi | exact Hs |].
  exists e, w1. split; [exact Hf | exact He].
Qed.

(** X2.  With [max_attempts] zero or negative the decorated function is
    never called: the wrapper raises at once a [RetryError] without a
    cause, whose text ends in [Last error: None], and leaves the world
    untouched. *)
Theorem retry_without_attempts (w : W) :
  max_attempts policy <= 0 ->
  wrapper_traced sleep random policy func_name func w
  = (Raise (Exn RetryError
              ("Function " +:+ func_name +:+ " failed after "
               +:+ pretty (max_attempts policy)
               +:+ " attempts. Last error: None") None),
     w, []).
Proof.
  intros Hmax. unfold wrapper_traced.
  replace (Z.to_nat (max_attempts policy)) with O by lia. reflexivity.
Qed.

(** X3.  An exception that is listed in [reraise_exceptions], or that is
    not an instance of [exceptions], leaves the wrapper unchanged after
    the single invocation that raised it: no sleep, no further attempt,
    no [RetryError] around it. *)
Theorem retry_propagates (w w' : W) (e : exn) :
  1 <= max_attempts policy ->
  func w = (Raise e, w') ->
  must_reraise policy e = true \/ isinstance e (exceptions policy) = false ->
  wrapper_traced sleep random policy func_name func w = (Raise e, w', [Invoked]).
Proof.
  intros Hmax Hf Hcase. unfold wrapper_traced.
  destruct (Z.to_nat (max_attempts policy)) as [|n] eqn:Hn; [lia|].
  simpl. rewrite Hf.
  destruct Hcase as [-> | Hno]; [reflexivity|].
  destruct (must_reraise policy e); [reflexivity|].
  rewrite Hno. reflexivity.
Qed.

(** Between two attempts there is exactly one sleep, and none follows
    the last attempt. *)
Lemma retry_loop_alternates (n : nat) :
  forall attempt delay last w,
    (0 < n)%nat ->
    attempt = max_attempts policy - Z.of_nat n ->
    let tr := (retry_loop sleep random policy func_name func
                 n attempt delay last w).2 in
    invocations tr = S (length (sleeps tr)).
Proof.
  induction n as [|n IH]; intros attempt delay last w Hn Hat; [lia|].
  simpl. destruct (func w) as [[a|e] w1]; simpl; [reflexivity|].
  destruct (must_reraise policy e); simpl; [reflexivity|].
  destruct (negb (isinstance e (exceptions policy))); simpl; [reflexivity|].
  destruct (Z.eqb_spec attempt (max_attempts policy - 1)) as [Hlast|Hmore];
    simpl; [reflexivity|].
  set (jd := if jitter policy
             then let '(r, w2) := random w1 in ((delay * (0.5 + r))%Q, w2)
             else (delay, w1)).
  destruct jd as [actual w2].
  set (d := Qmin actual (max_delay policy)).
  specialize (IH (attempt + 1) (delay * backoff_factor policy)%Q
                 (Some e) (sleep d w2)).
  destruct (retry_loop sleep random policy func_name func n
              (attempt + 1) (delay * backoff_factor policy)%Q
              (Some e) (sleep d w2)) as [[res w4] tr].
  simpl in *. rewrite IH; [reflexivity | lia | lia].
Qed.

(** X4.  Whatever the policy and the function, the number of sleeps of a
    run is the number of invocations minus one: every failed attempt but
    the last is followed by one sleep, and a run never ends on a sleep. *)
Theorem retry_sleeps_between_attempts (w : W) :
  let tr := (wrapper_traced sleep random policy func_name func w).2 in
  length (sleeps tr) = (invocations tr - 1)%nat.
Proof.
  unfold wrapper_traced.
  destruct (Z.to_nat (max_attempts policy)) as [|n] eqn:Hn; [reflexivity|].
  pose proof (retry_loop_alternates (S n) 0 (initial_delay policy) None w) as H.
  cbn zeta in *. rewrite H; [lia | lia | lia].
Qed.

Lemma retry_loop_ignores_generator (random' : W -> Q * W) (n : nat) :
  jitter policy = false ->
  forall attempt delay last w,
    retry_loop sleep random' policy func_name func n attempt delay last w
    = retry_loop sleep random policy func_name func n attempt delay last w.
Proof.
  intros Hj.
  induction n as [|n IH]; intros attempt delay last w; simpl; [reflexivity|].
  destruct (func w) as [[a|e] w1]; [reflexivity|].
  destruct (must_reraise policy e); [reflexivity|].
  destruct (negb (isinstance e (exceptions policy))); [reflexivity|].
  destruct (attempt =? max_attempts policy - 1); [reflexivity|].
  rewrite Hj. rewrite IH. reflexivity.
Qed.

(** X5.  With jitter off the random generator is never consulted: the
    run of the wrapper (its outcome, the world it leaves, its
    invocations and its sleeps) is the same whatever the generator
    returns and whatever drawing from it does to the world. *)
Theorem no_jitter_ignores_generator (random' : W -> Q * W) (w : W) :
  jitter policy = false ->
  wrapper_traced sleep random' policy func_name func w
  = wrapper_traced sleep random policy func_name func w.
Proof.
  intros Hj. unfold wrapper_traced.
  apply retry_loop_ignores_generator. exact Hj.
Qed.

(** Three attempts that fail with retryable errors, under a policy of
    three attempts with jitter: the wrapper sleeps after the first and
    after the second, and raises a [RetryError] from the third error. *)
Lemma three_failures (w wa wb wc : W) (e0 e1 e2 : exn) :
  max_attempts policy = 3 ->
  jitter policy = true ->
  reraise_exceptions policy = None ->
  isinstance e0 (exceptions policy) = true ->
  isinstance e1 (exceptions policy) = true ->
  isinstance e2 (exceptions policy) = true ->
  let pause := fun (delay : Q) (w : W) =>
    sleep (Qmin (delay * (0.5 + (random w).1)) (max_delay policy))
          (random w).2 in
  func w = (Raise e0, wa) ->
  func (pause (initial_delay policy) wa) = (Raise e1, wb) ->
  func (pause (initial_delay policy * backoff_factor policy)%Q wb)
  = (Raise e2, wc) ->
  async_wrapper sleep random policy func_name func w
  = (Raise (retry_error policy func_name (Some e2)), wc).
Proof.
  intros Hmax Hj Hr I0 I1 I2 pause F0 F1 F2.
  unfold async_wrapper, wrapper_traced. rewrite Hmax.
  change (Z.to_nat 3) with 3%nat. cbn [retry_loop].
  unfold must_reraise. rewrite Hr, Hj, Hmax, F0, I0. cbn [negb].
  change (0 =? 3 - 1) with false. cbv iota.
  unfold pause in F1, F2.
  destruct (random wa) as [r0 wa'] eqn:Ra. cbn [fst snd] in F1.
  rewrite F1, I1. cbn [negb].
  change (0 + 1 =? 3 - 1) with false. cbv iota.
  destruct (random wb) as [r1 wb'] eqn:Rb. cbn [fst snd] in F2.
  rewrite F2, I2. cbn [negb].
  change (0 + 1 + 1 =? 3 - 1) with true. cbv iota. reflexivity.
Qed.

(** Two retryable failures followed by an error that is not in the
    retry list: the third error leaves the wrapper as it is. *)
Lemma failures_then_fatal (w wa wb wc : W) (e0 e1 e2 : exn) :
  max_attempts policy = 3 ->
  jitter policy = true ->
  reraise_exceptions policy = None ->
  isinstance e0 (exceptions policy) = true ->
  isinstance e1 (exceptions policy) = true ->
  isinstance e2 (exceptions policy) = false ->
  let pause := fun (delay : Q) (w : W) =>
    sleep (Qmin (delay * (0.5 + (random w).1)) (max_delay policy))
          (random w).2 in
  func w = (Raise e0, wa) ->
  func (pause (initial_delay policy) wa) = (Raise e1, wb) ->
  func (pause (initial_delay policy * backoff_factor policy)%Q wb)
  = (Raise e2, wc) ->
  async_wrapper sleep random policy func_name func w = (Raise e2, wc).
Proof.
  intros Hmax Hj Hr I0 I1 I2 pause F0 F1 F2.
  unfold async_wrapper, wrapper_traced. rewrite Hmax.
  change (Z.to_nat 3) with 3%nat. cbn [retry_loop].
  unfold must_reraise. rewrite Hr, Hj, Hmax, F0, I0. cbn [negb].
  change (0 =? 3 - 1) with false. cbv iota.
  unfold pause in F1, F2.
  destruct (random wa) as [r0 wa'] eqn:Ra. cbn [fst snd] in F1.
  rewrite F1, I1. cbn [negb].
  change (0 + 1 =? 3 - 1) with false. cbv iota.
  destruct (random wb) as [r1 wb'] eqn:Rb. cbn [fst snd] in F2.
  rewrite F2, I2. cbn [negb]. reflexivity.
Qed.

End retry_more.

(** Runs of [retry_exhausted], [retry_without_attempts],
    [retry_propagates] and [no_jitter_ignores_generator]. *)
Lemma retry_exhausted_witness :
  let out := wrapper_traced no_sleep half steady "fetch" timing_out O in
  1 <= max_attempts steady
  /\ invocations out.2 = Z.to_nat (max_attempts steady)
  /\ length (sleeps out.2) = (Z.to_nat (max_attempts steady) - 1)%nat
  /\ exists e w1,
       timing_out w1 = (Raise e, out.1.2)
       /\ out.1.1 = Raise (retry_error steady "fetch" (Some e)).
Proof.
  intros out.
  assert (Hmax : 1 <= max_attempts steady) by (simpl; lia).
  split; [exact Hmax|].
  apply (retry_exhausted no_sleep half steady "fetch" timing_out O Hmax).
  intros w. eexists _, _. repeat split.
Defined.

Lemma retry_without_attempts_witness :
  wrapper_traced no_sleep half never "fetch" timing_out O
  = (Raise (Exn RetryError
              ("Function " +:+ "fetch" +:+ " failed after "
               +:+ pretty (max_attempts never)
               +:+ " attempts. Last error: None") None),
     O, []).
Proof.
  apply (retry_without_attempts no_sleep half never "fetch" timing_out O).
  simpl. lia.
Defined.

Lemma retry_propagates_witness :
  wrapper_traced no_sleep half steady "fetch" not_found O
  = (Raise (Exn ClientResponseError "404" None), 1%nat, [Invoked]).
Proof.
  apply (retry_propagates no_sleep half steady "fetch" not_found O 1%nat
           (Exn ClientResponseError "404" None)).
  - simpl. lia.
  - reflexivity.
  - left. reflexivity.
Defined.

Lemma no_jitter_ignores_generator_witness :
  jitter steady = false
  /\ wrapper_traced no_sleep counted steady "fetch" timing_out O
     = wrapper_traced no_sleep half steady "fetch" timing_out O.
Proof.
  assert (Hj : jitter steady = false) by reflexivity.
  split; [exact Hj|].
  exact (no_jitter_ignores_generator no_sleep half steady "fetch" timing_out
           counted O Hj).
Defined.

End RetryMoreFacts.

(** ** Circuit breaker *)

Module BreakerMoreFacts.
Import Retry RetryMore.

Section breaker_more.
Context {W A : Type}.
Variable time : W -> Q.
Variable str_of_float : Q -> string.

Lemma call_keeps_invariant (func : Eff W A) (cb : CircuitBreaker) (w : W) :
  breaker_inv cb -> breaker_inv (call time str_of_float func cb w).1.2.
Proof.
  intros [Hc Ho]. unfold call, call_traced.
  destruct (state cb) eqn:Hst.
  - destruct (func w) as [[a|e] w1]; simpl.
    + split; [simpl; lia | discriminate].
    + destruct (isinstance e (expected_exception cb)); simpl.
      * split; simpl; [lia|]. rewrite Hst.
        destruct (Z.leb_spec (failure_threshold cb) (failure_count cb + 1));
          [eauto | discriminate].
      * split; [exact Hc | rewrite Hst; discriminate].
  - destruct (_should_try_reset cb (time w)); simpl.
    + destruct (func w) as [[a|e] w1]; simpl.
      * split; [simpl; lia | discriminate].
      * destruct (isinstance e (expected_exception cb)); simpl.
        -- split; simpl; [lia|].
           destruct (Z.leb_spec (failure_threshold cb) (0 + 1));
             [eauto | discriminate].
        -- split; [simpl; lia | discriminate].
    + split; [exact Hc | intros _; apply Ho; reflexivity].
  - destruct (func w) as [[a|e] w1]; simpl.
    + split; [simpl; lia | discriminate].
    + destruct (isinstance e (expected_exception cb)); simpl.
      * split; simpl; [lia|]. rewrite Hst.
        destruct (Z.leb_spec (failure_threshold cb) (failure_count cb + 1));
          [eauto | discriminate].
      * split; [exact Hc | rewrite Hst; discriminate].
Qed.

(** X6.  Whatever is called through a new breaker, however often and
    with whatever outcomes, the failure count is never negative, and
    whenever the breaker is OPEN its count has reached the threshold and
    the time of the last failure is recorded. *)
Theorem breaker_invariant (threshold : Z) (cooldown : Q)
    (expected : list exn_class) (func : Eff W A) (n : nat) (w : W) :
  breaker_inv (call_n time str_of_float n func
                 (init threshold cooldown expected) w).1.
Proof.
  assert (Hgen : forall cb w', breaker_inv cb ->
            breaker_inv (call_n time str_of_float n func cb w').1).
  { induction n as [|m IH]; intros cb w' Hinv; simpl; [exact Hinv|].
    pose proof (call_keeps_invariant func cb w' Hinv) as Hstep.
    destruct (call time str_of_float func cb w') as [[r cb1] w1].
    apply IH. exact Hstep. }
  apply Hgen. split; [simpl; lia | discriminate].
Qed.

(** X7.  An exception outside the filter of the breaker passes through
    a breaker that is not OPEN without a trace: the breaker is exactly as
    before, the exception reaches the caller. *)
Theorem unexpected_exception_ignored (func : Eff W A) (cb : CircuitBreaker)
    (w w' : W) (e : exn) :
  state cb <> OPEN ->
  func w = (Raise e, w') ->
  isinstance e (expected_exception cb) = false ->
  call time str_of_float func cb w = (Raise e, cb, w').
Proof.
  intros Hst Hf He. unfold call, call_traced.
  destruct (state cb); try congruence; rewrite Hf, He; reflexivity.
Qed.

(** X8.  Failing fast is stable: while the cooldown has not elapsed, any
    number of calls through an OPEN breaker leaves the breaker and the
    world exactly as they were. *)
Theorem open_breaker_is_stable (func : Eff W A) (cb : CircuitBreaker)
    (w : W) (t : Q) (n : nat) :
  state cb = OPEN ->
  last_failure_time cb = Some t ->
  (time w - t < timeout cb)%Q ->
  call_n time str_of_float n func cb w = (cb, w).
Proof.
  intros Hst Hlast Hlt.
  assert (Hone : call time str_of_float func cb w
                 = (Raise (circuit_open_error str_of_float cb), cb, w)).
  { unfold call, call_traced, _should_try_reset. rewrite Hst, Hlast.
    destruct (Qle_bool (timeout cb) (time w - t)) eqn:Hb; [|reflexivity].
    apply Qle_bool_iff in Hb. apply Qlt_not_le in Hlt. contradiction. }
  induction n as [|n IH]; [reflexivity|].
  simpl. rewrite Hone. exact IH.
Qed.

(** X9.  Any call that returns normally leaves the breaker as new:
    CLOSED, with a zero count and no failure time, whatever its state
    was when the call was admitted. *)
Theorem success_resets (func : Eff W A) (cb : CircuitBreaker) (w : W) (a : A) :
  (call time str_of_float func cb w).1.1 = Ok a ->
  (call time str_of_float func cb w).1.2
  = init (failure_threshold cb) (timeout cb) (expected_exception cb).
Proof.
  unfold call, call_traced.
  destruct (state cb); [| destruct (_should_try_reset cb (time w)) |];
    try (destruct (func w) as [[a'|e] w1]; simpl;
         [reflexivity | destruct (isinstance e _); simpl; discriminate]).
  simpl. discriminate.
Qed.
End breaker_more.

Lemma unexpected_exception_ignored_witness :
  call Samples.clock_reading Samples.float_text bad_value
       (half_open Samples.tripped) 400%Q
  = (Raise (Exn ValueError "bad value" None), half_open Samples.tripped, 400%Q).
Proof.
  apply (unexpected_exception_ignored Samples.clock_reading Samples.float_text
           bad_value (half_open Samples.tripped) 400%Q 400%Q
           (Exn ValueError "bad value" None)).
  - discriminate.
  - reflexivity.
  - reflexivity.
Defined.

Lemma open_breaker_is_stable_witness :
  call_n Samples.clock_reading Samples.float_text 7 Samples.refused
         Samples.tripped 100%Q
  = (Samples.tripped, 100%Q).
Proof.
  apply (open_breaker_is_stable Samples.clock_reading Samples.float_text
           Samples.refused Samples.tripped 100%Q 0%Q 7).
  - reflexivity.
  - reflexivity.
  - unfold Qlt. simpl. lia.
Defined.

Lemma success_resets_witness :
  (call Samples.clock_reading Samples.float_text succeeds
        Samples.tripped 400%Q).1.2
  = init (failure_threshold Samples.tripped) (timeout Samples.tripped)
         (expected_exception Samples.tripped).
Proof.
  apply (success_resets Samples.clock_reading Samples.float_text succeeds
           Samples.tripped 400%Q tt).
  reflexivity.
Defined.

End BreakerMoreFacts.

(** ** Dual-transport fetching *)

Module ScraperMoreFacts.
Import Retry Py Scraper Samples ScraperSamples.

Section fetching_more.
Variable env : Env.

(** X10.  What [scrape_with_fallback] can raise.  An exception that
    leaves it is either the exception of [urlparse] on the auto-detect
    path, raised before anything is logged or fetched, or the
    [ScrapingError] made from the URL and the text of the error of the
    second attempt, with no explicit cause: the primary transport failed
    (its fetch, or the parser on its page), the other transport was
    entered in the state the first attempt left, and failed in turn (its
    fetch, or the parser on its page). *)
Theorem what_scrape_with_fallback_raises (url : string)
    (use_playwright : option bool) (kwargs : list string) (s : BaseScraper)
    (e : exn) :
  let out := scrape_with_fallback env url use_playwright kwargs s in
  out.1 = Raise e ->
  (use_playwright = None /\ netloc env url = Raise e /\ out.2 = s)
  \/ exists first e1 e2,
       primary env url use_playwright = Ok first
       /\ let attempt1 := fetch env first url kwargs
                            (on_world (log DEBUG (using_msg first url)) s) in
          let attempt2 := fetch env (other first) url kwargs
                            (before_fallback url first e1 attempt1.2) in
          (attempt1.1 = Raise e1
           \/ exists soup, attempt1.1 = Ok soup
                           /\ _parse_page env soup url kwargs = Raise e1)
          /\ (attempt2.1 = Raise e2
              \/ exists soup, attempt2.1 = Ok soup
                              /\ _parse_page env soup url kwargs = Raise e2)
          /\ e = scraping_error url e2.
Proof.
  intros out. unfold out, scrape_with_fallback.
  destruct (primary env url use_playwright) as [first|e0] eqn:Hp.
  - intros H. right. exists first. revert H.
    unfold ecatch, ebind, log_s, emodify, parse, eraise, before_fallback.
    simpl.
    destruct (fetch env first url kwargs _) as [[soup|e1] s1]; simpl.
    + destruct (_parse_page env soup url kwargs) as [records|e1] eqn:P1; simpl;
        [discriminate|].
      destruct (fetch env (other first) url kwargs _)
        as [[soup2|e2] s2] eqn:F2; simpl.
      * destruct (_parse_page env soup2 url kwargs) as [records|e2] eqn:P2;
          simpl; [discriminate|].
        intros [= <-]. exists e1, e2. split; [reflexivity|].
        rewrite F2. simpl. eauto 10.
      * intros [= <-]. exists e1, e2. split; [reflexivity|].
        rewrite F2. simpl. eauto 10.
    + destruct (fetch env (other first) url kwargs _)
        as [[soup2|e2] s2] eqn:F2; simpl.
      * destruct (_parse_page env soup2 url kwargs) as [records|e2] eqn:P2;
          simpl; [discriminate|].
        intros [= <-]. exists e1, e2. split; [reflexivity|].
        rewrite F2. simpl. eauto 10.
      * intros [= <-]. exists e1, e2. split; [reflexivity|].
        rewrite F2. simpl. eauto 10.
  - unfold eraise. simpl. intros [= <-]. left.
    unfold primary in Hp. destruct use_playwright as [b|]; [discriminate|].
    destruct (netloc env url) as [host|e1]; [discriminate|].
    injection Hp as ->. repeat split.
Qed.

(** X11.  When the primary transport delivers a page and the page
    parses, the records are returned and the other transport is not
    entered at all. *)
Theorem primary_success (url : string) (use_playwright : option bool)
    (kwargs : list string) (s : BaseScraper) (first : transport)
    (soup : string) (records : list dict) :
  primary env url use_playwright = Ok first ->
  let attempt1 := fetch env first url kwargs
                    (on_world (log DEBUG (using_msg first url)) s) in
  attempt1.1 = Ok soup ->
  _parse_page env soup url kwargs = Ok records ->
  scrape_with_fallback env url use_playwright kwargs s = (Ok records, attempt1.2)
  /\ fetches (world attempt1.2) = fetches (world s) ++ [first].
Proof.
  intros Hfirst attempt1 H1 Hp.
  destruct (ScraperFacts.fetch_enters_once env first url kwargs
              (on_world (log DEBUG (using_msg first url)) s)) as [F1 _].
  fold attempt1 in F1. split; [|exact F1].
  unfold scrape_with_fallback. rewrite Hfirst.
  unfold ecatch, ebind, log_s, emodify, parse.
  simpl. fold attempt1.
  destruct attempt1 as [r1 s1]. simpl in H1. subst r1.
  rewrite Hp. reflexivity.
Qed.

(** X12.  A page that the primary transport delivered but the parser
    rejected is treated like a failed fetch: the parse error is logged
    as the primary failure and the other transport is entered, once. *)
Theorem parse_failure_falls_back (url : string) (use_playwright : option bool)
    (kwargs : list string) (s : BaseScraper) (first : transport)
    (soup : string) (e1 : exn) :
  primary env url use_playwright = Ok first ->
  let attempt1 := fetch env first url kwargs
                    (on_world (log DEBUG (using_msg first url)) s) in
  attempt1.1 = Ok soup ->
  _parse_page env soup url kwargs = Raise e1 ->
  let out := scrape_with_fallback env url use_playwright kwargs s in
  fetches (world out.2) = fetches (world s) ++ [first; other first]
  /\ (WARNING, primary_failed_msg url e1) ∈ logged (world out.2)
  /\ out.1 = match (fetch env (other first) url kwargs
                      (before_fallback url first e1 attempt1.2)).1 with
             | Ok soup2 =>
                 match _parse_page env soup2 url kwargs with
                 | Ok records => Ok records
                 | Raise e2 => Raise (scraping_error url e2)
                 end
             | Raise e2 => Raise (scraping_error url e2)
             end.
Proof.
  intros Hfirst attempt1 H1 Hp out.
  destruct (ScraperFacts.fetch_enters_once env first url kwargs
              (on_world (log DEBUG (using_msg first url)) s)) as [F1 _].
  destruct (ScraperFacts.fetch_enters_once env (other first) url kwargs
              (before_fallback url first e1 attempt1.2)) as [F2 L2].
  fold attempt1 in F1.
  assert (Hw : (WARNING, primary_failed_msg url e1)
                 ∈ logged (world (fetch env (other first) url kwargs
                     (before_fallback url first e1 attempt1.2)).2)).
  { apply L2. unfold before_fallback. simpl.
    apply elem_of_app. left. apply elem_of_app. right.
    apply list_elem_of_here. }
  assert (Hf : fetches (world (fetch env (other first) url kwargs
                     (before_fallback url first e1 attempt1.2)).2)
               = fetches (world s) ++ [first; other first]).
  { rewrite F2. unfold before_fallback. simpl. rewrite F1. simpl.
    rewrite <- app_assoc. reflexivity. }
  unfold out, scrape_with_fallback. rewrite Hfirst.
  unfold ecatch, ebind, log_s, emodify, parse, eraise.
  simpl. fold attempt1.
  destruct attempt1 as [r1 s1]. simpl in H1. subst r1. simpl in *.
  rewrite Hp. unfold before_fallback in *. simpl in *.
  destruct (fetch env (other first) url kwargs _) as [[soup2|e2] s2];
    simpl in *.
  - destruct (_parse_page env soup2 url kwargs); simpl;
      repeat split; try done.
    apply elem_of_app. left. exact Hw.
  - repeat split; try done. apply elem_of_app. left. exact Hw.
Qed.

(** X13.  While the HTTP breaker is OPEN and cooling down,
    [fetch_with_requests] fails at once with the circuit-open exception:
    that exception is not in the retry list, so there is no second
    attempt, no sleep, no rate-limit delay and no GET. *)
Theorem open_http_breaker_fails_fast (url : string) (s : BaseScraper) (t : Q) :
  state (_http_circuit_breaker s) = OPEN ->
  last_failure_time (_http_circuit_breaker s) = Some t ->
  (clock (world s) - t < timeout (_http_circuit_breaker s))%Q ->
  fetch_with_requests env url [] s
  = (Raise (circuit_open_error (str_of_float env) (_http_circuit_breaker s)),
     on_world (fun w => set_fetches (fetches w ++ [Requests]) w) s).
Proof.
  intros Hst Hlast Hlt.
  unfold fetch_with_requests, async_wrapper, wrapper_traced.
  change (Z.to_nat (max_attempts requests_policy)) with 3%nat.
  cbn [retry_loop].
  unfold requests_body at 1. cbn [unexpected_keyword filter head].
  unfold call, call_traced, _should_try_reset.
  cbn [on_world world _http_circuit_breaker _playwright_circuit_breaker
       set_fetches clock].
  rewrite Hst, Hlast.
  destruct (Qle_bool (timeout (_http_circuit_breaker s)) (clock (world s) - t))
    eqn:Hb.
  { apply Qle_bool_iff in Hb. apply Qlt_not_le in Hlt. contradiction. }
  simpl. destruct s as [w hcb pcb]. reflexivity.
Qed.
Lemma Qle_bool_false (a b : Q) : (b < a)%Q -> Qle_bool a b = false.
Proof.
  intros Hlt. destruct (Qle_bool a b) eqn:Hb; [|reflexivity].
  apply Qle_bool_iff in Hb. apply Qlt_not_le in Hlt. contradiction.
Qed.

Lemma capped_sleep_le (x : Q) : (Qmax 0 (Qmin x 60) <= 60)%Q.
Proof. apply Q.max_lub; [discriminate | apply Q.le_min_r]. Qed.



Lemma int_value_error_cls (h : string) :
  exn_cls (int_value_error h) = ValueError.
Proof. unfold int_value_error. repeat case_match; reflexivity. Qed.

(** X15.  A 429 answer whose [Retry-After] header is ASCII text that is
    not an integer (an HTTP date, say) makes [int] raise [ValueError]
    before the rate-limit sleep: the error leaves [fetch_with_requests]
    after the one GET, without a retry, and the HTTP breaker does not
    count it. *)
Theorem bad_retry_after_escapes (url : string) (s : BaseScraper)
    (h text : string) :
  state (_http_circuit_breaker s) <> OPEN ->
  expected_exception (_http_circuit_breaker s)
  = [ClientError; TimeoutError; RateLimitError] ->
  http_get env url (gets (world s)) = HttpResponse 429 (Some h) text ->
  is_ascii h = true ->
  int_of_str h = None ->
  let out := fetch_with_requests env url [] s in
  out.1 = Raise (int_value_error h)
  /\ gets (world out.2) = S (gets (world s))
  /\ _http_circuit_breaker out.2 = _http_circuit_breaker s
  /\ slept (world out.2)
     = slept (_rate_limit_delay env
                (set_fetches (fetches (world s) ++ [Requests]) (world s))).2.
Proof.
  intros Hst Hexp Hget _ Hint out.
  set (w0 := set_fetches (fetches (world s) ++ [Requests]) (world s)).
  pose proof (ScraperFacts.rate_limit_delay_gets env w0) as Hg.
  assert (Hf : _fetch_requests env url w0
               = (Raise (int_value_error h),
                  set_gets (S (gets (world s))) (_rate_limit_delay env w0).2)).
  { unfold _fetch_requests, ebind.
    destruct (_rate_limit_delay env w0) as [[[]|e] w1] eqn:Hd;
      [|discriminate (f_equal fst Hd)].
    simpl in Hg |- *. rewrite Hg. change (gets w0) with (gets (world s)).
    rewrite Hget. simpl. rewrite Hint. reflexivity. }
  assert (Hout : out = (Raise (int_value_error h),
                        {| world := set_gets (S (gets (world s)))
                                      (_rate_limit_delay env w0).2;
                           _http_circuit_breaker := _http_circuit_breaker s;
                           _playwright_circuit_breaker :=
                             _playwright_circuit_breaker s |})).
  { unfold out, fetch_with_requests, async_wrapper, wrapper_traced.
    change (Z.to_nat (max_attempts requests_policy)) with 3%nat.
    cbn [retry_loop].
    unfold requests_body at 1. cbn [unexpected_keyword filter head].
    unfold call, call_traced. cbn [on_world world _http_circuit_breaker].
    fold w0. rewrite Hf.
    destruct (state (_http_circuit_breaker s)) eqn:Est; [|congruence|].
    all: rewrite ?Hexp; unfold must_reraise, isinstance;
      rewrite !int_value_error_cls;
      change (existsb (issubclass ValueError)
                [ClientError; TimeoutError; RateLimitError]) with false;
      change (unexpected_keyword ["headers"] []) with (@None string);
      cbv beta iota zeta; cbn [fst snd];
      rewrite !int_value_error_cls; reflexivity. }
  rewrite Hout. cbn [fst snd world _http_circuit_breaker].
  repeat split; reflexivity.
Qed.

(** X16.  [scrape_with_fallback] forwards its keyword arguments to both
    transports, whose signatures differ.  A keyword that
    [fetch_with_requests] does not have makes it raise [TypeError] when
    it is called: the error is not in the retry list, so it leaves at
    once, with no GET and the breaker untouched. *)
Theorem requests_rejects_keyword (url k : string) (kwargs : list string)
    (s : BaseScraper) :
  unexpected_keyword ["headers"] kwargs = Some k ->
  fetch_with_requests env url kwargs s
  = (Raise (type_error "fetch_with_requests" k),
     on_world (fun w => set_fetches (fetches w ++ [Requests]) w) s).
Proof.
  intros Hk.
  unfold fetch_with_requests, async_wrapper, wrapper_traced.
  change (Z.to_nat (max_attempts requests_policy)) with 3%nat.
  cbn [retry_loop]. unfold requests_body at 1. rewrite Hk. reflexivity.
Qed.


(** One failed attempt of the HTTP transport on a host that answers with
    an error status other than 429, the breaker not being OPEN. *)
Lemma requests_attempt_fails (url : string) (s : BaseScraper) (status : Z)
    (header : option string) (text : string) :
  state (_http_circuit_breaker s) = CLOSED ->
  expected_exception (_http_circuit_breaker s)
  = [ClientError; TimeoutError; RateLimitError] ->
  http_get env url (gets (world s)) = HttpResponse status header text ->
  400 <= status -> status <> 429 ->
  exists s',
    requests_body env url [] s
    = (Raise (Exn ClientResponseError (status_error_text env status url) None),
       s')
    /\ gets (world s') = S (gets (world s))
    /\ _http_circuit_breaker s'
       = _on_failure (_http_circuit_breaker s) (clock (world s'))
    /\ _playwright_circuit_breaker s' = _playwright_circuit_breaker s.
Proof.
  intros Hst Hexp Hget H400 H429.
  pose proof (ScraperFacts.rate_limit_delay_gets env (world s)) as Hg.
  assert (Hf : _fetch_requests env url (world s)
               = (Raise (Exn ClientResponseError
                           (status_error_text env status url) None),
                  set_gets (S (gets (world s)))
                           (_rate_limit_delay env (world s)).2)).
  { unfold _fetch_requests, ebind.
    destruct (_rate_limit_delay env (world s)) as [[[]|e] w1] eqn:Hd;
      [|discriminate (f_equal fst Hd)].
    simpl in Hg |- *. rewrite Hg, Hget. simpl.
    destruct (status =? 429) eqn:E29; [lia|].
    destruct (400 <=? status) eqn:E400; [reflexivity|lia]. }
  eexists. unfold requests_body. cbn [unexpected_keyword filter head].
  unfold call, call_traced. rewrite Hst, Hf, Hexp. simpl.
  repeat split; reflexivity.
Qed.

Lemma client_response_error_retryable (msg : string) :
  isinstance (Exn ClientResponseError msg None) (exceptions requests_policy)
  = true.
Proof. reflexivity. Qed.

(** X18.  Against a host that answers every GET with the same error
    status (400 or more, not 429), and with a breaker at least three
    failures away from its threshold, [fetch_with_requests] sends exactly
    three GETs and raises a [RetryError] caused by the
    [ClientResponseError]; the breaker has counted the three failures and
    is OPEN exactly when that reached its threshold. *)
Theorem persistent_error_status (url : string) (s : BaseScraper) (status : Z)
    (header : option string) (text : string) :
  state (_http_circuit_breaker s) = CLOSED ->
  failure_count (_http_circuit_breaker s) + 3
  <= failure_threshold (_http_circuit_breaker s) ->
  expected_exception (_http_circuit_breaker s)
  = [ClientError; TimeoutError; RateLimitError] ->
  (forall n, http_get env url n = HttpResponse status header text) ->
  400 <= status -> status <> 429 ->
  let out := fetch_with_requests env url [] s in
  out.1 = Raise (retry_error requests_policy "fetch_with_requests"
                   (Some (Exn ClientResponseError
                            (status_error_text env status url) None)))
  /\ gets (world out.2) = (gets (world s) + 3)%nat
  /\ failure_count (_http_circuit_breaker out.2)
     = failure_count (_http_circuit_breaker s) + 3
  /\ state (_http_circuit_breaker out.2)
     = (if failure_count (_http_circuit_breaker s) + 3
           =? failure_threshold (_http_circuit_breaker s)
        then OPEN else CLOSED).
Proof.
  intros Hst Hc Hexp Hget H400 H429 out.
  set (cb := _http_circuit_breaker s) in *.
  set (s0 := on_world (fun w => set_fetches (fetches w ++ [Requests]) w) s).
  destruct (requests_attempt_fails url s0 status header text Hst Hexp
              (Hget _) H400 H429) as (sa & Fa & Ga & Ba & _).
  assert (Sa : state (_http_circuit_breaker sa) = CLOSED).
  { rewrite Ba. simpl. fold cb. rewrite Hst.
    destruct (Z.leb_spec (failure_threshold cb) (failure_count cb + 1));
      [lia|reflexivity]. }
  set (pa := sleep_s (Qmin (initial_delay requests_policy
                            * (0.5 + (random_s env sa).1))
                           (max_delay requests_policy))
                     (random_s env sa).2).
  assert (Ea : expected_exception (_http_circuit_breaker pa)
               = [ClientError; TimeoutError; RateLimitError]).
  { change (_http_circuit_breaker pa) with (_http_circuit_breaker sa).
    rewrite Ba. exact Hexp. }
  destruct (requests_attempt_fails url pa status header text Sa Ea
              (Hget _) H400 H429) as (sb & Fb & Gb & Bb & _).
  change (_http_circuit_breaker pa) with (_http_circuit_breaker sa) in Bb.
  assert (Sb : state (_http_circuit_breaker sb) = CLOSED).
  { rewrite Bb. simpl. rewrite Sa, Ba. simpl. fold cb.
    destruct (Z.leb_spec (failure_threshold cb) (failure_count cb + 1 + 1));
      [lia|reflexivity]. }
  set (pb := sleep_s (Qmin (initial_delay requests_policy
                            * backoff_factor requests_policy
                            * (0.5 + (random_s env sb).1))
                           (max_delay requests_policy))
                     (random_s env sb).2).
  assert (Eb : expected_exception (_http_circuit_breaker pb)
               = [ClientError; TimeoutError; RateLimitError]).
  { change (_http_circuit_breaker pb) with (_http_circuit_breaker sb).
    rewrite Bb. simpl. rewrite Ba. exact Hexp. }
  destruct (requests_attempt_fails url pb status header text Sb Eb
              (Hget _) H400 H429) as (sc & Fc & Gc & Bc & _).
  change (_http_circuit_breaker pb) with (_http_circuit_breaker sb) in Bc.
  assert (Hout : out = (Raise (retry_error requests_policy
                                 "fetch_with_requests"
                                 (Some (Exn ClientResponseError
                                          (status_error_text env status url)
                                          None))), sc)).
  { unfold out, fetch_with_requests.
    apply (RetryMoreFacts.three_failures sleep_s (random_s env)
             requests_policy "fetch_with_requests"
             (requests_body env url []) s0 sa sb sc _ _ _
             eq_refl eq_refl eq_refl
             (client_response_error_retryable _)
             (client_response_error_retryable _)
             (client_response_error_retryable _) Fa Fb Fc). }
  rewrite Hout. cbn [fst snd]. split; [reflexivity|].
  split; [|split].
  - rewrite Gc. change (gets (world pb)) with (gets (world sb)).
    rewrite Gb. change (gets (world pa)) with (gets (world sa)).
    rewrite Ga. change (gets (world s0)) with (gets (world s)). lia.
  - rewrite Bc. simpl. rewrite Bb. simpl. rewrite Ba. simpl. fold cb. lia.
  - rewrite Bc. simpl. rewrite Sb, Bb. simpl. rewrite Ba. simpl. fold cb.
    destruct (Z.leb_spec (failure_threshold cb) (failure_count cb + 1 + 1 + 1));
      destruct (Z.eqb_spec (failure_count cb + 3) (failure_threshold cb));
      try reflexivity; lia.
Qed.

(** X19.  The breaker can cut a retry short.  With the breaker two
    failures below its threshold and a cooldown longer than the longest
    backoff sleep, the second failed GET opens the breaker, the third
    attempt is rejected by it, and the rejection, which is not in the
    retry list, leaves [fetch_with_requests] as a plain [Exception]
    instead of a [RetryError]: two GETs are sent, not three. *)
Theorem breaker_cuts_retry_short (url : string) (s : BaseScraper) (status : Z)
    (header : option string) (text : string) :
  state (_http_circuit_breaker s) = CLOSED ->
  failure_count (_http_circuit_breaker s) + 2
  = failure_threshold (_http_circuit_breaker s) ->
  (60 < timeout (_http_circuit_breaker s))%Q ->
  expected_exception (_http_circuit_breaker s)
  = [ClientError; TimeoutError; RateLimitError] ->
  (forall n, http_get env url n = HttpResponse status header text) ->
  400 <= status -> status <> 429 ->
  let out := fetch_with_requests env url [] s in
  out.1 = Raise (circuit_open_error (str_of_float env)
                   (_http_circuit_breaker out.2))
  /\ gets (world out.2) = (gets (world s) + 2)%nat
  /\ state (_http_circuit_breaker out.2) = OPEN
  /\ failure_count (_http_circuit_breaker out.2)
     = failure_threshold (_http_circuit_breaker s).
Proof.
  intros Hst Hc Hto Hexp Hget H400 H429 out.
  set (cb := _http_circuit_breaker s) in *.
  set (s0 := on_world (fun w => set_fetches (fetches w ++ [Requests]) w) s).
  destruct (requests_attempt_fails url s0 status header text Hst Hexp
              (Hget _) H400 H429) as (sa & Fa & Ga & Ba & _).
  assert (Sa : state (_http_circuit_breaker sa) = CLOSED).
  { rewrite Ba. simpl. fold cb. rewrite Hst.
    destruct (Z.leb_spec (failure_threshold cb) (failure_count cb + 1));
      [lia|reflexivity]. }
  set (pa := sleep_s (Qmin (initial_delay requests_policy
                            * (0.5 + (random_s env sa).1))
                           (max_delay requests_policy))
                     (random_s env sa).2).
  assert (Ea : expected_exception (_http_circuit_breaker pa)
               = [ClientError; TimeoutError; RateLimitError]).
  { change (_http_circuit_breaker pa) with (_http_circuit_breaker sa).
    rewrite Ba. exact Hexp. }
  destruct (requests_attempt_fails url pa status header text Sa Ea
              (Hget _) H400 H429) as (sb & Fb & Gb & Bb & _).
  change (_http_circuit_breaker pa) with (_http_circuit_breaker sa) in Bb.
  assert (Sb : state (_http_circuit_breaker sb) = OPEN).
  { rewrite Bb. simpl. rewrite Ba. simpl. fold cb.
    destruct (Z.leb_spec (failure_threshold cb) (failure_count cb + 1 + 1));
      [reflexivity|lia]. }
  assert (Lb : last_failure_time (_http_circuit_breaker sb)
               = Some (clock (world sb))).
  { rewrite Bb. reflexivity. }
  assert (Tb : timeout (_http_circuit_breaker sb) = timeout cb).
  { rewrite Bb. simpl. rewrite Ba. reflexivity. }
  set (d2 := Qmin (initial_delay requests_policy
                   * backoff_factor requests_policy
                   * (0.5 + (random_s env sb).1))
                  (max_delay requests_policy)).
  set (pb := sleep_s d2 (random_s env sb).2).
  assert (Fc : requests_body env url [] pb
               = (Raise (circuit_open_error (str_of_float env)
                           (_http_circuit_breaker sb)), pb)).
  { unfold requests_body. cbn [unexpected_keyword filter head].
    unfold call, call_traced, _should_try_reset.
    change (_http_circuit_breaker pb) with (_http_circuit_breaker sb).
    rewrite Sb, Lb, Tb.
    assert (Hlt : (clock (world pb) - clock (world sb) < timeout cb)%Q).
    { change (clock (world pb)) with (clock (world sb) + Qmax 0 d2)%Q.
      pose proof (capped_sleep_le
                    (initial_delay requests_policy
                     * backoff_factor requests_policy
                     * (0.5 + (random_s env sb).1))) as Hd.
      change (max_delay requests_policy) with 60%Q in d2.
      fold d2 in Hd. lra. }
    rewrite (Qle_bool_false _ _ Hlt). simpl. destruct sb. reflexivity. }
  assert (Hout : out = (Raise (circuit_open_error (str_of_float env)
                                 (_http_circuit_breaker sb)), pb)).
  { unfold out, fetch_with_requests.
    apply (RetryMoreFacts.failures_then_fatal sleep_s (random_s env)
             requests_policy "fetch_with_requests"
             (requests_body env url []) s0 sa sb pb _ _
             (circuit_open_error (str_of_float env) (_http_circuit_breaker sb))
             eq_refl eq_refl eq_refl
             (client_response_error_retryable _)
             (client_response_error_retryable _)
             eq_refl Fa Fb Fc). }
  rewrite Hout. cbn [fst snd].
  change (_http_circuit_breaker pb) with (_http_circuit_breaker sb).
  split; [reflexivity|]. split; [|split].
  - change (gets (world pb)) with (gets (world sb)).
    rewrite Gb. change (gets (world pa)) with (gets (world sa)).
    rewrite Ga. change (gets (world s0)) with (gets (world s)). lia.
  - exact Sb.
  - rewrite Bb. simpl. rewrite Ba. simpl. fold cb. lia.
Qed.

(** X20.  [_rate_limit_delay] counts the request and, with a positive
    base delay and a generator sample in [0, 1), waits between half and
    one and a half times the base delay, plus at most the half second of
    the frequency guard; it sends nothing. *)
Theorem rate_limit_delay_bounds (w : World) :
  (0 < request_delay env)%Q ->
  (0 <= random_sample env (samples w))%Q ->
  (random_sample env (samples w) < 1)%Q ->
  let w' := (_rate_limit_delay env w).2 in
  _request_count w' = _request_count w + 1
  /\ (clock w + request_delay env * 0.5 <= clock w')%Q
  /\ (clock w' <= clock w + request_delay env * 1.5 + 0.5)%Q
  /\ gets w' = gets w
  /\ navigations w' = navigations w.
Proof.
  intros Hrd Hr0 Hr1 w'.
  set (r := random_sample env (samples w)) in *.
  set (d := (request_delay env * (0.5 + (1.5 - 0.5) * r))%Q).
  assert (Hd0 : (request_delay env * 0.5 <= d)%Q) by (unfold d; nra).
  assert (Hd1 : (d <= request_delay env * 1.5)%Q) by (unfold d; nra).
  assert (Hmax : (Qmax 0 d == d)%Q).
  { apply Q.max_r. nra. }
  unfold w', _rate_limit_delay, random. cbv zeta.
  unfold Qlt_bool.
  rewrite (Qle_bool_false _ _ Hrd). cbn [negb].
  change (samples (set_request_count (_request_count w + 1) w))
    with (samples w).
  fold r. fold d.
  set (w3 := sleep d (set_samples (S (samples w))
                        (set_request_count (_request_count w + 1) w))).
  assert (Hc3 : (clock w3 == clock w + d)%Q).
  { change (clock w3) with (clock w + Qmax 0 d)%Q. rewrite Hmax. reflexivity. }
  assert (Hhalf : (Qmax 0 0.5 == 0.5)%Q) by (apply Q.max_r; lra).
  destruct (negb (Qle_bool (clock w3 - _start_time w3) 0));
    [destruct (negb (Qle_bool _ 10))|]; cbn [snd].
  - change (clock (sleep 0.5 w3)) with (clock w3 + Qmax 0 0.5)%Q.
    rewrite Hhalf, Hc3. repeat split; try reflexivity; lra.
  - rewrite Hc3. repeat split; try reflexivity; lra.
  - rewrite Hc3. repeat split; try reflexivity; lra.
Qed.

End fetching_more.

(** [what_scrape_with_fallback_raises] on a host that refuses every
    connection: the failure names the error of the browser transport. *)
Lemma what_scrape_with_fallback_raises_witness :
  let e2 :=
    Exn RetryError
        "Function fetch_with_playwright failed after 3 attempts. Last error: net::ERR_CONNECTION_REFUSED"
        (Some (Exn PlaywrightError "net::ERR_CONNECTION_REFUSED" None)) in
  let out := scrape_with_fallback refusing site None [] (new_scraper fresh_world) in
  out.1 = Raise (scraping_error site e2)
  /\ exists first e1,
       primary refusing site None = Ok first
       /\ (fetch refusing (other first) site []
             (before_fallback site first e1
                (fetch refusing first site []
                   (on_world (log DEBUG (using_msg first site))
                             (new_scraper fresh_world))).2)).1
          = Raise e2.
Proof.
  intros e2 out.
  assert (H : out.1 = Raise (scraping_error site e2))
    by (vm_compute; reflexivity).
  split; [exact H|].
  destruct (what_scrape_with_fallback_raises refusing site None []
              (new_scraper fresh_world) (scraping_error site e2) H)
    as [(_ & Hn & _) | (first & e1 & e2' & Hp & _ & H2 & He)];
    [discriminate Hn|].
  exists first, e1. split; [exact Hp|].
  assert (He2 : e2' = e2).
  { injection Hp as <-. clear H.
    destruct H2 as [H2 | (soup & H2 & _)].
    - vm_compute in H2. injection H2 as <-. reflexivity.
    - vm_compute in H2. discriminate H2. }
  subst e2'.
  destruct H2 as [H2 | (soup & H2 & _)]; [exact H2|].
  injection Hp as <-. vm_compute in H2. discriminate H2.
Defined.

(** The first case of [what_scrape_with_fallback_raises] occurs: with no
    transport chosen by the caller and a URL that [urlparse] refuses,
    the [ValueError] leaves [scrape_with_fallback] as it is; nothing is
    logged, no transport is entered, and the same URL is fetched when
    the caller names the transport. *)
Example unsplittable_url_raises :
  let s := new_scraper fresh_world in
  scrape_with_fallback unsplittable bad_url None [] s
  = (Raise (Exn ValueError "Invalid IPv6 URL" None), s)
  /\ (scrape_with_fallback unsplittable bad_url (Some false) [] s).1 = Ok [].
Proof. split; vm_compute; reflexivity. Qed.

(** [primary_success] on a host that serves the page. *)
Lemma primary_success_witness :
  let s := new_scraper fresh_world in
  let attempt1 := fetch serving Requests site []
                    (on_world (log DEBUG (using_msg Requests site)) s) in
  primary serving site None = Ok Requests
  /\ attempt1.1 = Ok "<html>ok</html>"
  /\ _parse_page serving "<html>ok</html>" site [] = Ok []
  /\ scrape_with_fallback serving site None [] s = (Ok [], attempt1.2).
Proof.
  intros s attempt1.
  assert (Hf : primary serving site None = Ok Requests) by reflexivity.
  assert (H1 : attempt1.1 = Ok "<html>ok</html>") by (vm_compute; reflexivity).
  assert (Hp : _parse_page serving "<html>ok</html>" site [] = Ok [])
    by reflexivity.
  split; [exact Hf|]. split; [exact H1|]. split; [exact Hp|].
  exact (proj1 (primary_success serving site None [] s Requests
                  "<html>ok</html>" [] Hf H1 Hp)).
Defined.

(** [parse_failure_falls_back] for a parser that needs the rendered
    page. *)
Lemma parse_failure_falls_back_witness :
  let s := new_scraper fresh_world in
  let attempt1 := fetch needs_rendering Requests site []
                    (on_world (log DEBUG (using_msg Requests site)) s) in
  let e1 := Exn ParseError "no portfolio section" None in
  primary needs_rendering site None = Ok Requests
  /\ attempt1.1 = Ok "<html>ok</html>"
  /\ _parse_page needs_rendering "<html>ok</html>" site [] = Raise e1
  /\ fetches (world (scrape_with_fallback needs_rendering site None [] s).2)
     = [Requests; Playwright].
Proof.
  intros s attempt1 e1.
  assert (Hf : primary needs_rendering site None = Ok Requests)
    by reflexivity.
  assert (H1 : attempt1.1 = Ok "<html>ok</html>") by (vm_compute; reflexivity).
  assert (Hp : _parse_page needs_rendering "<html>ok</html>" site [] = Raise e1)
    by (vm_compute; reflexivity).
  split; [exact Hf|]. split; [exact H1|]. split; [exact Hp|].
  exact (proj1 (parse_failure_falls_back needs_rendering site None [] s
                  Requests "<html>ok</html>" e1 Hf H1 Hp)).
Defined.

(** [open_http_breaker_fails_fast] one hundred seconds after the HTTP
    breaker opened. *)
Lemma open_http_breaker_fails_fast_witness :
  state (_http_circuit_breaker http_tripped) = OPEN
  /\ (clock (world http_tripped) - 0 < timeout (_http_circuit_breaker http_tripped))%Q
  /\ gets (world (fetch_with_requests serving site [] http_tripped).2)
     = gets (world http_tripped).
Proof.
  assert (Hlt : (clock (world http_tripped) - 0
                 < timeout (_http_circuit_breaker http_tripped))%Q)
    by reflexivity.
  split; [reflexivity|]. split; [exact Hlt|].
  rewrite (open_http_breaker_fails_fast serving site http_tripped 0
             eq_refl eq_refl Hlt).
  reflexivity.
Defined.


(** [bad_retry_after_escapes] on a host that sends an HTTP date. *)
Lemma bad_retry_after_escapes_witness :
  let s := new_scraper fresh_world in
  let h := "Wed, 21 Oct 2015 07:28:00 GMT" in
  is_ascii h = true
  /\ int_of_str h = None
  /\ (fetch_with_requests dated_retry_after site [] s).1
     = Raise (Exn ValueError
                "invalid literal for int() with base 10: 'Wed, 21 Oct 2015 07:28:00 GMT'"
                None).
Proof.
  intros s h.
  assert (Ha : is_ascii h = true) by (vm_compute; reflexivity).
  assert (Hint : int_of_str h = None) by (vm_compute; reflexivity).
  split; [exact Ha|]. split; [exact Hint|].
  refine (proj1 (bad_retry_after_escapes dated_retry_after site s h EmptyString
                   _ eq_refl eq_refl Ha Hint)).
  discriminate.
Defined.

(** [requests_rejects_keyword] for a call with [wait_for]. *)
Lemma requests_rejects_keyword_witness :
  unexpected_keyword ["headers"] ["wait_for"] = Some "wait_for"
  /\ (fetch_with_requests serving site ["wait_for"] (new_scraper fresh_world)).1
     = Raise (type_error "fetch_with_requests" "wait_for").
Proof.
  assert (Hk : unexpected_keyword ["headers"] ["wait_for"] = Some "wait_for")
    by (vm_compute; reflexivity).
  split; [exact Hk|].
  rewrite (requests_rejects_keyword serving site "wait_for" ["wait_for"]
             (new_scraper fresh_world) Hk).
  reflexivity.
Defined.


(** [persistent_error_status] on a host that always answers 500. *)
Lemma persistent_error_status_witness :
  let s := new_scraper fresh_world in
  failure_count (_http_circuit_breaker s) + 3
  <= failure_threshold (_http_circuit_breaker s)
  /\ gets (world (fetch_with_requests erroring site [] s).2) = 3%nat.
Proof.
  intros s.
  assert (Hc : failure_count (_http_circuit_breaker s) + 3
               <= failure_threshold (_http_circuit_breaker s))
    by (simpl; lia).
  split; [exact Hc|].
  refine (proj1 (proj2 (persistent_error_status erroring site s 500 None
                          "Internal Server Error" eq_refl Hc eq_refl
                          (fun _ => eq_refl) _ _))); lia.
Defined.

(** [breaker_cuts_retry_short] on the same host, with a breaker that has
    already counted three failures. *)
Lemma breaker_cuts_retry_short_witness :
  failure_count (_http_circuit_breaker http_strained) + 2
  = failure_threshold (_http_circuit_breaker http_strained)
  /\ (60 < timeout (_http_circuit_breaker http_strained))%Q
  /\ gets (world (fetch_with_requests erroring site [] http_strained).2)
     = (gets (world http_strained) + 2)%nat.
Proof.
  assert (Hto : (60 < timeout (_http_circuit_breaker http_strained))%Q)
    by reflexivity.
  split; [reflexivity|]. split; [exact Hto|].
  refine (proj1 (proj2 (breaker_cuts_retry_short erroring site http_strained
                          500 None "Internal Server Error" eq_refl eq_refl
                          Hto eq_refl (fun _ => eq_refl) _ _))); lia.
Defined.

(** [rate_limit_delay_bounds] with the base delay of one second and the
    sample one half. *)
Lemma rate_limit_delay_bounds_witness :
  (0 < request_delay serving)%Q
  /\ (random_sample serving (samples fresh_world) < 1)%Q
  /\ _request_count (_rate_limit_delay serving fresh_world).2 = 1.
Proof.
  assert (Hrd : (0 < request_delay serving)%Q) by reflexivity.
  assert (Hr1 : (random_sample serving (samples fresh_world) < 1)%Q)
    by reflexivity.
  split; [exact Hrd|]. split; [exact Hr1|].
  refine (proj1 (rate_limit_delay_bounds serving fresh_world Hrd _ Hr1)).
  discriminate.
Defined.

End ScraperMoreFacts.

(** ** The rest of the client and database maintenance *)

Module StoreMoreFacts.
Import Py Store StoreMore.

Lemma negative_hour_rejected (t : Datetime.datetime) (h : Z) :
  h < 0 ->
  exists e, Datetime.replace t (Some h) None None None = Raise e.
Proof.
  intros Hh. rewrite StoreFacts.replace_hour.
  destruct (Datetime.c_int h); [|eauto].
  unfold Datetime.make.
  assert (Hb : Datetime.between 0 h 23 = false).
  { unfold Datetime.between. apply andb_false_iff. left. apply Z.leb_gt. lia. }
  rewrite Hb. simpl. repeat case_match; eauto.
Qed.

(** Midnight minus a positive number of hours is no hour of the day. *)
Lemma midnight_minus_hours (t : Datetime.datetime) (hours : Z) :
  1 <= hours ->
  match Datetime.replace t (Some 0) (Some 0) (Some 0) (Some 0) with
  | Raise e => True
  | Ok cutoff =>
      exists e,
        Datetime.replace cutoff (Some (Datetime.hour cutoff - hours))
                         None None None
        = Raise e
  end.
Proof.
  intros Hh.
  destruct (Datetime.replace t (Some 0) (Some 0) (Some 0) (Some 0))
    as [cutoff|e] eqn:E; [|exact I].
  apply negative_hour_rejected.
  rewrite StoreFacts.replace_zero in E.
  rewrite (StoreFacts.make_hour_ok _ _ _ _ _ _ _ _ E). lia.
Qed.

Section client_more_facts.
Variable env : Env.
Variable delete_lt : string -> string -> value -> Op (list dict).
Variable random_sample : nat -> Q.
Variable create_client : option exn.

(** [get_recent_changes] with a positive number of hours always raises. *)
Lemma recent_changes_rejects (table_name : string) (hours limit : Z) (db : Db) :
  1 <= hours ->
  exists e db' l,
    get_recent_changes env table_name hours limit db = (Raise e, db', l).
Proof.
  intros Hh. unfold get_recent_changes, obind, now, oraise.
  pose proof (midnight_minus_hours (wall env (now_calls db)) hours Hh) as H.
  destruct (Datetime.replace (wall env (now_calls db)) (Some 0) (Some 0)
              (Some 0) (Some 0)) as [cutoff|e]; [|simpl; eauto].
  destruct H as [msg ->]. simpl. eauto.
Qed.

(** X21.  [get_statistics] never returns statistics.  Whatever the store
    holds and whether or not it fails, the result is the empty
    dictionary and an error has been logged: when the four counting
    queries succeed, the cutoff [replace(hour=0 - 24)] raises inside the
    [try]. *)
Theorem statistics_always_empty (db : Db) :
  let out := get_statistics env db in
  out.1.1 = Ok ∅
  /\ exists e, last out.2
               = Some (ERROR, "Error getting statistics: " +:+ exn_str e).
Proof.
  intros out. unfold out, get_statistics, ocatch.
  match goal with
  | |- context [match ?body db with _ => _ end] =>
      assert (Hb : exists e db' l, body db = (Raise e, db', l))
  end.
  { unfold obind at 1.
    destruct (execute env (Select "sites" [] None None) db)
      as [[[r1|e1] db1] l1]; [|eauto].
    unfold obind at 1.
    destruct (execute env (Select "portfolio_companies" [] None None) db1)
      as [[[r2|e2] db2] l2]; [|eauto].
    unfold obind at 1.
    destruct (execute env (Select "team_members" [] None None) db2)
      as [[[r3|e3] db3] l3]; [|eauto].
    unfold obind at 1.
    destruct (execute env (Select "fortune_deals" [] None None) db3)
      as [[[r4|e4] db4] l4]; [|eauto].
    unfold obind at 1. unfold now at 1.
    pose proof (midnight_minus_hours (wall env (now_calls db4)) 24) as H.
    destruct (Datetime.replace (wall env (now_calls db4)) (Some 0) (Some 0)
                (Some 0) (Some 0)) as [cutoff|e]; [|unfold oraise; eauto].
    destruct H as [msg ->]; [lia|]. unfold oraise. eauto. }
  destruct Hb as (e & db' & l & ->).
  unfold obind, olog, oret. simpl. split; [reflexivity|].
  exists e. rewrite ?app_nil_r. apply last_snoc.
Qed.

Lemma statistics_returns (db : Db) :
  exists stats db' l, get_statistics env db = (Ok stats, db', l).
Proof.
  destruct (get_statistics env db) as [[r db'] l] eqn:E.
  assert (H : (get_statistics env db).1.1 = r) by (rewrite E; reflexivity).
  revert H. unfold get_statistics, ocatch.
  match goal with
  | |- context [match ?body db with _ => _ end] =>
      destruct (body db) as [[[s|e] db1] l1]
  end; simpl; intros <-; eauto.
Qed.

Lemma cleanup_table_returns (cutoff table : string) (db : Db) :
  (cleanup_table delete_lt cutoff table db).1.1 = Ok tt.
Proof.
  unfold cleanup_table, ocatch, obind, olog.
  destruct (delete_lt table "changed_at" (VStr cutoff) db) as [[[r|e] db1] l1];
    reflexivity.
Qed.

Lemma cleanup_tables_returns (cutoff : string) (tables : list string) :
  forall db, (cleanup_tables delete_lt cutoff tables db).1.1 = Ok tt.
Proof.
  induction tables as [|table tables IH]; intros db; [reflexivity|].
  simpl. unfold obind.
  pose proof (cleanup_table_returns cutoff table db) as H.
  destruct (cleanup_table delete_lt cutoff table db) as [[r db1] l1].
  simpl in H. subst r.
  specialize (IH db1).
  destruct (cleanup_tables delete_lt cutoff tables db1) as [[r db2] l2].
  simpl in IH. subst r. reflexivity.
Qed.

(** X22.  [cleanup_old_changes] computes its cutoff with
    [replace(day=day - days)], outside the [try].  Unless [day - days] is
    a day of the current month it raises before any delete, a
    [ValueError], or an [OverflowError] when the number does not fit a C
    [int]; and when it does return it returns [True], even if every
    delete failed. *)
Theorem cleanup_outcome (days : Z) (db : Db) :
  let t := wall env (now_calls db) in
  let day := Datetime.day t - days in
  let in_month :=
    Datetime.between 1 day
      (Datetime.days_in_month (Datetime.year t) (Datetime.month t)) in
  let out := cleanup_old_changes env delete_lt days db in
  Datetime.valid t ->
  (in_month = true -> out.1.1 = Ok true)
  /\ (in_month = false -> Datetime.c_int day = true ->
      out.1.1 = Raise (Datetime.value_error "day is out of range for month"))
  /\ (Datetime.c_int day = false ->
      exists e, out.1.1 = Raise e /\ exn_cls e = OverflowError)
  /\ (in_month = false ->
      tables out.1.2 = tables db /\ executed out.1.2 = executed db
      /\ out.2 = []).
Proof.
  intros t day in_month out Hv.
  assert (Hdim : Datetime.days_in_month (Datetime.year t) (Datetime.month t)
                 <= 31).
  { unfold Datetime.days_in_month. repeat case_match; lia. }
  assert (Hfit : in_month = true -> Datetime.c_int day = true).
  { unfold in_month, Datetime.between, Datetime.c_int, Datetime.int_min,
      Datetime.int_max.
    intros H. apply andb_true_iff in H. destruct H as [H1 H2].
    apply Z.leb_le in H1. apply Z.leb_le in H2.
    apply andb_true_iff. split; apply Z.leb_le; lia. }
  unfold out, cleanup_old_changes, obind, now. fold t. fold day.
  unfold replace_day.
  destruct (Datetime.c_int day) eqn:Hc.
  - unfold Datetime.valid, Datetime.make in Hv. fold t in Hv.
    unfold Datetime.make.
    destruct (negb (Datetime.between 1 (Datetime.year t) 9999));
      [discriminate|].
    destruct (negb (Datetime.between 1 (Datetime.month t) 12));
      [discriminate|].
    destruct (negb (Datetime.between 1 (Datetime.day t) _)); [discriminate|].
    destruct (negb (Datetime.between 0 (Datetime.hour t) 23));
      [discriminate|].
    destruct (negb (Datetime.between 0 (Datetime.minute t) 59));
      [discriminate|].
    destruct (negb (Datetime.between 0 (Datetime.second t) 59));
      [discriminate|].
    destruct (negb (Datetime.between 0 (Datetime.microsecond t) 999999));
      [discriminate|].
    fold in_month. destruct in_month eqn:Hd; cbn [negb].
    + unfold ocatch, obind.
      match goal with
      | |- context [cleanup_tables delete_lt ?c ?ts ?d] =>
          pose proof (cleanup_tables_returns c ts d) as H;
          destruct (cleanup_tables delete_lt c ts d) as [[r db1] l1]
      end.
      simpl in H. subst r. simpl.
      repeat split; try reflexivity; discriminate.
    + unfold oraise. simpl.
      repeat split; try reflexivity; discriminate.
  - unfold oraise. simpl. split; [|split; [|split]].
    + intros Hin. apply Hfit in Hin. discriminate.
    + discriminate.
    + intros _. eexists. split; reflexivity.
    + intros _. repeat split; reflexivity.
Qed.

(** X23.  [run_database_maintenance] never reports success: whatever
    the date, the store and its failures, the result is the dictionary
    with status [error].  When the cleanup gets past its own date
    arithmetic, [get_recent_changes] with [hours=24] raises. *)
Theorem maintenance_never_succeeds (db : Db) :
  exists error,
    (run_database_maintenance env delete_lt create_client db).1.1
    = Ok (Failure error).
Proof.
  unfold run_database_maintenance, ocatch.
  match goal with
  | |- context [match ?body db with _ => _ end] =>
      assert (Hb : exists e db' l, body db = (Raise e, db', l))
  end.
  { unfold obind at 1. unfold olog at 1.
    unfold obind at 1. unfold olog at 1.
    unfold obind at 1. unfold olog at 1.
    destruct create_client as [e|]; [unfold oraise; simpl; eauto|].
    unfold obind at 1. unfold olog at 1.
    unfold obind at 1.
    destruct (cleanup_old_changes env delete_lt 30 db)
      as [[[c|e] db1] l1]; [|simpl; eauto].
    unfold obind at 1. unfold olog at 1.
    unfold obind at 1.
    destruct (statistics_returns db1) as (stats & db2 & l2 & ->).
    unfold obind at 1. unfold olog at 1.
    unfold obind at 1.
    destruct (recent_changes_rejects "portfolio_companies" 24 100 db2)
      as (e & db3 & l3 & ->); [lia|].
    simpl. eauto. }
  destruct Hb as (e & db' & l & ->).
  unfold obind, olog, oret. simpl. eauto.
Qed.

(** X24.  The retry decoration of [update_site_last_scraped] never
    acts: the body catches every exception and returns [False], so the
    wrapper sees a normal return.  One request is sent, nothing is slept,
    and the result tells whether that one request failed. *)
Theorem update_site_not_retried (site_id : Z) (s : Session) :
  let req :=
    Update "sites"
      (<["last_scraped_at" :=
           VStr (Datetime.isoformat (wall env (now_calls (store s))))]> ∅)
      [Eq_ "id" (VInt site_id)] in
  let out := update_site_last_scraped env random_sample site_id s in
  out.1 = Ok (match fault env (length (executed (store s))) req with
              | None => true
              | Some _ => false
              end)
  /\ executed (store out.2) = executed (store s) ++ [req]
  /\ naps out.2 = naps s
  /\ draws out.2 = draws s.
Proof.
  intros req out.
  unfold out, update_site_last_scraped, Retry.async_wrapper,
    Retry.wrapper_traced.
  change (Z.to_nat (Retry.max_attempts update_site_policy)) with 3%nat.
  cbn [Retry.retry_loop].
  unfold lift, update_site_body, ocatch, obind, now_iso, now, oret, olog.
  cbv beta iota zeta. unfold obind, oret. cbv beta iota zeta.
  unfold execute. cbn [now_calls executed tables next_id]. fold req.
  destruct (fault env (length (executed (store s))) req) as [e|];
    simpl; repeat split; reflexivity.
Qed.

End client_more_facts.

(** [cleanup_outcome] on the second of January, for the thirty days of
    the maintenance run. *)
Lemma cleanup_outcome_witness :
  Datetime.valid (wall Samples.calm (now_calls Samples.empty_store))
  /\ (cleanup_old_changes Samples.calm refused_delete 30
        Samples.empty_store).1.1
     = Raise (Datetime.value_error "day is out of range for month").
Proof.
  assert (Hv : Datetime.valid
                 (wall Samples.calm (now_calls Samples.empty_store)))
    by reflexivity.
  split; [exact Hv|].
  apply (proj1 (proj2 (cleanup_outcome Samples.calm refused_delete 30
                         Samples.empty_store Hv))); reflexivity.
Defined.

End StoreMoreFacts.

(** ** Upserts *)

Module UpsertFacts.
Import Py Store StoreMore Cleaner.

Section upsert_more.
Variable env : Env.
Variable kind : Kind.

(** X25.  No exception leaves an upsert unlogged: when
    [upsert_portfolio_company] or [upsert_team_member] raises, the last
    message logged is the error line with the text of that exception. *)
Theorem upsert_raise_is_logged (site_id : Z) (data : dict) (db : Db) (e : exn) :
  (upsert env kind site_id data db).1.1 = Raise e ->
  last (upsert env kind site_id data db).2
  = Some (ERROR, "Error upserting " +:+ upsert_label kind +:+ ": "
                 +:+ exn_str e).
Proof.
  unfold upsert, ocatch.
  match goal with
  | |- context [match ?body db with _ => _ end] =>
      destruct (body db) as [[[a|e'] db1] l1]
  end; simpl; [discriminate|].
  intros [= <-]. rewrite ?app_nil_r. apply last_snoc.
Qed.

(** A record without a name is rejected before any request is sent. *)
Lemma upsert_without_name (site_id : Z) (data : dict) (db : Db) :
  data !! "name" = None ->
  upsert env kind site_id data db
  = (Raise (Exn KeyError "'name'" None), db,
     [(ERROR, "Error upserting " +:+ upsert_label kind +:+ ": 'name'")]).
Proof.
  intros Hname. unfold upsert, ocatch, item, obind.
  rewrite lookup_insert_ne by done. rewrite Hname. reflexivity.
Qed.

Lemma changed_fields_nonempty (old_data new_data : dict) (k : string)
    (v : value) :
  new_data !! k = Some v -> get old_data k <> v ->
  changed_fields old_data new_data <> [].
Proof.
  intros Hk Hne Hnil.
  assert (Hin : (k, (get old_data k, v)) ∈ changed_fields old_data new_data).
  { unfold changed_fields. apply list_elem_of_omap. exists (k, v). split.
    - apply elem_of_map_to_list. exact Hk.
    - simpl. rewrite bool_decide_eq_false_2 by exact Hne. reflexivity. }
  rewrite Hnil in Hin. inversion Hin.
Qed.

(** [record_company_change] and [record_member_change] return. *)
Lemma record_change_returns (entity_id : value) (old_data new_data : dict)
    (db : Db) :
  exists b, (record_change env kind entity_id old_data new_data db).1.1 = Ok b.
Proof.
  unfold record_change, ocatch.
  match goal with
  | |- context [match ?body db with _ => _ end] =>
      destruct (body db) as [[[a|e'] db1] l1]
  end; simpl; eauto.
Qed.

Lemma record_change_sends (entity_id : value) (old_data new_data : dict)
    (db : Db) :
  changed_fields old_data new_data <> [] ->
  let values := change_values env kind entity_id old_data new_data db in
  let out := record_change env kind entity_id old_data new_data db in
  executed out.1.2 = executed db ++ [Insert (change_table kind) values]
  /\ now_calls out.1.2 = S (now_calls db)
  /\ match fault env (length (executed db))
             (Insert (change_table kind) values) with
     | Some e =>
         out.1.1 = Ok false
         /\ tables out.1.2 = tables db
         /\ out.2 = [(ERROR, "Error recording " +:+ change_label kind
                             +:+ " change: " +:+ exn_str e)]
     | None =>
         out.1.1 = Ok true
         /\ tables out.1.2
            = <[change_table kind :=
                  rows (change_table kind) db
                  ++ [match values !! "id" with
                      | Some _ => values
                      | None => <["id" := VInt (next_id db)]> values
                      end]]> (tables db)
     end.
Proof.
  intros Hne values out. unfold out, record_change, ocatch.
  destruct (changed_fields old_data new_data) as [|c cs] eqn:Hc;
    [congruence|].
  unfold obind, now_iso, now, oret, olog. cbv beta iota zeta.
  unfold obind, oret. cbv beta iota zeta.
  unfold execute. cbn [now_calls executed tables next_id].
  unfold values, change_values. rewrite Hc.
  match goal with
  | |- context [fault env ?n ?r] => destruct (fault env n r) as [e|]
  end; simpl; repeat split; reflexivity.
Qed.

(** An upsert that finds the record stored under another hash: the
    select and the update, then the change record. *)
Lemma upsert_changed_steps (site_id : Z) (data : dict) (db : Db)
    (name rid : value) (r : dict) (rest : list dict) :
  (forall req, fault env (length (executed db)) req = None) ->
  (forall req, fault env (S (length (executed db))) req = None) ->
  data !! "name" = Some name ->
  data !! "id" = None ->
  List.filter (matches_all [Eq_ "site_id" (VInt site_id); Eq_ "name" name])
              (rows (table kind) db) = r :: rest ->
  r !! "id" = Some rid ->
  List.filter (matches_all [Eq_ "id" rid]) (rows (table kind) db) = [r] ->
  truthy (get r "content_hash") = true ->
  truthy (get data "content_hash") = true ->
  get r "content_hash" <> get data "content_hash" ->
  let w := written env site_id data db in
  let db1 :=
    set_rows (table kind)
      (map (fun row => if matches_all [Eq_ "id" rid] row
                       then w ∪ row else row)
           (rows (table kind) db))
      {| tables := tables db; next_id := next_id db;
         now_calls := S (S (now_calls db));
         executed := (executed db
           ++ [Select (table kind)
                 [Eq_ "site_id" (VInt site_id); Eq_ "name" name] None None])
           ++ [Update (table kind) w [Eq_ "id" rid]] |} in
  let rc := record_change env kind rid r (w ∪ r) db1 in
  let out := upsert env kind site_id data db in
  out.1 = (Ok (Some (w ∪ r)), rc.1.2)
  /\ (forall m, m ∈ rc.2 -> m ∈ out.2).
Proof.
  intros H1 H2 Hname Hdid Hsel Hid Hkey Hold Hnew Hdiff w db1 rc out.
  assert (Hwid : (w ∪ r) !! "id" = Some rid).
  { rewrite lookup_union_r; [exact Hid|].
    unfold w, written. repeat (rewrite lookup_insert_ne by done). exact Hdid. }
  destruct (record_change_returns rid r (w ∪ r) db1) as [b Hb].
  fold rc in Hb.
  assert (Hout : exists l, out = (Ok (Some (w ∪ r)), rc.1.2, l)
                           /\ forall m, m ∈ rc.2 -> m ∈ l).
  { unfold out, upsert, ocatch, item, now_iso, now, oraise, oret, olog, obind.
    rewrite lookup_insert_ne by done. rewrite Hname.
    cbv beta iota zeta.
    unfold execute at 1. rewrite H1.
    cbn [limited ordered]. rewrite Hsel.
    cbv beta iota zeta. cbn [now_calls].
    rewrite Hid. cbv beta iota zeta.
    unfold execute at 1. cbn [executed]. rewrite length_app. simpl length.
    rewrite Nat.add_1_r, H2.
    unfold rows at 1 2. cbn [tables]. fold (rows (table kind) db).
    rewrite Hkey. cbn [map].
    assert (Hnew' : get (<["site_id":=VInt site_id]> data) "content_hash"
                    = get data "content_hash").
    { unfold get at 1. rewrite lookup_insert_ne by done. reflexivity. }
    rewrite Hnew', Hold, Hnew.
    rewrite bool_decide_eq_false_2 by exact Hdiff.
    cbn [andb negb]. cbv beta iota zeta.
    cbn [next_id now_calls tables executed].
    unfold w, written in Hwid. rewrite Hwid. cbv beta iota zeta.
    change (record_change env kind rid r _ _) with rc.
    destruct rc as [[[b'|e] db2] l2]; [|discriminate Hb].
    cbn [fst snd]. eexists. split; [reflexivity|].
    intros m Hm. rewrite ?app_nil_r. simpl.
    apply elem_of_app. left. exact Hm. }
  destruct Hout as (l & -> & Hl). split; [reflexivity|exact Hl].
Qed.

Lemma written_hash (site_id : Z) (data : dict) (db : Db) (r : dict) :
  truthy (get data "content_hash") = true ->
  (written env site_id data db ∪ r) !! "content_hash"
  = Some (get data "content_hash").
Proof.
  intros Hnew. apply lookup_union_Some_l. unfold written.
  repeat (rewrite lookup_insert_ne by done).
  unfold get in *. destruct (data !! "content_hash"); [reflexivity|].
  discriminate Hnew.
Qed.

(** X26.  When the stored record and the scraped one carry different,
    non-empty hashes, a healthy store ends up with exactly one more row in
    the change table: it names the record, the previous hash and the new
    one.  Three requests were sent: select, update, insert. *)
Theorem changed_hash_recorded (site_id : Z) (data : dict) (db : Db)
    (name rid : value) (r : dict) (rest : list dict) :
  kind = company \/ kind = member ->
  (forall n req, fault env n req = None) ->
  data !! "name" = Some name ->
  data !! "id" = None ->
  List.filter (matches_all [Eq_ "site_id" (VInt site_id); Eq_ "name" name])
              (rows (table kind) db) = r :: rest ->
  r !! "id" = Some rid ->
  List.filter (matches_all [Eq_ "id" rid]) (rows (table kind) db) = [r] ->
  truthy (get r "content_hash") = true ->
  truthy (get data "content_hash") = true ->
  get r "content_hash" <> get data "content_hash" ->
  let out := upsert env kind site_id data db in
  out.1.1 = Ok (Some (written env site_id data db ∪ r))
  /\ (exists change,
        rows (change_table kind) out.1.2
        = rows (change_table kind) db ++ [change]
        /\ change !! change_key kind = Some rid
        /\ change !! "previous_hash" = Some (get r "content_hash")
        /\ change !! "new_hash" = Some (get data "content_hash"))
  /\ length (executed out.1.2) = (length (executed db) + 3)%nat.
Proof.
  intros Hkind Hcalm Hname Hdid Hsel Hid Hkey Hold Hnew Hdiff out.
  assert (Hne : table kind <> change_table kind)
    by (destruct Hkind as [-> | ->]; discriminate).
  destruct (upsert_changed_steps site_id data db name rid r rest
              (Hcalm _) (Hcalm _) Hname Hdid Hsel Hid Hkey Hold Hnew Hdiff)
    as [Hout _].
  fold out in Hout.
  set (w := written env site_id data db) in *.
  pose proof (written_hash site_id data db r Hnew) as Hwh. fold w in Hwh.
  match type of Hout with
  | _ = (_, (record_change _ _ _ _ _ ?d).1.2) => set (db1 := d) in *
  end.
  assert (Hch : changed_fields r (w ∪ r) <> []).
  { apply (changed_fields_nonempty r (w ∪ r) "content_hash"
             (get data "content_hash") Hwh Hdiff). }
  destruct (record_change_sends rid r (w ∪ r) db1 Hch) as (Hex & _ & Hf).
  rewrite Hcalm in Hf. destruct Hf as [_ Ht].
  destruct out as [[res db'] logs]. simpl in Hout.
  injection Hout as -> ->. simpl. split; [reflexivity|]. split.
  - eexists. split; [|split; [|split]].
    + unfold rows at 1. rewrite Ht, lookup_insert_eq. simpl.
      f_equal. unfold rows, db1, set_rows. simpl.
      rewrite lookup_insert_ne by done. reflexivity.
    + unfold change_values.
      destruct Hkind as [-> | ->]; simpl;
        repeat (rewrite lookup_insert_ne by done);
        rewrite lookup_empty;
        repeat (rewrite lookup_insert_ne by done);
        apply lookup_insert_eq.
    + unfold change_values.
      destruct Hkind as [-> | ->]; simpl;
        repeat (rewrite lookup_insert_ne by done);
        rewrite lookup_empty;
        repeat (rewrite lookup_insert_ne by done);
        apply lookup_insert_eq.
    + unfold change_values.
      destruct Hkind as [-> | ->]; simpl;
        repeat (rewrite lookup_insert_ne by done);
        rewrite lookup_empty;
        repeat (rewrite lookup_insert_ne by done);
        rewrite lookup_insert_eq; unfold get at 1; rewrite Hwh; reflexivity.
  - rewrite Hex. unfold db1, set_rows. simpl.
    rewrite !length_app. simpl. lia.
Qed.

(** X27.  A failure to write the change record does not fail the
    upsert.  When the store accepts the select and the update and
    rejects the third request, the updated row is still returned and
    stored, the change table is as before, and the failure is only
    logged. *)
Theorem change_record_failure_swallowed (site_id : Z) (data : dict) (db : Db)
    (name rid : value) (r : dict) (rest : list dict) (e : exn) :
  kind = company \/ kind = member ->
  (forall req, fault env (length (executed db)) req = None) ->
  (forall req, fault env (S (length (executed db))) req = None) ->
  (forall req, fault env (S (S (length (executed db)))) req = Some e) ->
  data !! "name" = Some name ->
  data !! "id" = None ->
  List.filter (matches_all [Eq_ "site_id" (VInt site_id); Eq_ "name" name])
              (rows (table kind) db) = r :: rest ->
  r !! "id" = Some rid ->
  List.filter (matches_all [Eq_ "id" rid]) (rows (table kind) db) = [r] ->
  truthy (get r "content_hash") = true ->
  truthy (get data "content_hash") = true ->
  get r "content_hash" <> get data "content_hash" ->
  let out := upsert env kind site_id data db in
  let w := written env site_id data db in
  out.1.1 = Ok (Some (w ∪ r))
  /\ rows (table kind) out.1.2
     = map (fun row => if matches_all [Eq_ "id" rid] row then w ∪ row else row)
           (rows (table kind) db)
  /\ rows (change_table kind) out.1.2 = rows (change_table kind) db
  /\ (ERROR, "Error recording " +:+ change_label kind +:+ " change: "
             +:+ exn_str e) ∈ out.2.
Proof.
  intros Hkind H1 H2 H3 Hname Hdid Hsel Hid Hkey Hold Hnew Hdiff out w.
  assert (Hne : table kind <> change_table kind)
    by (destruct Hkind as [-> | ->]; discriminate).
  destruct (upsert_changed_steps site_id data db name rid r rest
              H1 H2 Hname Hdid Hsel Hid Hkey Hold Hnew Hdiff)
    as [Hout Hlog].
  fold out in Hout, Hlog. fold w in Hout, Hlog.
  pose proof (written_hash site_id data db r Hnew) as Hwh. fold w in Hwh.
  match type of Hout with
  | _ = (_, (record_change _ _ _ _ _ ?d).1.2) => set (db1 := d) in *
  end.
  assert (Hch : changed_fields r (w ∪ r) <> []).
  { apply (changed_fields_nonempty r (w ∪ r) "content_hash"
             (get data "content_hash") Hwh Hdiff). }
  destruct (record_change_sends rid r (w ∪ r) db1 Hch) as (_ & _ & Hf).
  assert (Hlen : length (executed db1) = S (S (length (executed db)))).
  { unfold db1, set_rows. simpl. rewrite !length_app. simpl. lia. }
  rewrite Hlen, H3 in Hf. destruct Hf as (_ & Ht & Hl).
  split; [rewrite Hout; reflexivity|]. split; [|split].
  - rewrite Hout. simpl. unfold rows at 1. rewrite Ht.
    unfold db1, set_rows. simpl. rewrite lookup_insert_eq. reflexivity.
  - rewrite Hout. simpl. unfold rows at 1. rewrite Ht.
    unfold db1, set_rows, rows. simpl.
    rewrite lookup_insert_ne by done. reflexivity.
  - apply Hlog. rewrite Hl. apply list_elem_of_here.
Qed.

Lemma keyed_lookup (values : dict) (db : Db) (k : string) :
  k <> "id" -> keyed values db !! k = values !! k.
Proof.
  intros Hk. unfold keyed. destruct (values !! "id"); [reflexivity|].
  rewrite lookup_insert_ne by congruence. reflexivity.
Qed.

Lemma keyed_id (values : dict) (db : Db) :
  exists id, keyed values db !! "id" = Some id.
Proof.
  unfold keyed. destruct (values !! "id") as [id|] eqn:E; [eauto|].
  rewrite lookup_insert_eq. eauto.
Qed.

(** The first upsert of a record: select, then insert. *)
Lemma upsert_inserts (site_id : Z) (data : dict) (db : Db) (name : value) :
  (forall n req, fault env n req = None) ->
  data !! "name" = Some name ->
  List.filter (matches_all [Eq_ "site_id" (VInt site_id); Eq_ "name" name])
              (rows (table kind) db) = [] ->
  let values := created env site_id data db in
  (upsert env kind site_id data db).1
  = (Ok (Some (keyed values db)),
     {| tables := <[table kind := rows (table kind) db ++ [keyed values db]]>
                    (tables db);
        next_id := next_id db + 1;
        now_calls := S (S (S (now_calls db)));
        executed := (executed db
          ++ [Select (table kind)
                [Eq_ "site_id" (VInt site_id); Eq_ "name" name] None None])
          ++ [Insert (table kind) values] |}).
Proof.
  intros Hcalm Hname Hsel values.
  unfold upsert, ocatch, item, now_iso, now, oraise, oret, olog, obind.
  rewrite lookup_insert_ne by done. rewrite Hname.
  cbv beta iota zeta.
  unfold execute at 1. rewrite Hcalm.
  cbn [limited ordered]. rewrite Hsel.
  cbv beta iota zeta. cbn [now_calls].
  unfold execute at 1. rewrite Hcalm.
  cbv beta iota zeta. cbn [fst snd next_id now_calls tables executed].
  unfold rows at 1. cbn [tables]. fold (rows (table kind) db).
  reflexivity.
Qed.

(** An upsert that finds the record stored under the same hash: select,
    then update, and no change record. *)
Lemma upsert_same_hash (site_id : Z) (data : dict) (db : Db)
    (name rid : value) (r x : dict) (rest xs : list dict) :
  (forall n req, fault env n req = None) ->
  data !! "name" = Some name ->
  List.filter (matches_all [Eq_ "site_id" (VInt site_id); Eq_ "name" name])
              (rows (table kind) db) = r :: rest ->
  r !! "id" = Some rid ->
  List.filter (matches_all [Eq_ "id" rid]) (rows (table kind) db) = x :: xs ->
  get r "content_hash" = get data "content_hash" ->
  let w := written env site_id data db in
  (upsert env kind site_id data db).1
  = (Ok (Some (w ∪ x)),
     set_rows (table kind)
       (map (fun row => if matches_all [Eq_ "id" rid] row
                        then w ∪ row else row)
            (rows (table kind) db))
       {| tables := tables db; next_id := next_id db;
          now_calls := S (S (now_calls db));
          executed := (executed db
            ++ [Select (table kind)
                  [Eq_ "site_id" (VInt site_id); Eq_ "name" name] None None])
            ++ [Update (table kind) w [Eq_ "id" rid]] |}).
Proof.
  intros Hcalm Hname Hsel Hid Hkey Hhash w.
  unfold upsert, ocatch, item, now_iso, now, oraise, oret, olog, obind.
  rewrite lookup_insert_ne by done. rewrite Hname.
  cbv beta iota zeta.
  unfold execute at 1. rewrite Hcalm.
  cbn [limited ordered]. rewrite Hsel.
  cbv beta iota zeta. cbn [now_calls].
  rewrite Hid. cbv beta iota zeta.
  unfold execute at 1. rewrite Hcalm.
  unfold rows at 1 2. cbn [tables]. fold (rows (table kind) db).
  rewrite Hkey. cbn [map].
  assert (Hnew : get (<["site_id":=VInt site_id]> data) "content_hash"
                 = get r "content_hash").
  { unfold get at 1. rewrite lookup_insert_ne by done. symmetry. exact Hhash. }
  rewrite Hnew. rewrite bool_decide_eq_true_2 by reflexivity.
  rewrite andb_false_r.
  cbv beta iota zeta. cbn [fst snd next_id now_calls tables executed app].
  unfold w, written. reflexivity.
Qed.

(** X28.  Upserting is idempotent on rows.  On a healthy store that
    does not hold the record yet, the first upsert inserts it and a
    second upsert of the same record finds that row and updates it: the
    table has grown by one row, not two, the second call sent a select
    and an update, and no change record was written. *)
Theorem second_upsert_updates (site_id : Z) (data : dict) (db : Db)
    (name : value) :
  kind = company \/ kind = member ->
  (forall n req, fault env n req = None) ->
  data !! "name" = Some name ->
  List.filter (matches_all [Eq_ "site_id" (VInt site_id); Eq_ "name" name])
              (rows (table kind) db) = [] ->
  let o1 := upsert env kind site_id data db in
  let o2 := upsert env kind site_id data o1.1.2 in
  o1.1.1 = Ok (Some (keyed (created env site_id data db) db))
  /\ (exists row, o2.1.1 = Ok (Some row) /\ row !! "name" = Some name)
  /\ length (rows (table kind) o2.1.2) = S (length (rows (table kind) db))
  /\ rows (change_table kind) o2.1.2 = rows (change_table kind) db
  /\ (exists id,
        executed o2.1.2
        = executed o1.1.2
          ++ [Select (table kind)
                [Eq_ "site_id" (VInt site_id); Eq_ "name" name] None None;
              Update (table kind) (written env site_id data o1.1.2)
                     [Eq_ "id" id]]).
Proof.
  intros Hkind Hcalm Hname Hsel o1 o2.
  assert (Hne : table kind <> change_table kind)
    by (destruct Hkind as [-> | ->]; discriminate).
  pose proof (upsert_inserts site_id data db name Hcalm Hname Hsel) as E1.
  cbv zeta in E1. fold o1 in E1.
  set (row := keyed (created env site_id data db) db) in *.
  destruct o1 as [[res1 db1] l1]. simpl in E1. injection E1 as -> Hdb1.
  cbn [fst snd] in o2 |- *.
  assert (Hrows : rows (table kind) db1 = rows (table kind) db ++ [row]).
  { rewrite Hdb1. unfold rows at 1. simpl. rewrite lookup_insert_eq.
    reflexivity. }
  assert (Hrn : row !! "name" = Some name).
  { unfold row. rewrite keyed_lookup by done. unfold created.
    repeat (rewrite lookup_insert_ne by done). exact Hname. }
  assert (Hrs : row !! "site_id" = Some (VInt site_id)).
  { unfold row. rewrite keyed_lookup by done. unfold created.
    repeat (rewrite lookup_insert_ne by done). apply lookup_insert_eq. }
  assert (Hm : matches_all [Eq_ "site_id" (VInt site_id); Eq_ "name" name] row
               = true).
  { unfold matches_all. simpl.
    rewrite !bool_decide_eq_true_2 by assumption. reflexivity. }
  assert (Hsel1 : List.filter
                    (matches_all [Eq_ "site_id" (VInt site_id);
                                  Eq_ "name" name])
                    (rows (table kind) db1) = [row]).
  { rewrite Hrows, List.filter_app, Hsel. cbn [List.filter app].
    rewrite Hm. reflexivity. }
  destruct (keyed_id (created env site_id data db) db) as [rid Hrid].
  fold row in Hrid.
  assert (Hresp : exists x xs,
            List.filter (matches_all [Eq_ "id" rid]) (rows (table kind) db1)
            = x :: xs).
  { destruct (List.filter (matches_all [Eq_ "id" rid])
                (rows (table kind) db1)) as [|x xs] eqn:E; [|eauto].
    exfalso.
    assert (Hin : In row (List.filter (matches_all [Eq_ "id" rid])
                            (rows (table kind) db1))).
    { apply List.filter_In. split.
      - rewrite Hrows. apply in_or_app. right. left. reflexivity.
      - unfold matches_all. simpl.
        rewrite bool_decide_eq_true_2 by exact Hrid. reflexivity. }
    rewrite E in Hin. exact Hin. }
  destruct Hresp as (x & xs & Hresp).
  assert (Hhash : get row "content_hash" = get data "content_hash").
  { unfold get, row. rewrite keyed_lookup by done. unfold created.
    repeat (rewrite lookup_insert_ne by done). reflexivity. }
  pose proof (upsert_same_hash site_id data db1 name rid row x [] xs
                Hcalm Hname Hsel1 Hrid Hresp Hhash) as E2.
  cbv zeta in E2. fold o2 in E2.
  destruct o2 as [[res2 db2] l2]. simpl in E2. injection E2 as -> ->.
  cbn [fst snd]. split; [reflexivity|]. split; [|split; [|split]].
  - eexists. split; [reflexivity|].
    apply lookup_union_Some_l. unfold written.
    repeat (rewrite lookup_insert_ne by done). exact Hname.
  - unfold rows at 1, set_rows. simpl. rewrite lookup_insert_eq. simpl.
    rewrite length_map, Hrows, length_app. simpl. lia.
  - unfold rows at 1, set_rows. simpl.
    rewrite lookup_insert_ne by done. rewrite Hdb1. simpl.
    rewrite lookup_insert_ne by done. reflexivity.
  - exists rid. simpl. rewrite <- app_assoc. reflexivity.
Qed.

End upsert_more.

Section cleaned.
Variable K : Kernels.
Variable base_url : value.

Lemma member_without_name (now : Datetime.datetime) (raw_data : dict) :
  truthy (get_or raw_data "name" (VStr EmptyString)) = false ->
  clean_team_member K base_url now raw_data !! "name" = None.
Proof.
  intros H. unfold clean_team_member. rewrite H. cbv zeta.
  repeat (rewrite lookup_insert_ne by done). apply lookup_empty.
Qed.

(** X29.  [clean_team_member] sets no [name] on a member scraped
    without one, and returns the record all the same; handing that
    record to [upsert_team_member] raises [KeyError] on the name, before
    any request is sent to the store. *)
Theorem nameless_member_rejected (env : Env) (site_id : Z)
    (now : Datetime.datetime) (raw_data : dict) (db : Db) :
  truthy (get_or raw_data "name" (VStr EmptyString)) = false ->
  let cleaned := clean_team_member K base_url now raw_data in
  cleaned !! "name" = None
  /\ cleaned !! "content_hash" <> None
  /\ upsert_team_member env site_id cleaned db
     = (Raise (Exn KeyError "'name'" None), db,
        [(ERROR, "Error upserting team member: 'name'")]).
Proof.
  intros H cleaned.
  pose proof (member_without_name now raw_data H) as Hn. fold cleaned in Hn.
  split; [exact Hn|]. split.
  - unfold cleaned, clean_team_member. cbv zeta.
    rewrite lookup_insert_eq. discriminate.
  - unfold upsert_team_member.
    rewrite (upsert_without_name env member site_id cleaned db Hn).
    reflexivity.
Qed.

End cleaned.

(** [upsert_raise_is_logged] on a store that cannot be reached. *)
Lemma upsert_raise_is_logged_witness :
  let e := Exn Exception "connection refused" None in
  (upsert unreachable company 7 Samples.acme_again Samples.empty_store).1.1
  = Raise e
  /\ last (upsert unreachable company 7 Samples.acme_again
             Samples.empty_store).2
     = Some (ERROR, "Error upserting portfolio company: connection refused").
Proof.
  intros e.
  assert (H : (upsert unreachable company 7 Samples.acme_again
                 Samples.empty_store).1.1 = Raise e)
    by (vm_compute; reflexivity).
  split; [exact H|].
  exact (upsert_raise_is_logged unreachable company 7 Samples.acme_again
           Samples.empty_store e H).
Defined.

(** [nameless_member_rejected] for a scraped member that has only a
    title. *)
Lemma nameless_member_rejected_witness :
  let raw_data : dict := {[ "title" := VStr "Partner" ]} in
  truthy (get_or raw_data "name" (VStr EmptyString)) = false
  /\ clean_team_member plain_kernels VNone Samples.day2 raw_data !! "name"
     = None.
Proof.
  intros raw_data.
  assert (H : truthy (get_or raw_data "name" (VStr EmptyString)) = false)
    by (vm_compute; reflexivity).
  split; [exact H|].
  exact (proj1 (nameless_member_rejected plain_kernels VNone Samples.calm 7
                  Samples.day2 raw_data Samples.empty_store H)).
Defined.

(** [changed_hash_recorded] for the stored company scraped again with
    another sector. *)
Lemma changed_hash_recorded_witness :
  let out := upsert Samples.calm company 7 acme_changed Samples.acme_store in
  get Samples.acme_row "content_hash" <> get acme_changed "content_hash"
  /\ out.1.1
     = Ok (Some (written Samples.calm 7 acme_changed Samples.acme_store
                 ∪ Samples.acme_row))
  /\ length (executed out.1.2) = 3%nat.
Proof.
  intros out.
  assert (Hdiff : get Samples.acme_row "content_hash"
                  <> get acme_changed "content_hash")
    by (vm_compute; discriminate).
  split; [exact Hdiff|].
  assert (H := changed_hash_recorded Samples.calm company 7 acme_changed
                 Samples.acme_store (VStr "Acme") (VInt 1) Samples.acme_row []
                 (or_introl eq_refl) (fun _ _ => eq_refl) eq_refl eq_refl
                 eq_refl eq_refl eq_refl eq_refl eq_refl Hdiff).
  destruct H as (H1 & _ & H3). split; [exact H1 | exact H3].
Defined.

(** [change_record_failure_swallowed] on a store that fails on its third
    request. *)
Lemma change_record_failure_swallowed_witness :
  let out := upsert fails_third company 7 acme_changed Samples.acme_store in
  (forall req, fault fails_third 2 req
               = Some (Exn Exception "relation does not exist" None))
  /\ out.1.1
     = Ok (Some (written fails_third 7 acme_changed Samples.acme_store
                 ∪ Samples.acme_row))
  /\ rows (change_table company) out.1.2
     = rows (change_table company) Samples.acme_store.
Proof.
  intros out.
  assert (Hdiff : get Samples.acme_row "content_hash"
                  <> get acme_changed "content_hash")
    by (vm_compute; discriminate).
  split; [intros req; reflexivity|].
  assert (H := change_record_failure_swallowed fails_third company 7
                 acme_changed Samples.acme_store (VStr "Acme") (VInt 1)
                 Samples.acme_row []
                 (Exn Exception "relation does not exist" None)
                 (or_introl eq_refl) (fun _ => eq_refl) (fun _ => eq_refl)
                 (fun _ => eq_refl) eq_refl eq_refl
                 eq_refl eq_refl eq_refl eq_refl eq_refl Hdiff).
  destruct H as (H1 & _ & H3 & _). split; [exact H1 | exact H3].
Defined.

(** [second_upsert_updates] on an empty store. *)
Lemma second_upsert_updates_witness :
  let o1 := upsert Samples.calm company 7 Samples.acme_again
                   Samples.empty_store in
  let o2 := upsert Samples.calm company 7 Samples.acme_again o1.1.2 in
  Samples.acme_again !! "name" = Some (VStr "Acme")
  /\ length (rows (table company) o2.1.2) = 1%nat.
Proof.
  intros o1 o2. split; [reflexivity|].
  assert (H := second_upsert_updates Samples.calm company 7 Samples.acme_again
                 Samples.empty_store (VStr "Acme") (or_introl eq_refl)
                 (fun _ _ => eq_refl) eq_refl eq_refl).
  destruct H as (_ & _ & H3 & _). exact H3.
Defined.

End UpsertFacts.

(** ** Cleaning and validation of deals *)

Module CleanerMoreFacts.
Import Py Cleaner CleanerMore.

Section deals.
Variable K : Kernels.
Variable base_url : value.

(** X30.  A deal that [clean_deal_data] returned and
    [validate_deal_data] accepts was scraped with a funding description
    and a round type: the cleaner sets the funding fields only from a
    non-empty description, and leaves the round empty when none was
    scraped, whatever the text-processing helpers compute. *)
Theorem validated_deal_has_terms (now : Datetime.datetime) (raw_data : dict)
    (article_pub_date : option string) (cleaned : dict) :
  clean_deal_data K base_url now raw_data article_pub_date = Ok (Some cleaned) ->
  validate_deal_data cleaned = true ->
  truthy (get_or raw_data "funding_amount_description" (VStr EmptyString))
  = true
  /\ truthy (get raw_data "round_type") = true
  /\ cleaned !! "startup_name"
     = Some (clean_text K (get_or raw_data "startup_name" (VStr EmptyString))
                        None).
Proof.
  intros Hc Hv. unfold clean_deal_data in Hc.
  destruct (negb (truthy (clean_text K
              (get_or raw_data "startup_name" (VStr EmptyString)) None)));
    [discriminate|].
  set (c1 := <["company_website" := _]> (<["startup_name" := _]> ∅)) in Hc.
  set (c2 := if truthy (get_or raw_data "funding_amount_description"
                          (VStr EmptyString)) then _ else c1) in Hc.
  destruct (match get_or raw_data "other_investors" (VList []) with
            | VList l => clean_investors K l
            | _ => Ok []
            end) as [investors|e]; [|discriminate].
  destruct (if truthy (get_or raw_data "summary" (VStr EmptyString))
               && negb (truthy (get raw_data "location"))
            then extract_location_from_summary K
                   (get_or raw_data "summary" (VStr EmptyString))
            else (get raw_data "location",
                  get_or raw_data "summary" (VStr EmptyString)))
    as [location summary].
  assert (Hname : c2 !! "startup_name"
                  = Some (clean_text K (get_or raw_data "startup_name"
                                          (VStr EmptyString)) None)).
  { unfold c2, c1.
    destruct (truthy _); [destruct (parse_funding_amount K _)|];
      repeat (rewrite lookup_insert_ne by done); apply lookup_insert_eq. }
  assert (Hfund : truthy (get_or raw_data "funding_amount_description"
                            (VStr EmptyString)) = false ->
                  c2 !! "funding_amount_description" = None
                  /\ c2 !! "funding_amount" = None).
  { intros Hf. unfold c2, c1. rewrite Hf.
    split; repeat (rewrite lookup_insert_ne by done); apply lookup_empty. }
  clearbody c2. clear c1.
  cbv zeta in Hc.
  assert (Hl : forall k, k <> "content_hash" -> k <> "extracted_at" ->
                 k <> "article_publication_date" ->
                 k <> "source_article_title" -> k <> "source_article_url" ->
                 k <> "summary" -> k <> "location" ->
                 k <> "other_investors" -> k <> "lead_investor" ->
                 cleaned !! k
                 = (<["round_type" := standardize_funding_stage K
                                        (get raw_data "round_type")]> c2) !! k).
  { intros k ? ? ? ? ? ? ? ? ?.
    destruct article_pub_date as [d|]; [destruct (truthy (VStr d))|];
      injection Hc as <-;
      repeat (rewrite lookup_insert_ne by congruence); reflexivity. }
  clear Hc.
  unfold validate_deal_data, get in Hv.
  rewrite !Hl in Hv by done.
  rewrite lookup_insert_eq in Hv.
  rewrite !lookup_insert_ne in Hv by done.
  rewrite Hl by done. rewrite lookup_insert_ne by done.
  split; [|split; [|exact Hname]].
  - destruct (truthy (get_or raw_data "funding_amount_description"
                        (VStr EmptyString))) eqn:Hf; [reflexivity|].
    destruct (Hfund eq_refl) as [E1 E2]. rewrite E1, E2 in Hv. simpl in Hv.
    destruct (negb (truthy (default VNone (c2 !! "startup_name"))));
      discriminate.
  - unfold standardize_funding_stage in Hv.
    destruct (truthy (get raw_data "round_type")); [reflexivity|].
    simpl in Hv.
    repeat match type of Hv with
           | (if ?c then _ else _) = _ => destruct c; simpl in Hv
           end; discriminate.
Qed.

End deals.

(** [validated_deal_has_terms] for a seed round. *)
Lemma validated_deal_has_terms_witness :
  clean_deal_data plain_kernels VNone Samples.day2 seed_deal None
  = Ok (Some seed_cleaned)
  /\ validate_deal_data seed_cleaned = true
  /\ truthy (get seed_deal "round_type") = true.
Proof.
  assert (Hc : clean_deal_data plain_kernels VNone Samples.day2 seed_deal None
               = Ok (Some seed_cleaned)) by reflexivity.
  assert (Hv : validate_deal_data seed_cleaned = true) by reflexivity.
  split; [exact Hc|]. split; [exact Hv|].
  exact (proj1 (proj2 (validated_deal_has_terms plain_kernels VNone
                         Samples.day2 seed_deal None seed_cleaned Hc Hv))).
Defined.

End CleanerMoreFacts.
